(** * CoRe: clinical record projection and sheet upsert

    A shallow embedding of [app.py]: the value helpers ([sv],
    [calculate_age]), the two row builders ([build_doentes_row],
    [build_visitas_row]), the sheet operations ([get_or_create_sheet],
    [update_doentes_sheet]) and the extraction step of [main]
    ([extract_with_gemini] and the handler around it); further the
    parsers of the uploads ([parse_docx], [parse_pdf]), the password
    check ([check_password]), the review ([render_review]) and the runs
    of [main] over the session and the spreadsheet.

    Conventions.
    - Python text is a [string] holding its UTF-8 bytes.  The character
      classes used by [str.strip], [\s] and [\d] are modelled on their
      ASCII members.
    - A JSON document decoded by [json.loads] is a [value].  A Python
      [dict] keeps its insertion order, so it is an association list;
      lookup returns the first binding of a key.
    - A Python exception is an [exn]; a computation that may raise
      returns a [result]. *)

From Stdlib Require Import List String Ascii ZArith Bool Arith Lia.
From Stdlib Require Import Permutation.
From Stdlib Require Import Numbers.DecimalString.
Import ListNotations.
Open Scope string_scope.

Set Warnings "-register-all".

(** ** Python values and exceptions *)

(** The values [json.loads] can return.  A float is carried by the text
    [repr] prints for it, which determines the float. *)
Inductive value : Type :=
| VNone : value
| VBool : bool -> value
| VInt : Z -> value
| VFloat : string -> value
| VStr : string -> value
| VList : list value -> value
| VDict : list (string * value) -> value.

Definition dict : Type := list (string * value).

Inductive exn : Type :=
| KeyError
| AttributeError
| TypeError
| ValueError
| JSONDecodeError
| APIError.

Inductive result (A : Type) : Type :=
| Ok : A -> result A
| Raise : exn -> result A.

Arguments Ok {A} _.
Arguments Raise {A} _.

Definition bind {A B : Type} (c : result A) (k : A -> result B) : result B :=
  match c with
  | Ok a => k a
  | Raise e => Raise e
  end.

Notation "x <- c ;; k" := (bind c (fun x => k))
  (at level 61, c at next level, right associativity).

(** Evaluates a list display left to right; the first exception wins. *)
Fixpoint sequence {A : Type} (cs : list (result A)) : result (list A) :=
  match cs with
  | [] => Ok []
  | c :: cs' => x <- c ;; xs <- sequence cs' ;; Ok (x :: xs)
  end.

Fixpoint dict_lookup (m : dict) (key : string) : option value :=
  match m with
  | [] => None
  | (k, v) :: m' => if String.eqb k key then Some v else dict_lookup m' key
  end.

(** [obj[key]]: [KeyError] on a dict without the key, [TypeError] on a
    value that a string cannot index. *)
Definition getitem (obj : value) (key : string) : result value :=
  match obj with
  | VDict m =>
      match dict_lookup m key with
      | Some v => Ok v
      | None => Raise KeyError
      end
  | _ => Raise TypeError
  end.

(** [obj.get(key, default)]: only a dict has the method. *)
Definition get (obj : value) (key : string) (default : value) : result value :=
  match obj with
  | VDict m =>
      match dict_lookup m key with
      | Some v => Ok v
      | None => Ok default
      end
  | _ => Raise AttributeError
  end.

(** Truth value of an object, as [or] tests it. *)
Definition truthy (v : value) : bool :=
  match v with
  | VNone => false
  | VBool b => b
  | VInt n => negb (Z.eqb n 0)
  | VFloat r => negb (String.eqb r "0.0" || String.eqb r "-0.0")
  | VStr s => negb (String.eqb s "")
  | VList l => match l with [] => false | _ => true end
  | VDict m => match m with [] => false | _ => true end
  end.

(** [a or b] *)
Definition py_or (a b : value) : value := if truthy a then a else b.

Definition str_of_int (n : Z) : string := NilZero.string_of_int (Z.to_int n).

(** ** Calendar dates *)

Record date : Type := mkdate { year : Z; month : Z; day : Z }.

Definition is_leap (y : Z) : bool :=
  ((y mod 4 =? 0) && negb (y mod 100 =? 0) || (y mod 400 =? 0))%Z.

Definition days_in_month (y m : Z) : Z :=
  (if m =? 2 then (if is_leap y then 29 else 28)
   else if (m =? 4) || (m =? 6) || (m =? 9) || (m =? 11) then 30
   else 31)%Z.

(** [datetime.date] accepts years 1 to 9999 and days of the month. *)
Definition valid_date (y m d : Z) : bool :=
  ((1 <=? y) && (y <=? 9999) && (1 <=? m) && (m <=? 12)
   && (1 <=? d) && (d <=? days_in_month y m))%Z.

Definition digit_of (c : ascii) : option Z :=
  let n := nat_of_ascii c in
  if (48 <=? n)%nat && (n <=? 57)%nat then Some (Z.of_nat (n - 48)) else None.

(** The directive [%Y]: exactly four digits. *)
Definition parse_Y (s : string) : option (Z * string) :=
  match s with
  | String a (String b (String c (String d rest))) =>
      match digit_of a, digit_of b, digit_of c, digit_of d with
      | Some x, Some y, Some z, Some w =>
          Some (1000 * x + 100 * y + 10 * z + w, rest)%Z
      | _, _, _, _ => None
      end
  | _ => None
  end.

Definition two_digits (s : string) : option (Z * Z * string) :=
  match s with
  | String a (String b rest) =>
      match digit_of a, digit_of b with
      | Some x, Some y => Some (x, y, rest)
      | _, _ => None
      end
  | _ => None
  end.

Definition one_digit (s : string) : option (Z * string) :=
  match s with
  | String a rest =>
      match digit_of a with
      | Some x => Some (x, rest)
      | None => None
      end
  | _ => None
  end.

(** The directive [%m] followed by the literal [-]: the alternatives
    [1[0-2]], [0[1-9]], [[1-9]] are tried in this order, and one is kept
    only if a dash follows it. *)
Definition parse_m_dash (s : string) : option (Z * string) :=
  let two :=
    match two_digits s with
    | Some (x, y, String c rest) =>
        if Ascii.eqb c "-"
           && (((x =? 1) && (y <=? 2)) || ((x =? 0) && (1 <=? y)))%Z
        then Some (10 * x + y, rest)%Z else None
    | _ => None
    end in
  match two with
  | Some r => Some r
  | None =>
      match one_digit s with
      | Some (x, String c rest) =>
          if Ascii.eqb c "-" && (1 <=? x)%Z then Some (x, rest) else None
      | _ => None
      end
  end.

(** The directive [%d] at the end of the format: the alternatives
    [3[01]], [[12]\d], [0[1-9]], [[1-9]], [ [1-9]] in this order; the
    first that matches is kept. *)
Definition parse_d (s : string) : option (Z * string) :=
  let two :=
    match two_digits s with
    | Some (x, y, rest) =>
        if (((x =? 3) && (y <=? 1)) || (x =? 1) || (x =? 2)
            || ((x =? 0) && (1 <=? y)))%Z
        then Some (10 * x + y, rest)%Z else None
    | None => None
    end in
  match two with
  | Some r => Some r
  | None =>
      match one_digit s with
      | Some (x, rest) => if (1 <=? x)%Z then Some (x, rest) else None
      | None =>
          match s with
          | String sp rest =>
              if Ascii.eqb sp " " then
                match one_digit rest with
                | Some (x, rest') =>
                    if (1 <=? x)%Z then Some (x, rest') else None
                | None => None
                end
              else None
          | EmptyString => None
          end
      end
  end.

(** [datetime.strptime(s, "%Y-%m-%d").date()]: [TypeError] when the
    argument is not text, [ValueError] when the text does not match the
    format, when text remains after the match, or when the fields are
    not a date. *)
Definition strptime_ymd (arg : value) : result date :=
  match arg with
  | VStr s =>
      match parse_Y s with
      | Some (y, String c s1) =>
          if Ascii.eqb c "-" then
            match parse_m_dash s1 with
            | Some (m, s2) =>
                match parse_d s2 with
                | Some (d, EmptyString) =>
                    if valid_date y m d then Ok (mkdate y m d)
                    else Raise ValueError
                | _ => Raise ValueError
                end
            | None => Raise ValueError
            end
          else Raise ValueError
      | _ => Raise ValueError
      end
  | _ => Raise TypeError
  end.

(** Tuple comparison [(m1, d1) < (m2, d2)]. *)
Definition md_lt (m1 d1 m2 d2 : Z) : bool :=
  ((m1 <? m2) || ((m1 =? m2) && (d1 <? d2)))%Z.

Definition zfill (width : nat) (s : string) : string :=
  String.concat "" (repeat "0" (width - String.length s)) ++ s.

(** [date.isoformat()] *)
Definition isoformat (t : date) : string :=
  zfill 4 (str_of_int (year t)) ++ "-" ++ zfill 2 (str_of_int (month t))
  ++ "-" ++ zfill 2 (str_of_int (day t)).

(** [calculate_age]; [today] is the value of [date.today()].  Every
    exception of the body is caught and gives [None]. *)
Definition calculate_age (today : date) (dob_str : value) : option Z :=
  match strptime_ymd dob_str with
  | Ok dob =>
      Some (year today - year dob
            - Z.b2z (md_lt (month today) (day today) (month dob) (day dob)))%Z
  | Raise _ => None
  end.

Definition value_of_age (age : option Z) : value :=
  match age with
  | Some a => VInt a
  | None => VNone
  end.

(** ** Constants *)

Definition SHEET_DOENTES : string := "Doentes".
Definition SHEET_VISITAS : string := "Visitas_Análises".
Definition SHEET_EVENTOS : string := "Eventos".

Definition HEADERS_DOENTES : list string :=
  [ "N_Processo"; "Data_Nascimento"; "Idade"; "Sexo"; "Localidade";
    "Profissao"; "Frailty_CFS"; "Referenciacao";
    "DM2"; "Tabagismo"; "HTA"; "Dislipidemia"; "Obesidade";
    "SAOS"; "Sedentarismo"; "HxFamiliar_DC";
    "DAP"; "DPOC"; "Doenca_hepatica"; "HBP"; "FA"; "Outras_comorbilidades";
    "IC_FE_tipo"; "IC_Etiologia"; "IC_FEVE_atual_pct"; "IC_FEVE_trajetoria";
    "DRC_Grau"; "DRC_Albuminuria"; "DRC_Etiologia";
    "Fenotipo_congestao";
    "POCUS_FE_pct"; "POCUS_EE_ratio"; "POCUS_LinhasB_N"; "POCUS_VCI_mm";
    "RASi"; "RASi_farmaco"; "RASi_dose";
    "MRA"; "MRA_farmaco"; "MRA_dose";
    "iSGLT2"; "iSGLT2_farmaco"; "iSGLT2_dose";
    "GLP1RA"; "GLP1RA_farmaco"; "GLP1RA_dose";
    "Estatina"; "Estatina_farmaco"; "Estatina_dose";
    "Diuretico_ansa"; "Diuretico_ansa_farmaco"; "Diuretico_ansa_dose";
    "Diuretico_tiazida"; "Diuretico_tiazida_farmaco"; "Diuretico_tiazida_dose";
    "Acetazolamida"; "Acetazolamida_farmaco"; "Acetazolamida_dose";
    "BetaBloqueante"; "BetaBloqueante_farmaco"; "BetaBloqueante_dose";
    "Antiagregante"; "Antiagregante_farmaco"; "Antiagregante_dose";
    "Anticoagulante"; "Anticoagulante_farmaco"; "Anticoagulante_dose";
    "Ivabradina"; "Ivabradina_farmaco"; "Ivabradina_dose";
    "Data_ultima_consulta" ].

Definition HEADERS_VISITAS : list string :=
  [ "N_Processo"; "Data_consulta";
    "Ureia"; "Creatinina"; "Cistatina_C"; "TFGe_CKD_EPI_CrCist";
    "RACu_mg_g"; "RPC_mg_g"; "Na_urinario";
    "Albumina"; "ALT"; "AST"; "GGT"; "Bilirrubina_total";
    "Na"; "K"; "Cl"; "Ca"; "P"; "Mg";
    "PTH"; "Vit_D";
    "NT_proBNP"; "BNP"; "CA125";
    "Hgb"; "Leucocitos"; "Plaquetas";
    "HCO3"; "Ca_ionizado";
    "Sumario_urina";
    "NYHA"; "CCS"; "Ortopneia"; "Bendopneia"; "Edemas_MI";
    "Claudicacao_intermitente"; "Palpitacoes";
    "Peso_kg"; "Altura_m"; "IMC"; "TA_sist"; "TA_diast"; "FC"; "SpO2" ].

Definition HEADERS_EVENTOS : list string :=
  [ "N_Processo"; "Data_evento"; "Tipo_evento"; "Causa_descricao";
    "Data_registo" ].

Definition MED_LABELS : list (string * string) :=
  [ ("rasi", "RASi (IECA/ARA/ARNi)");
    ("mra", "MRA");
    ("isglt2", "iSGLT2");
    ("glp1ra", "GLP-1RA");
    ("estatina", "Estatina");
    ("diuretico_ansa", "Diurético de ansa");
    ("diuretico_tiazida", "Diurético tiazida");
    ("acetazolamida", "Acetazolamida");
    ("beta_bloqueante", "Beta-bloqueante");
    ("antiagregante", "Antiagregante");
    ("anticoagulante", "Anticoagulante");
    ("ivabradina", "Ivabradina") ].

(** ** Value helpers and row builders *)

Section RowBuilders.

(** The text [str] gives for a list or a dict (their [repr]); the
    builders only pass it through. *)
Variable container_repr : value -> string.

(** The builtin [str]. *)
Definition str (val : value) : string :=
  match val with
  | VNone => "None"
  | VBool true => "True"
  | VBool false => "False"
  | VInt n => str_of_int n
  | VFloat r => r
  | VStr s => s
  | VList _ => container_repr val
  | VDict _ => container_repr val
  end.

(** safe value -> string *)
Definition sv (val : value) : string :=
  match val with
  | VNone => ""
  | VBool true => "Sim"
  | VBool false => "Não"
  | _ => str val
  end.

(** [sv(obj.get(key))] *)
Definition sv_get (obj : value) (key : string) : result string :=
  v <- get obj key VNone ;; Ok (sv v).

(** The inner function [med3] of [build_doentes_row]; [med] is the
    variable it closes over. *)
Definition med3 (med : value) (key : string) : result (list string) :=
  mk <- get med key VNone ;;
  let m := py_or mk (VDict []) in
  sequence [ sv_get m "presente"; sv_get m "farmaco"; sv_get m "dose" ].

Definition build_doentes_row (today : date) (n_processo : string)
    (extracted : value) : result (list string) :=
  d <- getitem extracted "doente" ;;
  frcv <- get d "frcv" (VDict []) ;;
  co <- get d "comorbilidades" (VDict []) ;;
  ic <- get d "ic" (VDict []) ;;
  drc <- get d "drc" (VDict []) ;;
  poc <- get d "pocus" (VDict []) ;;
  med <- get d "medicacao" (VDict []) ;;
  dn <- get d "data_nascimento" VNone ;;
  let age := calculate_age today (py_or dn (VStr "")) in
  cells <- sequence
    [ Ok n_processo;
      sv_get d "data_nascimento"; Ok (sv (value_of_age age));
      sv_get d "sexo"; sv_get d "localidade";
      sv_get d "profissao"; sv_get d "frailty_cfs";
      sv_get d "referenciacao";
      sv_get frcv "dm2"; sv_get frcv "tabagismo"; sv_get frcv "hta";
      sv_get frcv "dislipidemia"; sv_get frcv "obesidade";
      sv_get frcv "saos"; sv_get frcv "sedentarismo";
      sv_get frcv "hx_familiar_dc";
      sv_get co "dap"; sv_get co "dpoc"; sv_get co "doenca_hepatica";
      sv_get co "hbp"; sv_get co "fa"; sv_get co "outras";
      sv_get ic "tipo_fe"; sv_get ic "etiologia";
      sv_get ic "feve_atual"; sv_get ic "feve_trajetoria";
      sv_get drc "grau"; sv_get drc "albuminuria"; sv_get drc "etiologia";
      sv_get d "fenotipo_congestao";
      sv_get poc "fe_pct"; sv_get poc "ee_ratio";
      sv_get poc "linhas_b_n"; sv_get poc "vci_mm" ] ;;
  m1 <- med3 med "rasi" ;;
  m2 <- med3 med "mra" ;;
  m3 <- med3 med "isglt2" ;;
  m4 <- med3 med "glp1ra" ;;
  m5 <- med3 med "estatina" ;;
  m6 <- med3 med "diuretico_ansa" ;;
  m7 <- med3 med "diuretico_tiazida" ;;
  m8 <- med3 med "acetazolamida" ;;
  m9 <- med3 med "beta_bloqueante" ;;
  m10 <- med3 med "antiagregante" ;;
  m11 <- med3 med "anticoagulante" ;;
  m12 <- med3 med "ivabradina" ;;
  Ok (cells ++ m1 ++ m2 ++ m3 ++ m4 ++ m5 ++ m6 ++ m7 ++ m8 ++ m9 ++ m10
      ++ m11 ++ m12 ++ [isoformat today])%list.

Definition build_visitas_row (n_processo : string) (extracted : value)
    : result (list string) :=
  v <- getitem extracted "visita" ;;
  a <- get v "analises" (VDict []) ;;
  s <- get v "sintomas" (VDict []) ;;
  ef <- get v "exame_fisico" (VDict []) ;;
  sequence
    [ Ok n_processo; sv_get v "data_consulta";
      sv_get a "ureia"; sv_get a "creatinina"; sv_get a "cistatina_c";
      sv_get a "tfge_ckd_epi_crcist";
      sv_get a "racu"; sv_get a "rpc"; sv_get a "na_urinario";
      sv_get a "albumina";
      sv_get a "alt"; sv_get a "ast"; sv_get a "ggt";
      sv_get a "bilirrubina_total";
      sv_get a "na"; sv_get a "k"; sv_get a "cl"; sv_get a "ca";
      sv_get a "p"; sv_get a "mg";
      sv_get a "pth"; sv_get a "vit_d";
      sv_get a "nt_probnp"; sv_get a "bnp"; sv_get a "ca125";
      sv_get a "hgb"; sv_get a "leucocitos"; sv_get a "plaquetas";
      sv_get a "hco3"; sv_get a "ca_ionizado";
      sv_get a "sumario_urina";
      sv_get s "nyha"; sv_get s "ccs";
      sv_get s "ortopneia"; sv_get s "bendopneia"; sv_get s "edemas_mi";
      sv_get s "claudicacao_intermitente"; sv_get s "palpitacoes";
      sv_get ef "peso_kg"; sv_get ef "altura_m"; sv_get ef "imc";
      sv_get ef "ta_sist"; sv_get ef "ta_diast"; sv_get ef "fc";
      sv_get ef "spo2" ].

End RowBuilders.

(** ** Google Sheets

    A worksheet is the list of its rows that hold data, top to bottom; a
    spreadsheet is the list of its worksheets with their titles.  The
    operations are those of gspread that the program calls. *)

Definition row : Type := list string.
Definition worksheet : Type := list row.
Definition spreadsheet : Type := list (string * worksheet).

(** The cell of a row in column A. *)
Definition key_cell (r : row) : string := hd "" r.

(** The values API leaves out the empty cells after the last filled one. *)
Fixpoint drop_trailing_empty (l : list string) : list string :=
  match l with
  | [] => []
  | x :: l' =>
      match drop_trailing_empty l' with
      | [] => if String.eqb x "" then [] else [x]
      | t => x :: t
      end
  end.

(** [ws.col_values(1)] *)
Definition col_values_1 (ws : worksheet) : list string :=
  drop_trailing_empty (map key_cell ws).

(** [ws.append_row(row)], for a row that holds data (for a row of empty
    cells only gspread adds no row; the program appends a header or a
    row that begins with the identifier). *)
Definition append_row (ws : worksheet) (r : row) : worksheet :=
  (ws ++ [r])%list.

(** [ws.delete_rows(idx)], rows counted from 1 *)
Definition delete_rows (ws : worksheet) (idx : nat) : worksheet :=
  (firstn (idx - 1) ws ++ skipn idx ws)%list.

(** [ws.insert_row(row, idx)], rows counted from 1 *)
Definition insert_row (ws : worksheet) (r : row) (idx : nat) : worksheet :=
  (firstn (idx - 1) ws ++ r :: skipn (idx - 1) ws)%list.

(** [l.index(x)] where [x in l], and [None] where [x not in l]. *)
Fixpoint list_index (x : string) (l : list string) : option nat :=
  match l with
  | [] => None
  | y :: l' =>
      if String.eqb y x then Some 0
      else option_map S (list_index x l')
  end.

(** Atualiza linha existente ou acrescenta nova. *)
Definition update_doentes_sheet (ws : worksheet) (n_processo : string)
    (r : row) : worksheet :=
  let col_a := col_values_1 ws in
  match list_index n_processo col_a with
  | Some i =>
      let row_idx := i + 1 in
      insert_row (delete_rows ws row_idx) r row_idx
  | None => append_row ws r
  end.

(** [spreadsheet.worksheet(name)]: the first worksheet with the title. *)
Fixpoint find_worksheet (ss : spreadsheet) (name : string)
    : option worksheet :=
  match ss with
  | [] => None
  | (title, ws) :: ss' =>
      if String.eqb title name then Some ws else find_worksheet ss' name
  end.

(** [spreadsheet.add_worksheet(title, rows, cols)]: a new empty grid;
    [rows] and [cols] size the grid and hold no data. *)
Definition add_worksheet (ss : spreadsheet) (title : string)
    (rows cols : nat) : spreadsheet :=
  (ss ++ [(title, [])])%list.

(** Writes [f ws] to the first worksheet titled [name]. *)
Fixpoint update_worksheet (ss : spreadsheet) (name : string)
    (f : worksheet -> worksheet) : spreadsheet :=
  match ss with
  | [] => []
  | (title, ws) :: ss' =>
      if String.eqb title name then (title, f ws) :: ss'
      else (title, ws) :: update_worksheet ss' name f
  end.

(** The spreadsheet after the call, and the rows of the worksheet whose
    handle is returned. *)
Definition get_or_create_sheet (ss : spreadsheet) (name : string)
    (headers : list string) : spreadsheet * worksheet :=
  match find_worksheet ss name with
  | Some ws => (ss, ws)
  | None =>
      let ss1 := add_worksheet ss name 2000 (List.length headers + 5) in
      let ss2 := update_worksheet ss1 name (fun ws => append_row ws headers) in
      (ss2, match find_worksheet ss2 name with Some ws => ws | None => [] end)
  end.

Definition count_titled (ss : spreadsheet) (name : string) : nat :=
  List.length (filter (fun p => String.eqb (fst p) name) ss).

(** ** Extraction *)

Definition LF : ascii := ascii_of_nat 10.
Definition DQUOTE : ascii := ascii_of_nat 34.

(** White space for [str.strip] and [\s]. *)
Definition is_space (c : ascii) : bool :=
  let n := nat_of_ascii c in
  ((9 <=? n) && (n <=? 13) || (28 <=? n) && (n <=? 32))%nat.

Fixpoint lstrip (s : string) : string :=
  match s with
  | EmptyString => EmptyString
  | String c s' => if is_space c then lstrip s' else s
  end.

Fixpoint rstrip (s : string) : string :=
  match s with
  | EmptyString => EmptyString
  | String c s' =>
      match rstrip s' with
      | EmptyString => if is_space c then EmptyString else String c EmptyString
      | t => String c t
      end
  end.

Definition strip (s : string) : string := lstrip (rstrip s).

Definition drop_prefix (p s : string) : option string :=
  if String.prefix p s
  then Some (String.substring (String.length p)
               (String.length s - String.length p) s)
  else None.

Definition FENCE : string := "```".

(** [re.sub(r"^```(?:json)?\s*", "", raw)] *)
Definition sub_leading_fence (raw : string) : string :=
  match drop_prefix FENCE raw with
  | Some r =>
      match drop_prefix "json" r with
      | Some r' => lstrip r'
      | None => lstrip r
      end
  | None => raw
  end.

(** [re.sub(r"\s*```$", "", raw)]: the match starts at the leftmost
    position from which white space and the fence reach the end of the
    text, or the line feed that ends it. *)
Fixpoint sub_trailing_fence (raw : string) : string :=
  let t := lstrip raw in
  if String.eqb t FENCE then EmptyString
  else if String.eqb t (FENCE ++ String LF EmptyString)
  then String LF EmptyString
  else
    match raw with
    | EmptyString => EmptyString
    | String c r => String c (sub_trailing_fence r)
    end.

Definition is_json_space (c : ascii) : bool :=
  let n := nat_of_ascii c in
  ((n =? 32) || (n =? 9) || (n =? 10) || (n =? 13))%nat.

Fixpoint skip_json_space (s : string) : string :=
  match s with
  | EmptyString => EmptyString
  | String c s' => if is_json_space c then skip_json_space s' else s
  end.

(** The characters at which the scanner of [json] hands over to the
    decoders of strings, objects, arrays and numbers. *)
Definition opens_compound (c : ascii) : bool :=
  let n := nat_of_ascii c in
  (Ascii.eqb c DQUOTE || Ascii.eqb c "{" || Ascii.eqb c "["
   || Ascii.eqb c "-" || Ascii.eqb c "N" || Ascii.eqb c "I"
   || ((48 <=? n) && (n <=? 57))%nat).

Section Extraction.

(** The decoders of [json] for a document that opens with a string, an
    object, an array or a number. *)
Variable decode_compound : string -> result value.

Definition literal (v : value) (rest : string) : result value :=
  if String.eqb (skip_json_space rest) "" then Ok v
  else Raise JSONDecodeError.

(** [json.loads]: white space is skipped, then the scanner looks at the
    first character; text after the value is an error. *)
Definition json_loads (s : string) : result value :=
  let body := skip_json_space s in
  match body with
  | EmptyString => Raise JSONDecodeError
  | String c _ =>
      if opens_compound c then decode_compound body
      else
        match drop_prefix "null" body, drop_prefix "true" body,
              drop_prefix "false" body with
        | Some rest, _, _ => literal VNone rest
        | None, Some rest, _ => literal (VBool true) rest
        | None, None, Some rest => literal (VBool false) rest
        | None, None, None => Raise JSONDecodeError
        end
  end.

(** [extract_with_gemini]; [response] is what [generate_content] gives
    for the prompt: an exception, or a reply whose [text] may be
    [None]. *)
Definition extract_with_gemini (response : result (option string))
    : result value :=
  reply <- response ;;
  match reply with
  | None => Raise AttributeError
  | Some text =>
      let raw := strip text in
      let raw := sub_leading_fence raw in
      let raw := sub_trailing_fence raw in
      json_loads raw
  end.

(** The keys of [st.session_state] that [main] uses once the user is
    authenticated. *)
Record session : Type := mksession {
  ready_to_save : bool;
  extracted : option value;
  n_processo : option string
}.

Inductive notice : Type :=
| ExtracaoConcluida
| RespostaNaoJson
| ErroNaExtracao.

(** The extraction step under the button "Processar Consulta". *)
Definition processar (st : session) (n : string)
    (response : result (option string)) : session * notice :=
  match extract_with_gemini response with
  | Ok e => (mksession true (Some e) (Some n), ExtracaoConcluida)
  | Raise JSONDecodeError => (st, RespostaNaoJson)
  | Raise _ => (st, ErroNaExtracao)
  end.

Inductive pending : Type := Idle | PendingReview.

(** The review block of [main] is shown when [ready_to_save] is set and
    a record is stored. *)
Definition pending_state (st : session) : pending :=
  match extracted st with
  | Some _ => if ready_to_save st then PendingReview else Idle
  | None => Idle
  end.

End Extraction.

(** ** The shape of a record, and the field behind each column

    These definitions describe the records on which the builders
    succeed and the field each cell is read from; the theorems compare
    them with the builders above. *)

Open Scope list_scope.

Definition is_dict (v : value) : bool :=
  match v with
  | VDict _ => true
  | _ => false
  end.

(** [m.get(key, default)] as a value. *)
Definition lookup_default (m : dict) (key : string) (default : value)
    : value :=
  match dict_lookup m key with
  | Some v => v
  | None => default
  end.

(** The object under [key], empty when the key holds anything else. *)
Definition section (m : dict) (key : string) : dict :=
  match dict_lookup m key with
  | Some (VDict x) => x
  | _ => []
  end.

(** A section is absent or an object. *)
Definition section_ok (m : dict) (key : string) : bool :=
  match dict_lookup m key with
  | Some v => is_dict v
  | None => true
  end.

(** A medication class is absent, an object, or a false value such as
    [null]. *)
Definition class_ok (med : dict) (key : string) : bool :=
  match dict_lookup med key with
  | Some v => is_dict v || negb (truthy v)
  | None => true
  end.

Definition MED_CLASSES : list string := map fst MED_LABELS.

Definition canonical_doente (d : dict) : bool :=
  forallb (section_ok d)
    ["frcv"; "comorbilidades"; "ic"; "drc"; "pocus"; "medicacao"]
  && forallb (class_ok (section d "medicacao")) MED_CLASSES.

Definition canonical_visita (v : dict) : bool :=
  forallb (section_ok v) ["analises"; "sintomas"; "exame_fisico"].

(** A canonical nested record: objects under [doente] and [visita],
    whose sections and medication classes have the shapes above.  The
    leaves are unconstrained. *)
Definition canonical_record (e : value) : bool :=
  match e with
  | VDict t =>
      match dict_lookup t "doente", dict_lookup t "visita" with
      | Some (VDict d), Some (VDict v) =>
          canonical_doente d && canonical_visita v
      | _, _ => false
      end
  | _ => false
  end.

Inductive column : Type :=
| ColKey
| ColAge
| ColSaveDate
| ColTop (key : string)
| ColSection (sect key : string)
| ColMed (class field : string).

Definition med_columns (class : string) : list column :=
  [ColMed class "presente"; ColMed class "farmaco"; ColMed class "dose"].

(** The field of each column of the sheet [Doentes], in header order. *)
Definition DOENTES_COLUMNS : list column :=
  [ ColKey; ColTop "data_nascimento"; ColAge; ColTop "sexo";
    ColTop "localidade"; ColTop "profissao"; ColTop "frailty_cfs";
    ColTop "referenciacao" ]
  ++ map (ColSection "frcv")
       [ "dm2"; "tabagismo"; "hta"; "dislipidemia"; "obesidade"; "saos";
         "sedentarismo"; "hx_familiar_dc" ]
  ++ map (ColSection "comorbilidades")
       [ "dap"; "dpoc"; "doenca_hepatica"; "hbp"; "fa"; "outras" ]
  ++ map (ColSection "ic")
       [ "tipo_fe"; "etiologia"; "feve_atual"; "feve_trajetoria" ]
  ++ map (ColSection "drc") [ "grau"; "albuminuria"; "etiologia" ]
  ++ [ ColTop "fenotipo_congestao" ]
  ++ map (ColSection "pocus") [ "fe_pct"; "ee_ratio"; "linhas_b_n"; "vci_mm" ]
  ++ flat_map med_columns MED_CLASSES
  ++ [ ColSaveDate ].

(** The field of each column of the sheet [Visitas_Análises]. *)
Definition VISITAS_COLUMNS : list column :=
  [ ColKey; ColTop "data_consulta" ]
  ++ map (ColSection "analises")
       [ "ureia"; "creatinina"; "cistatina_c"; "tfge_ckd_epi_crcist";
         "racu"; "rpc"; "na_urinario"; "albumina"; "alt"; "ast"; "ggt";
         "bilirrubina_total"; "na"; "k"; "cl"; "ca"; "p"; "mg"; "pth";
         "vit_d"; "nt_probnp"; "bnp"; "ca125"; "hgb"; "leucocitos";
         "plaquetas"; "hco3"; "ca_ionizado"; "sumario_urina" ]
  ++ map (ColSection "sintomas")
       [ "nyha"; "ccs"; "ortopneia"; "bendopneia"; "edemas_mi";
         "claudicacao_intermitente"; "palpitacoes" ]
  ++ map (ColSection "exame_fisico")
       [ "peso_kg"; "altura_m"; "imc"; "ta_sist"; "ta_diast"; "fc"; "spo2" ].

(** The key is absent or holds [null]. *)
Definition unset (m : dict) (key : string) : bool :=
  match dict_lookup m key with
  | None => true
  | Some VNone => true
  | Some _ => false
  end.

(** The field of a column is absent or [null] at some level below the
    top-level key. *)
Definition field_unset (top : dict) (c : column) : bool :=
  match c with
  | ColTop key => unset top key
  | ColSection sect key => unset top sect || unset (section top sect) key
  | ColMed class field =>
      unset top "medicacao"
      || unset (section top "medicacao") class
      || unset (section (section top "medicacao") class) field
  | _ => false
  end.

(** The columns that do not read the key [medicacao] as a leaf or as a
    plain section. *)
Definition beside_medicacao (c : column) : bool :=
  match c with
  | ColTop key => negb (String.eqb key "medicacao")
  | ColSection sect _ => negb (String.eqb sect "medicacao")
  | _ => true
  end.

Section Views.

Variable container_repr : value -> string.

(** The cell for [m.get(key)]. *)
Definition leaf (m : dict) (key : string) : string :=
  sv container_repr (lookup_default m key VNone).

Definition age_cell (today : date) (d : dict) : string :=
  sv container_repr
    (value_of_age
       (calculate_age today
          (py_or (lookup_default d "data_nascimento" VNone) (VStr "")))).

(** The cell of a column, read from the object [top] under the top-level
    key. *)
Definition project_column (today : date) (n_processo : string) (top : dict)
    (c : column) : string :=
  match c with
  | ColKey => n_processo
  | ColAge => age_cell today top
  | ColSaveDate => isoformat today
  | ColTop key => leaf top key
  | ColSection sect key => leaf (section top sect) key
  | ColMed class field =>
      leaf (section (section top "medicacao") class) field
  end.

End Views.

(** ** Sequences of upserts *)

Definition keys (ws : worksheet) : list string := map key_cell ws.

Definition has_key (id : string) (r : row) : bool :=
  String.eqb (key_cell r) id.

(** The rows of the sheet, the first included, filed under [id]. *)
Definition rows_for (ws : worksheet) (id : string) : list row :=
  filter (has_key id) ws.

(** The upsert by recursion on the rows: the first row filed under [id]
    gives its place to [r]. *)
Fixpoint replace_first (id : string) (r : row) (ws : worksheet)
    : option worksheet :=
  match ws with
  | [] => None
  | x :: ws' =>
      if has_key id x then Some (r :: ws')
      else option_map (cons x) (replace_first id r ws')
  end.

Definition upsert_all (ws : worksheet) (calls : list (string * row))
    : worksheet :=
  fold_left (fun w c => update_doentes_sheet w (fst c) (snd c)) calls ws.

(** The row of the most recent call for [id]. *)
Definition latest (calls : list (string * row)) (id : string) : option row :=
  option_map snd (find (fun c => String.eqb (fst c) id) (rev calls)).

(** A call as [main] makes it: the identifier is not empty and is the
    first cell of the row. *)
Definition keyed (c : string * row) : Prop :=
  fst c <> "" /\ key_cell (snd c) = fst c.

(** No identifier has two rows. *)
Definition one_row_per_identifier (ws : worksheet) : Prop :=
  forall k, k <> "" -> List.length (rows_for ws k) <= 1.

(** ** Sample inputs *)

(** The text [str] gives for containers in the samples, none of which
    holds a container as a leaf. *)
Definition sample_repr (v : value) : string := "".

Definition sample_today : date := mkdate 2024 3 9.

Definition sample_doente : dict :=
  [ ("sexo", VStr "M");
    ("frailty_cfs", VInt 4);
    ("ic", VDict [("tipo_fe", VStr "FEp")]);
    ("medicacao",
     VDict [("rasi", VDict [("presente", VBool true);
                            ("farmaco", VStr "losartan");
                            ("dose", VStr "50mg")])]) ].

Definition sample_top : dict :=
  [ ("doente", VDict sample_doente); ("visita", VDict []) ].

Definition sample_record : value := VDict sample_top.

Definition sample_doentes_row : list string :=
  ["123456"; ""; ""; "M"; ""; ""; "4"; ""]
  ++ repeat "" 14 ++ ["FEp"] ++ repeat "" 11
  ++ ["Sim"; "losartan"; "50mg"] ++ repeat "" 33 ++ ["2024-03-09"].

Definition sample_calls : list (string * row) :=
  [ ("123456", ["123456"; "M"]);
    ("654321", ["654321"; "F"]);
    ("123456", ["123456"; "M"; "FEp"]) ].

Definition sample_sheet : worksheet :=
  [ HEADERS_DOENTES; ["123456"; "a"]; ["654321"; "b"]; ["123456"; "c"] ].

Definition sample_decoder (s : string) : result value := Raise JSONDecodeError.


(** The reply "not json" inside a code fence, and the document [null]
    inside one. *)
Definition fenced (body : string) : string :=
  ("```json" ++ String LF (body ++ String LF "```"))%string.

(** ** Text of the uploaded files *)

(** What python-docx gives for a .docx: the text of the paragraphs in
    order, and for each table its rows of cell texts. *)
Record document : Type := mkdocument {
  paragraphs : list string;
  tables : list (list (list string))
}.

(** [sep.join(l)] *)
Definition join (sep : string) (l : list string) : string :=
  String.concat sep l.

Definition NEWLINE : string := String LF EmptyString.

Definition nonempty (s : string) : bool := negb (String.eqb s "").

(** The text of a table row: the stripped cells that are not empty,
    joined with a bar. *)
Definition row_text (cells : list string) : string :=
  join " | " (map strip (filter (fun c => nonempty (strip c)) cells)).

(** The list [lines] of [parse_docx]. *)
Definition docx_lines (doc : document) : list string :=
  filter nonempty (map strip (paragraphs doc))
  ++ filter nonempty (map row_text (List.concat (tables doc))).

(** [parse_docx]; [file] is what [Document] makes of the bytes, an
    exception when they are not a .docx. *)
Definition parse_docx (file : result document) : result string :=
  doc <- file ;; Ok (join NEWLINE (docx_lines doc)).

(** The pages of [parse_pdf] that give text. *)
Definition pdf_parts (pages : list (option string)) : list string :=
  flat_map (fun t => match t with
                     | Some s => if nonempty s then [s] else []
                     | None => []
                     end) pages.

(** [parse_pdf]; [file] is what pdfplumber makes of the bytes: for each
    page the result of [extract_text]. *)
Definition parse_pdf (file : result (list (option string))) : result string :=
  pages <- file ;; Ok (strip (join NEWLINE (pdf_parts pages))).

(** The marker [main] puts between the note and the laboratory text. *)
Definition PDF_MARKER : string :=
  (String LF (String LF "=== ANÁLISES LABORATORIAIS ===") ++ NEWLINE)%string.

(** ** Authentication *)

(** [check_password]: the flag [authenticated] after the call, and the
    value returned; [None] when the call ends in [st.rerun()].
    [app_password] is the entry of the secrets under that key, [None]
    when the secrets hold no such key.  The secrets themselves are taken
    to be readable: where the deployment has no secrets at all,
    [st.secrets.get] raises and the model does not apply. *)
Definition check_password (authenticated entrar : bool) (pwd : string)
    (app_password : option string) : bool * option bool :=
  if authenticated then (true, Some true)
  else if entrar then
    if String.eqb pwd (match app_password with Some p => p | None => "" end)
    then (true, None)
    else (false, Some false)
  else (false, Some false).

(** ** The review of the extracted record *)

(** A piece of an f-string: text, or [{sv(obj.get(key)) or '—'}]. *)
Inductive piece : Type :=
| Lit (s : string)
| Fld (obj : value) (key : string).

(** [s or '—'] *)
Definition or_dash (s : string) : string :=
  if String.eqb s "" then "—" else s.

Section Review.

Variable container_repr : value -> string.

Definition piece_text (p : piece) : result string :=
  match p with
  | Lit s => Ok s
  | Fld obj key => c <- sv_get container_repr obj key ;; Ok (or_dash c)
  end.

Definition fstring (ps : list piece) : result string :=
  parts <- sequence (map piece_text ps) ;; Ok (String.concat "" parts).

(** One turn of the loop over [MED_LABELS]. *)
Definition med_line (med : value) (entry : string * string) : result string :=
  let (key, label) := entry in
  mk <- get med key VNone ;;
  let m := py_or mk (VDict []) in
  presente <- get m "presente" VNone ;;
  match presente with
  | VBool true =>
      farmaco <- sv_get container_repr m "farmaco" ;;
      dose <- sv_get container_repr m "dose" ;;
      Ok (strip ("✅ **" ++ label ++ ":** " ++ or_dash farmaco ++ " " ++ dose))%string
  | VBool false => Ok ("❌ **" ++ label ++ "**")%string
  | _ => Ok ("❓ **" ++ label ++ ":** não identificado")%string
  end.

(** The inner function [lab], called with [a.get(key)]. *)
Definition lab (label : string) (a : value) (key : string) (unit : string)
    : result string :=
  val <- get a key VNone ;;
  let v_str := or_dash (sv container_repr val) in
  Ok ("**" ++ label ++ ":** " ++ v_str
      ++ (if negb (String.eqb v_str "—") && nonempty unit
          then " " ++ unit else ""))%string.

(** [render_review]: the texts written, in the order of the calls. *)
Definition render_review (extracted : value) : result (list string) :=
  d <- getitem extracted "doente" ;;
  v <- getitem extracted "visita" ;;
  ic <- get d "ic" (VDict []) ;;
  drc <- get d "drc" (VDict []) ;;
  poc <- get d "pocus" (VDict []) ;;
  med <- get d "medicacao" (VDict []) ;;
  a <- get v "analises" (VDict []) ;;
  s <- get v "sintomas" (VDict []) ;;
  ef <- get v "exame_fisico" (VDict []) ;;
  col1 <- sequence
    [ Ok "#### 👤 Identificação";
      fstring [Lit "**Data nasc.:** "; Fld d "data_nascimento";
               Lit " &nbsp;|&nbsp; **Sexo:** "; Fld d "sexo"];
      fstring [Lit "**Localidade:** "; Fld d "localidade";
               Lit " &nbsp;|&nbsp; **Profissão:** "; Fld d "profissao"];
      fstring [Lit "**Referenciação:** "; Fld d "referenciacao";
               Lit " &nbsp;|&nbsp; **Frailty CFS:** "; Fld d "frailty_cfs"];
      Ok "#### 🫀 Contexto Cardio-Renal";
      fstring [Lit "**IC:** "; Fld ic "tipo_fe"; Lit " — ";
               Fld ic "etiologia"; Lit " | FEVE "; Fld ic "feve_atual";
               Lit "% | "; Fld ic "feve_trajetoria"];
      fstring [Lit "**DRC:** "; Fld drc "grau"; Lit " ";
               Fld drc "albuminuria"; Lit " — "; Fld drc "etiologia"];
      fstring [Lit "**Congestão:** "; Fld d "fenotipo_congestao"];
      Ok "#### 🔬 POCUS";
      fstring [Lit "FE **"; Fld poc "fe_pct"; Lit "%** | E/E' **";
               Fld poc "ee_ratio"; Lit "** | Linhas B **";
               Fld poc "linhas_b_n"; Lit "** campos | VCI **";
               Fld poc "vci_mm"; Lit " mm**"];
      Ok "#### 🩺 Exame físico & Sintomas";
      fstring [Lit "**NYHA:** "; Fld s "nyha"; Lit " | **CCS:** ";
               Fld s "ccs"];
      fstring [Lit "**Ortopneia:** "; Fld s "ortopneia";
               Lit " | **Bendopneia:** "; Fld s "bendopneia";
               Lit " | **Edemas MI:** "; Fld s "edemas_mi"];
      fstring [Lit "**Peso:** "; Fld ef "peso_kg"; Lit " kg | **IMC:** ";
               Fld ef "imc"];
      fstring [Lit "**TA:** "; Fld ef "ta_sist"; Lit "/"; Fld ef "ta_diast";
               Lit " mmHg | **FC:** "; Fld ef "fc";
               Lit " bpm | **SpO₂:** "; Fld ef "spo2"; Lit "%"] ] ;;
  meds <- sequence (map (med_line med) MED_LABELS) ;;
  labs <- sequence
    [ lab "TFGe (CKD-EPI Cr-Cist)" a "tfge_ckd_epi_crcist" "mL/min";
      lab "Creatinina" a "creatinina" "mg/dL";
      lab "Cistatina C" a "cistatina_c" "mg/L";
      lab "RACu" a "racu" "mg/g";
      lab "NT-proBNP" a "nt_probnp" "pg/mL";
      lab "K" a "k" "mEq/L";
      lab "Na" a "na" "mEq/L";
      lab "Hgb" a "hgb" "g/dL";
      lab "Albumina" a "albumina" "g/dL";
      lab "HCO₃⁻" a "hco3" "mmol/L" ] ;;
  Ok (col1 ++ ["#### 💊 Medicação"] ++ meds
      ++ ["#### 🧪 Análises (principais)"] ++ labs).

End Review.

(** A record that [render_review] accepts: objects under both top-level
    keys, the sections it reads absent or objects, the medication
    classes as for the builder. *)
Definition reviewable (e : value) : bool :=
  match e with
  | VDict t =>
      match dict_lookup t "doente", dict_lookup t "visita" with
      | Some (VDict d), Some (VDict v) =>
          forallb (section_ok d) ["ic"; "drc"; "pocus"; "medicacao"]
          && canonical_visita v
          && forallb (class_ok (section d "medicacao")) MED_CLASSES
      | _, _ => false
      end
  | _ => false
  end.

(** ** Orders and shapes used in the statements *)

(** The calendar order of dates. *)
Definition date_before (a b : date) : Prop :=
  (year a < year b
   \/ (year a = year b
       /\ (month a < month b \/ (month a = month b /\ day a < day b))))%Z.

Definition BACKTICK : ascii := ascii_of_nat 96.

Fixpoint no_backtick (s : string) : bool :=
  match s with
  | EmptyString => true
  | String c s' => negb (Ascii.eqb c BACKTICK) && no_backtick s'
  end.

(** A reply inside a fence without the tag [json]. *)
Definition fenced_plain (body : string) : string :=
  ("```" ++ String LF (body ++ String LF "```"))%string.

Fixpoint all_space (s : string) : bool :=
  match s with
  | EmptyString => true
  | String c s' => is_space c && all_space s'
  end.

(** Every paragraph and every cell of the document is white space. *)
Definition blank_document (doc : document) : bool :=
  forallb all_space (paragraphs doc)
  && forallb (forallb all_space) (List.concat (tables doc)).

(** A text of ASCII characters; on such a text the white space of
    [str.strip] is the one of [is_space]. *)
Fixpoint ascii_text (s : string) : bool :=
  match s with
  | EmptyString => true
  | String c s' => (nat_of_ascii c <? 128)%nat && ascii_text s'
  end.

Definition ascii_document (doc : document) : bool :=
  forallb ascii_text (paragraphs doc)
  && forallb (forallb ascii_text) (List.concat (tables doc)).

(** A row that holds data: some cell of it is not empty. *)
Definition holds_data (r : row) : bool := existsb nonempty r.

(** A page from which [extract_text] gives text. *)
Definition has_text (page : option string) : bool :=
  match page with
  | Some s => nonempty s
  | None => false
  end.

(** ** One run of [main]

    Streamlit runs [main] once for each interaction.  A run reads the
    widgets, among them at most one clicked button, and the session; it
    may change the session and the spreadsheet.  The calls to Google
    Sheets are taken to succeed. *)

Inductive click : Type :=
| NoClick
| Entrar
| Processar
| Guardar
| Cancelar.

(** The widgets of the page: the two text inputs and the two uploads,
    each upload given by what its parser's library makes of the bytes. *)
Record form : Type := mkform {
  pwd_input : string;
  n_processo_input : string;
  docx_file : option (result document);
  pdf_file : option (result (list (option string)))
}.

Record app_state : Type := mkapp {
  authenticated : bool;
  sess : session;
  sheets : spreadsheet
}.

Inductive message : Type :=
| PalavraPasseIncorrecta
| ErroDocx
| AvisoPdf
| Extracao (n : notice)
| Guardado
| ErroGuardar.

(** What a run leaves: the state, the messages shown, and the outcome of
    the review block when it was entered: the texts of [render_review],
    or the exception that ended the run there (none is caught before the
    buttons). *)
Record run : Type := mkrun {
  after : app_state;
  messages : list message;
  review : option (result (list string))
}.

Definition is_click (c c' : click) : bool :=
  match c, c' with
  | NoClick, NoClick | Entrar, Entrar | Processar, Processar
  | Guardar, Guardar | Cancelar, Cancelar => true
  | _, _ => false
  end.

(** [bool(n_processo and docx_file)] *)
Definition can_process (f : form) : bool :=
  nonempty (n_processo_input f)
  && match docx_file f with Some _ => true | None => false end.

(** The text sent to the extraction, with the warning about the PDF, or
    the exception of the .docx. *)
Definition texto_total (f : form) : result (string * list message) :=
  match docx_file f with
  | None => Raise AttributeError
  | Some file =>
      docx_text <- parse_docx file ;;
      match pdf_file f with
      | None => Ok (docx_text, [])
      | Some pdf =>
          let texto := (docx_text ++ PDF_MARKER)%string in
          match parse_pdf pdf with
          | Ok pdf_text => Ok ((texto ++ pdf_text)%string, [])
          | Raise _ => Ok (texto, [AvisoPdf])
          end
      end
  end.

Definition set_sheets (a : app_state) (ss : spreadsheet) : app_state :=
  mkapp (authenticated a) (sess a) ss.

Definition set_sess (a : app_state) (s : session) : app_state :=
  mkapp (authenticated a) s (sheets a).

(** The three calls of [get_or_create_sheet] that open a save. *)
Definition provision (ss : spreadsheet) : spreadsheet :=
  let ss1 := fst (get_or_create_sheet ss SHEET_DOENTES HEADERS_DOENTES) in
  let ss2 := fst (get_or_create_sheet ss1 SHEET_VISITAS HEADERS_VISITAS) in
  fst (get_or_create_sheet ss2 SHEET_EVENTOS HEADERS_EVENTOS).

(** The state of a new session over a spreadsheet. *)
Definition initial_state (ss : spreadsheet) : app_state :=
  mkapp false (mksession false None None) ss.

(** A record is stored only with an identifier that is not empty. *)
Definition stored_identifier_ok (s : session) : Prop :=
  extracted s = None \/ exists n, n_processo s = Some n /\ n <> "".

(** The rows of a worksheet, none when the spreadsheet has no worksheet
    of the title. *)
Definition rows_of (ss : spreadsheet) (title : string) : worksheet :=
  match find_worksheet ss title with
  | Some ws => ws
  | None => []
  end.

(** The password the app expects. *)
Definition expected_password (app_password : option string) : string :=
  match app_password with
  | Some p => p
  | None => ""
  end.

(** A record that passes the review and cannot be saved. *)
Definition sample_reviewable_only : value :=
  VDict [ ("doente", VDict [("frcv", VNone)]); ("visita", VDict []) ].

Definition sample_form : form := mkform "" "" None None.

Definition sample_pending : app_state :=
  mkapp true (mksession true (Some sample_record) (Some "123456")) [].

Section Main.

Variable container_repr : value -> string.
Variable decode_compound : string -> result value.

(** The reply of the model to the prompt made from a text. *)
Variable generate_content : string -> result (option string).

(** [date.today()] and the secret [app_password]. *)
Variable today : date.
Variable app_password : option string.

(** The block under the button "Guardar no Google Sheets". *)
Definition guardar (a : app_state) (n : string) (e : value) : app_state * list message :=
  let (ss1, _) := get_or_create_sheet (sheets a) SHEET_DOENTES HEADERS_DOENTES in
  let (ss2, _) := get_or_create_sheet ss1 SHEET_VISITAS HEADERS_VISITAS in
  let (ss3, _) := get_or_create_sheet ss2 SHEET_EVENTOS HEADERS_EVENTOS in
  match build_doentes_row container_repr today n e with
  | Raise _ => (set_sheets a ss3, [ErroGuardar])
  | Ok rd =>
      let ss4 :=
        update_worksheet ss3 SHEET_DOENTES
          (fun ws => update_doentes_sheet ws n rd) in
      match build_visitas_row container_repr n e with
      | Raise _ => (set_sheets a ss4, [ErroGuardar])
      | Ok rv =>
          let ss5 :=
            update_worksheet ss4 SHEET_VISITAS (fun ws => append_row ws rv) in
          (mkapp (authenticated a)
             (mksession false (extracted (sess a)) (n_processo (sess a)))
             ss5,
           [Guardado])
      end
  end.

(** The block "Revisão & Guardar"; [msgs] are the messages of the run so
    far.  The last component tells that the block ended in
    [st.rerun()]. *)
Definition revisao (c : click) (a : app_state) (msgs : list message) : run * bool :=
  match extracted (sess a) with
  | Some e =>
      if ready_to_save (sess a) then
        match n_processo (sess a) with
        | None => (mkrun a msgs (Some (Raise KeyError)), false)
        | Some n =>
            match render_review container_repr e with
            | Raise x => (mkrun a msgs (Some (Raise x)), false)
            | Ok shown =>
                if is_click c Guardar then
                  let (a', m) := guardar a n e in
                  (mkrun a' (msgs ++ m) (Some (Ok shown)), false)
                else if is_click c Cancelar then
                  (mkrun (set_sess a (mksession false None (n_processo (sess a))))
                     msgs (Some (Ok shown)),
                   true)
                else (mkrun a msgs (Some (Ok shown)), false)
            end
        end
      else (mkrun a msgs None, false)
  | None => (mkrun a msgs None, false)
  end.

(** [main] after the password check. *)
Definition pagina (f : form) (c : click) (a : app_state) : run * bool :=
  if is_click c Processar && can_process f then
    match texto_total f with
    | Raise _ => (mkrun a [ErroDocx] None, false)
    | Ok (texto, warnings) =>
        let (s, n) :=
          processar decode_compound (sess a) (n_processo_input f)
            (generate_content texto) in
        match n with
        | ExtracaoConcluida =>
            revisao c (set_sess a s) (warnings ++ [Extracao n])
        | _ => (mkrun (set_sess a s) (warnings ++ [Extracao n]) None, false)
        end
    end
  else revisao c a [].

(** One pass of the script. *)
Definition script (f : form) (c : click) (a : app_state) : run * bool :=
  match check_password (authenticated a) (is_click c Entrar) (pwd_input f)
          app_password with
  | (auth, None) => (mkrun (mkapp auth (sess a) (sheets a)) [] None, true)
  | (auth, Some true) => pagina f c (mkapp auth (sess a) (sheets a))
  | (auth, Some false) =>
      (mkrun (mkapp auth (sess a) (sheets a))
         (if is_click c Entrar then [PalavraPasseIncorrecta] else [])
         None,
       false)
  end.

(** A run: the script, and when it ends in [st.rerun()] the script once
    more with no button clicked. *)
Definition main (f : form) (c : click) (a : app_state) : run :=
  let (r, rerun) := script f c a in
  if rerun then fst (script f NoClick (after r)) else r.

(** The state after a sequence of runs. *)
Definition main_all (steps : list (form * click)) (a : app_state)
    : app_state :=
  fold_left (fun st step => after (main (fst step) (snd step) st)) steps a.

End Main.

(** The rows of a worksheet once it is provisioned: its rows, or the
    header alone when the spreadsheet had no worksheet of the title. *)
Definition rows_or_header (ss : spreadsheet) (title : string)
    (headers : list string) : worksheet :=
  match find_worksheet ss title with
  | Some ws => ws
  | None => [headers]
  end.

Definition sample_generate (texto : string) : result (option string) :=
  Raise APIError.

(** A session of three runs: the password, an upload that the model
    answers with the sample record inside a code fence, and the save. *)
Definition sample_reply_decoder (s : string) : result value :=
  Ok sample_record.

Definition sample_model (texto : string) : result (option string) :=
  Ok (Some (fenced "{}")).

Definition sample_steps : list (form * click) :=
  [ (mkform "pw" "" None None, Entrar);
    (mkform "" "123456" (Some (Ok (mkdocument ["Consulta"] []))) None,
     Processar);
    (mkform "" "" None None, Guardar) ].

(** A document of ASCII white space only. *)
Definition sample_blank_document : document :=
  mkdocument [" "; ""] [[["  "; ""]]].
(** * Properties *)

(** ** The row builders *)

Section RowProofs.

Variable container_repr : value -> string.

Lemma get_dict m k dflt : get (VDict m) k dflt = Ok (lookup_default m k dflt).
Proof. unfold get, lookup_default. destruct (dict_lookup m k); reflexivity. Qed.

Lemma sv_get_dict m k :
  sv_get container_repr (VDict m) k = Ok (leaf container_repr m k).
Proof. unfold sv_get. rewrite get_dict. reflexivity. Qed.

Lemma sv_get_not_dict v k :
  is_dict v = false -> sv_get container_repr v k = Raise AttributeError.
Proof. destruct v; simpl; intros; try discriminate; reflexivity. Qed.

Lemma section_default m k :
  section_ok m k = true -> lookup_default m k (VDict []) = VDict (section m k).
Proof.
  unfold section_ok, lookup_default, section.
  destruct (dict_lookup m k) as [[]|]; simpl; intros; try discriminate;
    reflexivity.
Qed.

Lemma section_bad m k :
  section_ok m k = false -> is_dict (lookup_default m k (VDict [])) = false.
Proof.
  unfold section_ok, lookup_default.
  destruct (dict_lookup m k) as [v|]; simpl; intros; try discriminate;
    assumption.
Qed.

Lemma med3_dict med k :
  med3 container_repr (VDict med) k =
  if class_ok med k
  then Ok (map (leaf container_repr (section med k))
             ["presente"; "farmaco"; "dose"])
  else Raise AttributeError.
Proof.
  unfold med3. rewrite get_dict. cbn [bind map].
  unfold class_ok, lookup_default, section, py_or.
  destruct (dict_lookup med k) as [v|]; [|reflexivity].
  destruct (truthy v) eqn:E.
  - destruct v; cbn [is_dict orb negb sequence bind];
      rewrite ?sv_get_dict; try reflexivity; discriminate E.
  - rewrite orb_true_r. cbn [sequence bind]. rewrite !sv_get_dict. cbn [bind].
    destruct v; try reflexivity.
    destruct l; [reflexivity | discriminate E].
Qed.

Lemma med3_not_dict v k :
  is_dict v = false -> med3 container_repr v k = Raise AttributeError.
Proof. destruct v; simpl; intros; try discriminate; reflexivity. Qed.

Lemma forallb_cons_true {A} (f : A -> bool) x l :
  forallb f (x :: l) = true <-> f x = true /\ forallb f l = true.
Proof. simpl. apply andb_true_iff. Qed.

Lemma build_doentes_row_canonical today n t d :
  dict_lookup t "doente" = Some (VDict d) ->
  canonical_doente d = true ->
  build_doentes_row container_repr today n (VDict t)
  = Ok (map (project_column container_repr today n d) DOENTES_COLUMNS).
Proof.
  intros Hd Hc. unfold canonical_doente in Hc.
  apply andb_true_iff in Hc. destruct Hc as [Hs Hm].
  repeat (apply forallb_cons_true in Hs; destruct Hs as [? Hs]).
  unfold MED_CLASSES in Hm. cbn [map fst MED_LABELS] in Hm.
  repeat (apply forallb_cons_true in Hm; destruct Hm as [? Hm]).
  unfold build_doentes_row. cbn [getitem]. rewrite Hd. cbn [bind].
  rewrite !get_dict. cbn [bind].
  rewrite !section_default by assumption.
  cbn [sequence]. rewrite !sv_get_dict. cbn [bind].
  rewrite !med3_dict.
  repeat match goal with
         | H : class_ok _ _ = true |- _ => rewrite H; clear H
         end.
  cbn [bind]. reflexivity.
Qed.

(** The builder of the sheet [Doentes] on a record with an object under
    [doente]. *)
Lemma build_doentes_row_cases today n t d :
  dict_lookup t "doente" = Some (VDict d) ->
  build_doentes_row container_repr today n (VDict t)
  = if canonical_doente d
    then Ok (map (project_column container_repr today n d) DOENTES_COLUMNS)
    else Raise AttributeError.
Proof.
  intros Hd. destruct (canonical_doente d) eqn:Hc.
  - apply build_doentes_row_canonical; assumption.
  - unfold canonical_doente, MED_CLASSES in Hc.
    cbn [map fst MED_LABELS forallb] in Hc.
    unfold build_doentes_row. cbn [getitem]. rewrite Hd. cbn [bind].
    rewrite !get_dict. cbn [bind].
    repeat
      match type of Hc with
      | context [section_ok d ?k] =>
          destruct (section_ok d k) eqn:?;
          [ rewrite (section_default d k) by assumption; cbn [andb] in Hc
          | clear Hc ]
      end.
    all: cbn [sequence]; rewrite ?sv_get_dict; cbn [bind].
    all: try (rewrite sv_get_not_dict by (apply section_bad; assumption);
              reflexivity).
    all: try (rewrite med3_not_dict by (apply section_bad; assumption);
              reflexivity).
    rewrite !med3_dict.
    repeat
      match type of Hc with
      | context [class_ok ?m ?k] =>
          destruct (class_ok m k) eqn:?; [ cbn [andb] in Hc | clear Hc ]
      end.
    all: cbn [bind]; try reflexivity.
    discriminate Hc.
Qed.

(** The builder of the sheet [Visitas_Análises] on a record with an
    object under [visita]. *)
Lemma build_visitas_row_cases today n t v :
  dict_lookup t "visita" = Some (VDict v) ->
  build_visitas_row container_repr n (VDict t)
  = if canonical_visita v
    then Ok (map (project_column container_repr today n v) VISITAS_COLUMNS)
    else Raise AttributeError.
Proof.
  intros Hv. unfold build_visitas_row. cbn [getitem]. rewrite Hv. cbn [bind].
  rewrite !get_dict. cbn [bind].
  unfold canonical_visita. cbn [forallb].
  repeat
    match goal with
    | |- context [section_ok v ?k] =>
        destruct (section_ok v k) eqn:?;
        [ rewrite (section_default v k) by assumption; cbn [andb] | ]
    end.
  all: cbn [sequence andb]; rewrite ?sv_get_dict; cbn [bind].
  all: try (rewrite sv_get_not_dict by (apply section_bad; assumption);
            reflexivity).
  reflexivity.
Qed.

(** A row is built only for a record with an object under the top-level
    key. *)
Lemma build_doentes_row_Ok_inv today n e r :
  build_doentes_row container_repr today n e = Ok r ->
  exists t d,
    e = VDict t /\ dict_lookup t "doente" = Some (VDict d)
    /\ canonical_doente d = true
    /\ r = map (project_column container_repr today n d) DOENTES_COLUMNS.
Proof.
  intros H. destruct e as [| | | | | |t]; try discriminate H.
  destruct (dict_lookup t "doente") as [v|] eqn:Hd.
  - destruct v as [| | | | | |d];
      try (unfold build_doentes_row in H; cbn [getitem] in H; rewrite Hd in H;
           cbn [bind get] in H; discriminate H).
    rewrite (build_doentes_row_cases today n t d Hd) in H.
    destruct (canonical_doente d) eqn:Hc; [|discriminate H].
    exists t, d. repeat split; try assumption. congruence.
  - unfold build_doentes_row in H. cbn [getitem] in H. rewrite Hd in H.
    discriminate H.
Qed.

Lemma build_visitas_row_Ok_inv today n e r :
  build_visitas_row container_repr n e = Ok r ->
  exists t v,
    e = VDict t /\ dict_lookup t "visita" = Some (VDict v)
    /\ canonical_visita v = true
    /\ r = map (project_column container_repr today n v) VISITAS_COLUMNS.
Proof.
  intros H. destruct e as [| | | | | |t]; try discriminate H.
  destruct (dict_lookup t "visita") as [x|] eqn:Hv.
  - destruct x as [| | | | | |v];
      try (unfold build_visitas_row in H; cbn [getitem] in H; rewrite Hv in H;
           cbn [bind get] in H; discriminate H).
    rewrite (build_visitas_row_cases today n t v Hv) in H.
    destruct (canonical_visita v) eqn:Hc; [|discriminate H].
    exists t, v. repeat split; try assumption. congruence.
  - unfold build_visitas_row in H. cbn [getitem] in H. rewrite Hv in H.
    discriminate H.
Qed.

Lemma unset_leaf m k : unset m k = true -> leaf container_repr m k = "".
Proof.
  unfold unset, leaf, lookup_default.
  destruct (dict_lookup m k) as [[]|]; intros; try discriminate; reflexivity.
Qed.

Lemma unset_section m s : unset m s = true -> section m s = [].
Proof.
  unfold unset, section.
  destruct (dict_lookup m s) as [[]|]; intros; try discriminate; reflexivity.
Qed.

Lemma leaf_nil k : leaf container_repr [] k = "".
Proof. reflexivity. Qed.

Lemma field_unset_project today n top c :
  field_unset top c = true ->
  project_column container_repr today n top c = "".
Proof.
  destruct c; cbn [field_unset project_column]; intros H; try discriminate H.
  - apply unset_leaf; assumption.
  - apply orb_true_iff in H. destruct H as [H|H].
    + rewrite (unset_section _ _ H). apply leaf_nil.
    + apply unset_leaf; assumption.
  - apply orb_true_iff in H. destruct H as [H|H].
    + apply orb_true_iff in H. destruct H as [H|H].
      * rewrite (unset_section _ _ H). reflexivity.
      * rewrite (unset_section _ _ H). apply leaf_nil.
    + apply unset_leaf; assumption.
Qed.

Lemma nth_error_map_Some {A B} (f : A -> B) l i c :
  nth_error l i = Some c -> nth_error (map f l) i = Some (f c).
Proof. intros H. rewrite nth_error_map, H. reflexivity. Qed.

Lemma dict_lookup_Permutation m m' k :
  Permutation m m' -> NoDup (map fst m) ->
  dict_lookup m k = dict_lookup m' k.
Proof.
  induction 1 as [|[a v] l l' Hp IH|[a v] [b w] l|l1 l2 l3 H1 IH1 H2 IH2];
    intros Hnd.
  - reflexivity.
  - cbn [dict_lookup]. inversion Hnd; subst. rewrite IH by assumption.
    reflexivity.
  - cbn [dict_lookup].
    destruct (String.eqb_spec a k) as [->|Ha];
      destruct (String.eqb_spec b k) as [->|Hb]; try reflexivity.
    inversion Hnd as [|? ? Hin _]; subst. exfalso. apply Hin. now left.
  - rewrite IH1 by assumption. apply IH2.
    eapply Permutation_NoDup; [apply Permutation_map; eassumption|assumption].
Qed.

Lemma forallb_pointwise {A} (f g : A -> bool) l :
  (forall x, f x = g x) -> forallb f l = forallb g l.
Proof.
  intros H. induction l as [|x l IH]; [reflexivity|].
  cbn [forallb]. rewrite H, IH. reflexivity.
Qed.

Lemma section_ext m m' k :
  dict_lookup m k = dict_lookup m' k -> section m k = section m' k.
Proof. unfold section. intros ->. reflexivity. Qed.

Lemma project_column_agree today n d d' c :
  (forall k, k <> "medicacao" -> dict_lookup d' k = dict_lookup d k) ->
  (forall k, dict_lookup (section d' "medicacao") k
             = dict_lookup (section d "medicacao") k) ->
  beside_medicacao c = true ->
  project_column container_repr today n d' c
  = project_column container_repr today n d c.
Proof.
  intros Hk Hm Hc.
  destruct c; cbn [project_column beside_medicacao] in *; try reflexivity.
  - unfold age_cell, lookup_default. rewrite Hk; [reflexivity|discriminate].
  - apply negb_true_iff, String.eqb_neq in Hc.
    unfold leaf, lookup_default. rewrite Hk by assumption. reflexivity.
  - apply negb_true_iff, String.eqb_neq in Hc.
    rewrite (section_ext d' d sect) by (apply Hk; assumption). reflexivity.
  - rewrite (section_ext _ _ class (Hm class)). reflexivity.
Qed.

Lemma canonical_doente_agree d d' :
  (forall k, k <> "medicacao" -> dict_lookup d' k = dict_lookup d k) ->
  section_ok d' "medicacao" = section_ok d "medicacao" ->
  (forall k, dict_lookup (section d' "medicacao") k
             = dict_lookup (section d "medicacao") k) ->
  canonical_doente d' = canonical_doente d.
Proof.
  intros Hk Hs Hm. unfold canonical_doente. f_equal.
  - cbn [forallb]. rewrite Hs.
    unfold section_ok. rewrite !Hk by discriminate. reflexivity.
  - apply forallb_pointwise. intros c. unfold class_ok. rewrite Hm. reflexivity.
Qed.

(** C1. For every canonical nested record, whatever its leaves hold or
    omit, and every identifier, [build_doentes_row] returns a row as long
    as [HEADERS_DOENTES] and [build_visitas_row] a row as long as
    [HEADERS_VISITAS]; and no row of another length is returned for any
    record. *)
Theorem rows_match_headers today n e :
  canonical_record e = true ->
  (exists rd rv,
      build_doentes_row container_repr today n e = Ok rd
      /\ build_visitas_row container_repr n e = Ok rv
      /\ List.length rd = List.length HEADERS_DOENTES
      /\ List.length rv = List.length HEADERS_VISITAS)
  /\ (forall e' r,
        build_doentes_row container_repr today n e' = Ok r ->
        List.length r = List.length HEADERS_DOENTES)
  /\ (forall e' r,
        build_visitas_row container_repr n e' = Ok r ->
        List.length r = List.length HEADERS_VISITAS).
Proof.
  intros Hc. split; [|split].
  - destruct e as [| | | | | |t]; try discriminate Hc.
    cbn [canonical_record] in Hc.
    destruct (dict_lookup t "doente") as [[| | | | | |d]|] eqn:Hd;
      try discriminate Hc.
    destruct (dict_lookup t "visita") as [[| | | | | |v]|] eqn:Hv;
      try discriminate Hc.
    apply andb_true_iff in Hc. destruct Hc as [Hcd Hcv].
    exists (map (project_column container_repr today n d) DOENTES_COLUMNS),
      (map (project_column container_repr today n v) VISITAS_COLUMNS).
    rewrite (build_doentes_row_cases today n t d Hd), Hcd.
    rewrite (build_visitas_row_cases today n t v Hv), Hcv.
    rewrite !length_map. repeat split; reflexivity.
  - intros e' r H. apply build_doentes_row_Ok_inv in H.
    destruct H as (t & d & _ & _ & _ & ->). rewrite length_map. reflexivity.
  - intros e' r H. apply (build_visitas_row_Ok_inv today) in H.
    destruct H as (t & v & _ & _ & _ & ->). rewrite length_map. reflexivity.
Qed.

(** C2. In a row built for the sheet [Doentes], the twelve medication
    classes fill cells 34 to 69, three consecutive cells each (presente,
    farmaco, dose), in the order rasi, mra, isglt2, glp1ra, estatina,
    diuretico_ansa, diuretico_tiazida, acetazolamida, beta_bloqueante,
    antiagregante, anticoagulante, ivabradina.  A class that is absent,
    null, or whose three fields are absent or null gives three empty
    cells; the row keeps the length of the header and ends with the save
    date; and a record whose medication mapping, a dict with each key
    once, lists the same classes in another order gives the same row. *)
Theorem medication_cells_fixed_order today n t d r :
  dict_lookup t "doente" = Some (VDict d) ->
  build_doentes_row container_repr today n (VDict t) = Ok r ->
  MED_CLASSES
  = [ "rasi"; "mra"; "isglt2"; "glp1ra"; "estatina"; "diuretico_ansa";
      "diuretico_tiazida"; "acetazolamida"; "beta_bloqueante";
      "antiagregante"; "anticoagulante"; "ivabradina" ]
  /\ List.length r = List.length HEADERS_DOENTES
  /\ nth_error r 70 = Some (isoformat today)
  /\ (forall i class,
        nth_error MED_CLASSES i = Some class ->
        firstn 3 (skipn (34 + 3 * i) r)
        = map (leaf container_repr (section (section d "medicacao") class))
            ["presente"; "farmaco"; "dose"])
  /\ (forall i class,
        nth_error MED_CLASSES i = Some class ->
        forallb (field_unset d) (med_columns class) = true ->
        firstn 3 (skipn (34 + 3 * i) r) = [""; ""; ""])
  /\ (forall t' d' med med',
        dict_lookup t' "doente" = Some (VDict d') ->
        (forall k, k <> "medicacao" -> dict_lookup d' k = dict_lookup d k) ->
        dict_lookup d "medicacao" = Some (VDict med) ->
        dict_lookup d' "medicacao" = Some (VDict med') ->
        NoDup (map fst med) ->
        Permutation med med' ->
        build_doentes_row container_repr today n (VDict t') = Ok r).
Proof.
  intros Hd Hr.
  pose proof Hr as Hr'. rewrite (build_doentes_row_cases today n t d Hd) in Hr'.
  destruct (canonical_doente d) eqn:Hc; [|discriminate Hr'].
  assert (Hrow : map (project_column container_repr today n d) DOENTES_COLUMNS
                 = r) by congruence.
  clear Hr'. rename Hrow into Hr'.
  assert (Hcells : forall i class,
             nth_error MED_CLASSES i = Some class ->
             firstn 3 (skipn (34 + 3 * i) r)
             = map (project_column container_repr today n d)
                 (med_columns class)).
  { intros i class Hi. rewrite <- Hr', skipn_map, firstn_map. f_equal.
    do 12 (destruct i as [|i]; [injection Hi as <-; reflexivity|]).
    destruct i; discriminate Hi. }
  split; [reflexivity|]. split; [rewrite <- Hr', length_map; reflexivity|].
  split; [rewrite <- Hr'; reflexivity|].
  split; [|split].
  - intros i class Hi. rewrite (Hcells i class Hi). reflexivity.
  - intros i class Hi Hu. rewrite (Hcells i class Hi).
    cbn [med_columns forallb] in Hu.
    apply andb_true_iff in Hu. destruct Hu as [H1 Hu].
    apply andb_true_iff in Hu. destruct Hu as [H2 Hu].
    apply andb_true_iff in Hu. destruct Hu as [H3 _].
    cbn [med_columns map].
    rewrite !field_unset_project by assumption. reflexivity.
  - intros t' d' med med' Hd' Hk Hm Hm' Hnd Hp.
    assert (Hlk : forall k, dict_lookup (section d' "medicacao") k
                            = dict_lookup (section d "medicacao") k).
    { intros k. unfold section. rewrite Hm, Hm'. symmetry.
      apply dict_lookup_Permutation; assumption. }
    rewrite (build_doentes_row_cases today n t' d' Hd').
    rewrite (canonical_doente_agree d d' Hk) , Hc.
    + rewrite <- Hr'. f_equal. apply map_ext_in. intros c Hin.
      apply project_column_agree; try assumption.
      assert (Hall : forallb beside_medicacao DOENTES_COLUMNS = true)
        by reflexivity.
      rewrite forallb_forall in Hall. apply Hall; assumption.
    + unfold section_ok. rewrite Hm, Hm'. reflexivity.
    + assumption.
Qed.

(** C4. [sv] gives the empty text for null, "Sim" for true, "Não" for
    false, and for every other value the text [str] gives, with nothing
    added: the decimal digits of an integer, the text of a float, a
    string unchanged.  The two boolean tokens are distinct and not
    empty, so [sv] is one-to-one on booleans, and neither is the token
    of null. *)
Theorem sv_tokens :
  sv container_repr VNone = ""
  /\ sv container_repr (VBool true) = "Sim"
  /\ sv container_repr (VBool false) = "Não"
  /\ (forall v,
        sv container_repr v
        = match v with
          | VNone => ""
          | VBool b => if b then "Sim" else "Não"
          | _ => str container_repr v
          end)
  /\ (forall z, sv container_repr (VInt z) = str_of_int z)
  /\ (forall r, sv container_repr (VFloat r) = r)
  /\ (forall s, sv container_repr (VStr s) = s)
  /\ sv container_repr (VInt 4) = "4"
  /\ sv container_repr (VFloat "1.5") = "1.5"
  /\ sv container_repr (VBool true) <> sv container_repr (VBool false)
  /\ (forall b, sv container_repr (VBool b) <> "")
  /\ (forall b1 b2,
        sv container_repr (VBool b1) = sv container_repr (VBool b2) ->
        b1 = b2).
Proof.
  do 3 (split; [reflexivity|]).
  split; [intros [| [|] | | | | |]; reflexivity|].
  do 5 (split; [reflexivity|]).
  split; [discriminate|].
  split; [intros [|]; discriminate|].
  intros [|] [|] H; try reflexivity; discriminate H.
Qed.

Lemma md_lt_spec m1 d1 m2 d2 :
  md_lt m1 d1 m2 d2 = true <-> (m1 < m2 \/ (m1 = m2 /\ d1 < d2))%Z.
Proof.
  unfold md_lt. rewrite orb_true_iff, andb_true_iff.
  rewrite !Z.ltb_lt, Z.eqb_eq. tauto.
Qed.

(** C5. The age is the difference of the years, less one exactly when
    the (month, day) of today comes before the (month, day) of birth:
    born 1960-03-10, the age is 63 on 2024-03-09 and 64 on 2024-03-10.
    When the date of birth does not parse, [calculate_age] gives [None];
    the builder still returns the row, its age cell is empty, and every
    other cell is the one of its column. *)
Theorem age_is_calendar_aware_and_fails_soft today n t d :
  dict_lookup t "doente" = Some (VDict d) ->
  canonical_doente d = true ->
  calculate_age (mkdate 2024 3 9) (VStr "1960-03-10") = Some 63%Z
  /\ calculate_age (mkdate 2024 3 10) (VStr "1960-03-10") = Some 64%Z
  /\ (forall now s dob,
        strptime_ymd s = Ok dob ->
        calculate_age now s
        = Some (year now - year dob
                - (if md_lt (month now) (day now) (month dob) (day dob)
                   then 1 else 0))%Z)
  /\ (forall m1 d1 m2 d2,
        md_lt m1 d1 m2 d2 = true <-> (m1 < m2 \/ (m1 = m2 /\ d1 < d2))%Z)
  /\ (forall now s x, strptime_ymd s = Raise x -> calculate_age now s = None)
  /\ calculate_age today (VStr "") = None
  /\ calculate_age today (VStr "10/03/1960") = None
  /\ calculate_age today (VStr "1960-02-30") = None
  /\ calculate_age today (VInt 1960) = None
  /\ exists r,
       build_doentes_row container_repr today n (VDict t) = Ok r
       /\ nth_error r 2 = Some (age_cell container_repr today d)
       /\ (calculate_age today
             (py_or (lookup_default d "data_nascimento" VNone) (VStr ""))
           = None ->
           nth_error r 2 = Some "")
       /\ (unset d "data_nascimento" = true -> nth_error r 2 = Some "")
       /\ (forall i c,
             nth_error DOENTES_COLUMNS i = Some c ->
             nth_error r i = Some (project_column container_repr today n d c)).
Proof.
  intros Hd Hc.
  split; [reflexivity|]. split; [reflexivity|].
  split.
  { intros now s dob H. unfold calculate_age. rewrite H.
    destruct (md_lt _ _ _ _); reflexivity. }
  split; [apply md_lt_spec|].
  split.
  { intros now s x H. unfold calculate_age. rewrite H. reflexivity. }
  split; [reflexivity|]. split; [reflexivity|]. split; [reflexivity|].
  split; [reflexivity|].
  exists (map (project_column container_repr today n d) DOENTES_COLUMNS).
  rewrite (build_doentes_row_cases today n t d Hd), Hc.
  split; [reflexivity|]. split; [reflexivity|].
  split; [|split].
  - intros H. change (nth_error _ 2) with (Some (age_cell container_repr today d)).
    unfold age_cell. rewrite H. reflexivity.
  - intros H. change (nth_error _ 2) with (Some (age_cell container_repr today d)).
    unfold age_cell, unset, lookup_default in *.
    destruct (dict_lookup d "data_nascimento") as [[]|]; try discriminate H;
      reflexivity.
  - intros i c Hi. apply nth_error_map_Some; assumption.
Qed.

(** C8, amended.  On a canonical record (objects under [doente] and
    [visita]; each section absent or an object; each medication class
    absent, an object, or a value that [or] takes for false: [null],
    [false], 0, an empty text, list or object) both builders return a
    row, each cell is the one of its column, and a field that is absent
    at any level below the top-level key gives the same empty cell as a
    null.  Without the key [doente], or [visita], the builder raises
    [KeyError]. *)
Theorem projectors_total_on_canonical today n e :
  canonical_record e = true ->
  (exists t d v,
      e = VDict t
      /\ dict_lookup t "doente" = Some (VDict d)
      /\ dict_lookup t "visita" = Some (VDict v)
      /\ build_doentes_row container_repr today n e
         = Ok (map (project_column container_repr today n d) DOENTES_COLUMNS)
      /\ build_visitas_row container_repr n e
         = Ok (map (project_column container_repr today n v) VISITAS_COLUMNS)
      /\ (forall i c,
            nth_error DOENTES_COLUMNS i = Some c ->
            field_unset d c = true ->
            nth_error
              (map (project_column container_repr today n d) DOENTES_COLUMNS) i
            = Some "")
      /\ (forall i c,
            nth_error VISITAS_COLUMNS i = Some c ->
            field_unset v c = true ->
            nth_error
              (map (project_column container_repr today n v) VISITAS_COLUMNS) i
            = Some ""))
  /\ (forall t',
        dict_lookup t' "doente" = None ->
        build_doentes_row container_repr today n (VDict t') = Raise KeyError)
  /\ (forall t',
        dict_lookup t' "visita" = None ->
        build_visitas_row container_repr n (VDict t') = Raise KeyError).
Proof.
  intros Hc. split; [|split].
  2:{ intros t' H. unfold build_doentes_row. cbn [getitem]. rewrite H.
      reflexivity. }
  2:{ intros t' H. unfold build_visitas_row. cbn [getitem]. rewrite H.
      reflexivity. }
  - destruct e as [| | | | | |t]; try discriminate Hc.
    cbn [canonical_record] in Hc.
    destruct (dict_lookup t "doente") as [[| | | | | |d]|] eqn:Hd;
      try discriminate Hc.
    destruct (dict_lookup t "visita") as [[| | | | | |v]|] eqn:Hv;
      try discriminate Hc.
    apply andb_true_iff in Hc. destruct Hc as [Hcd Hcv].
    exists t, d, v.
    rewrite (build_doentes_row_cases today n t d Hd), Hcd.
    rewrite (build_visitas_row_cases today n t v Hv), Hcv.
    do 5 (split; [first [assumption | reflexivity]|]). split.
    + intros i c Hi Hu. rewrite (nth_error_map_Some _ _ _ _ Hi).
      rewrite field_unset_project by assumption. reflexivity.
    + intros i c Hi Hu. rewrite (nth_error_map_Some _ _ _ _ Hi).
      rewrite field_unset_project by assumption. reflexivity.
Qed.

(** The rows of the builder are filed under the identifier they were
    built for, as the calls of the upsert require. *)
Lemma build_doentes_row_keyed today n e r :
  build_doentes_row container_repr today n e = Ok r -> key_cell r = n.
Proof.
  intros H. apply build_doentes_row_Ok_inv in H.
  destruct H as (t & d & _ & _ & _ & ->). reflexivity.
Qed.

End RowProofs.

(** ** The sheet [Doentes] *)

Lemma list_index_drop_trailing_empty id l :
  id <> "" -> list_index id (drop_trailing_empty l) = list_index id l.
Proof.
  intros Hid. induction l as [|x l IH]; [reflexivity|].
  cbn [drop_trailing_empty list_index].
  destruct (drop_trailing_empty l) as [|y t] eqn:E.
  - rewrite <- IH. cbn [list_index option_map].
    destruct (String.eqb_spec x "") as [->|Hx].
    + destruct (String.eqb_spec "" id) as [Heq|_]; [congruence|reflexivity].
    + cbn [list_index option_map]. reflexivity.
  - cbn [list_index]. rewrite <- IH. reflexivity.
Qed.

Lemma list_index_keys id r ws :
  match list_index id (keys ws) with
  | Some i =>
      replace_first id r ws = Some (firstn i ws ++ r :: skipn (S i) ws)%list
      /\ i < List.length ws
      /\ nth_error (keys ws) i = Some id
      /\ (forall j, j < i -> nth_error (keys ws) j <> Some id)
  | None => replace_first id r ws = None /\ ~ In id (keys ws)
  end.
Proof.
  induction ws as [|x ws IH]; cbn [keys map list_index replace_first].
  - split; [reflexivity | intros []].
  - unfold has_key. fold (keys ws).
    destruct (String.eqb_spec (key_cell x) id) as [Hx|Hx].
    + repeat split; cbn; try lia; try congruence.
    + destruct (list_index id (keys ws)) as [i|]; cbn [option_map].
      * destruct IH as (Hr & Hi & Hn & Hfirst). rewrite Hr. cbn.
        repeat split; try lia; try assumption.
        intros [|j] Hj; cbn; [congruence | apply Hfirst; lia].
      * destruct IH as (Hr & Hn). rewrite Hr. split; [reflexivity|].
        cbn. intros [H|H]; [congruence | contradiction].
Qed.

Lemma replace_at_delete_insert (ws : worksheet) (r : row) i :
  i < List.length ws ->
  insert_row (delete_rows ws (i + 1)) r (i + 1)
  = (firstn i ws ++ r :: skipn (S i) ws)%list.
Proof.
  intros Hi. unfold insert_row, delete_rows.
  replace (i + 1 - 1) with i by lia. replace (i + 1) with (S i) by lia.
  assert (Hlen : List.length (firstn i ws) = i) by (rewrite length_firstn; lia).
  rewrite firstn_app, skipn_app, Hlen, Nat.sub_diag.
  rewrite firstn_firstn, Nat.min_id. cbn [firstn skipn].
  rewrite app_nil_r.
  rewrite (skipn_all2 (firstn i ws)) by lia. reflexivity.
Qed.

Lemma update_doentes_sheet_replace_first ws id r :
  id <> "" ->
  update_doentes_sheet ws id r
  = match replace_first id r ws with
    | Some w => w
    | None => (ws ++ [r])%list
    end.
Proof.
  intros Hid. unfold update_doentes_sheet, col_values_1.
  rewrite list_index_drop_trailing_empty by assumption. fold (keys ws).
  pose proof (list_index_keys id r ws) as H.
  destruct (list_index id (keys ws)) as [i|].
  - destruct H as (Hr & Hi & _). rewrite Hr.
    apply replace_at_delete_insert; assumption.
  - destruct H as (Hr & _). rewrite Hr. reflexivity.
Qed.

Lemma replace_first_None id r ws :
  replace_first id r ws = None <-> rows_for ws id = [].
Proof.
  induction ws as [|x ws IH]; cbn [replace_first rows_for filter].
  - tauto.
  - destruct (has_key id x).
    + split; discriminate.
    + fold (rows_for ws id). rewrite <- IH.
      destruct (replace_first id r ws); cbn; split; intros; try discriminate; reflexivity.
Qed.

Lemma replace_first_rows_same id r ws w :
  replace_first id r ws = Some w -> has_key id r = true ->
  rows_for w id = r :: tl (rows_for ws id).
Proof.
  revert w. induction ws as [|x ws IH]; cbn [replace_first]; intros w Hw Hr.
  - discriminate.
  - unfold rows_for. cbn [filter]. destruct (has_key id x) eqn:Hx.
    + injection Hw as <-. cbn [filter]. rewrite Hr. reflexivity.
    + destruct (replace_first id r ws) as [w'|]; [|discriminate].
      injection Hw as <-. cbn [filter]. rewrite Hx. apply IH; auto.
Qed.

Lemma replace_first_rows_other id k r ws w :
  replace_first id r ws = Some w -> has_key id r = true -> k <> id ->
  rows_for w k = rows_for ws k.
Proof.
  revert w. induction ws as [|x ws IH]; cbn [replace_first]; intros w Hw Hr Hk.
  - discriminate.
  - unfold rows_for. cbn [filter]. destruct (has_key id x) eqn:Hx.
    + injection Hw as <-. cbn [filter].
      unfold has_key in *. apply String.eqb_eq in Hr, Hx.
      rewrite Hr, Hx. destruct (String.eqb_spec id k); [congruence|reflexivity].
    + destruct (replace_first id r ws) as [w'|]; [|discriminate].
      injection Hw as <-. cbn [filter].
      destruct (has_key k x); [f_equal|]; apply IH; auto.
Qed.

Lemma rows_for_app ws r k :
  rows_for (ws ++ [r]) k
  = (rows_for ws k ++ if has_key k r then [r] else [])%list.
Proof. unfold rows_for. rewrite filter_app. reflexivity. Qed.

Lemma rows_for_In ws k x : In x (rows_for ws k) <-> In x ws /\ key_cell x = k.
Proof.
  unfold rows_for. rewrite filter_In. unfold has_key.
  rewrite String.eqb_eq. tauto.
Qed.

(** The rows filed under each key after one call. *)
Lemma update_doentes_sheet_rows ws id r k :
  id <> "" -> key_cell r = id ->
  rows_for (update_doentes_sheet ws id r) k
  = if String.eqb id k
    then match rows_for ws id with [] => [r] | _ :: t => r :: t end
    else rows_for ws k.
Proof.
  intros Hid Hr.
  assert (Hk : has_key id r = true) by (unfold has_key; now apply String.eqb_eq).
  rewrite update_doentes_sheet_replace_first by assumption.
  destruct (replace_first id r ws) as [w|] eqn:Hw.
  - destruct (String.eqb_spec id k) as [<-|Hne].
    + rewrite (replace_first_rows_same _ _ _ _ Hw Hk).
      destruct (rows_for ws id) eqn:E; [|reflexivity].
      apply (replace_first_None id r) in E. congruence.
    + apply (replace_first_rows_other _ _ _ _ _ Hw Hk). congruence.
  - apply replace_first_None in Hw. rewrite rows_for_app.
    destruct (String.eqb_spec id k) as [<-|Hne].
    + rewrite Hw, Hk. reflexivity.
    + unfold has_key. rewrite Hr.
      destruct (String.eqb_spec id k); [contradiction|]. apply app_nil_r.
Qed.

Lemma upsert_all_snoc ws calls id r :
  upsert_all ws (calls ++ [(id, r)])
  = update_doentes_sheet (upsert_all ws calls) id r.
Proof. unfold upsert_all. rewrite fold_left_app. reflexivity. Qed.

Lemma latest_snoc calls id r k :
  latest (calls ++ [(id, r)]) k
  = if String.eqb id k then Some r else latest calls k.
Proof.
  unfold latest. rewrite rev_app_distr. cbn [rev app find fst].
  destruct (String.eqb id k); reflexivity.
Qed.

Lemma upsert_all_rows calls :
  Forall keyed calls ->
  forall k,
    rows_for (upsert_all [HEADERS_DOENTES] calls) k
    = match latest calls k with
      | Some r => [r]
      | None => if String.eqb "N_Processo" k then [HEADERS_DOENTES] else []
      end.
Proof.
  induction calls as [|[id r] calls IH] using rev_ind; intros Hk k.
  - reflexivity.
  - apply Forall_app in Hk. destruct Hk as [Hk Hc].
    inversion Hc as [|? ? [Hid Hr] _]; subst. cbn [fst snd] in Hid, Hr.
    rewrite upsert_all_snoc, latest_snoc.
    rewrite update_doentes_sheet_rows by assumption.
    destruct (String.eqb id k) eqn:E; [|apply IH; assumption].
    rewrite (IH Hk id).
    destruct (latest calls id); [reflexivity|].
    destruct (String.eqb "N_Processo" id); reflexivity.
Qed.

Lemma replace_first_others id r ws w :
  replace_first id r ws = Some w -> has_key id r = true ->
  filter (fun x => negb (has_key id x)) w
  = filter (fun x => negb (has_key id x)) ws.
Proof.
  revert w. induction ws as [|x ws IH]; cbn [replace_first]; intros w Hw Hr.
  - discriminate.
  - destruct (has_key id x) eqn:Hx.
    + injection Hw as <-. cbn [filter]. rewrite Hr, Hx. reflexivity.
    + destruct (replace_first id r ws) as [w'|]; [|discriminate].
      injection Hw as <-. cbn [filter]. rewrite Hx. cbn [negb].
      f_equal. apply IH; auto.
Qed.

Lemma nth_error_replace (ws : worksheet) (r : row) i k :
  i < List.length ws ->
  nth_error (firstn i ws ++ r :: skipn (S i) ws) k
  = if Nat.eqb k i then Some r else nth_error ws k.
Proof.
  revert i k. induction ws as [|x ws IH]; intros i k Hi.
  - cbn in Hi. lia.
  - destruct i as [|i].
    + destruct k; reflexivity.
    + destruct k as [|k]; [reflexivity|].
      cbn [firstn skipn app nth_error Nat.eqb]. apply IH. cbn in Hi. lia.
Qed.

Lemma rows_for_nth ws id i :
  nth_error (keys ws) i = Some id -> 1 <= List.length (rows_for ws id).
Proof.
  revert i. induction ws as [|x ws IH]; intros [|i] H; try discriminate H.
  - cbn in H. injection H as H. unfold rows_for. cbn [filter].
    unfold has_key. rewrite H, String.eqb_refl. cbn. lia.
  - cbn in H. apply IH in H. unfold rows_for in *. cbn [filter].
    destruct (has_key id x); cbn [List.length]; lia.
Qed.

Lemma rows_for_two ws id i j :
  i < j ->
  nth_error (keys ws) i = Some id -> nth_error (keys ws) j = Some id ->
  2 <= List.length (rows_for ws id).
Proof.
  revert i j. induction ws as [|x ws IH]; intros i j Hij Hi Hj.
  - destruct i; discriminate Hi.
  - destruct j as [|j]; [lia|]. cbn in Hj.
    destruct i as [|i].
    + cbn in Hi. injection Hi as Hi. apply rows_for_nth in Hj.
      unfold rows_for in *. cbn [filter]. unfold has_key at 1.
      rewrite Hi, String.eqb_refl. cbn [List.length]. lia.
    + cbn in Hi. assert (H := IH i j ltac:(lia) Hi Hj).
      unfold rows_for in *. cbn [filter].
      destruct (has_key id x); cbn [List.length]; lia.
Qed.

Lemma one_row_per_identifier_update w id r :
  id <> "" -> key_cell r = id ->
  one_row_per_identifier (update_doentes_sheet w id r)
  <-> one_row_per_identifier w.
Proof.
  intros Hid Hr. unfold one_row_per_identifier.
  split; intros H k Hk; specialize (H k Hk).
  - rewrite update_doentes_sheet_rows in H by assumption.
    destruct (String.eqb_spec id k) as [Heq|_]; [|assumption].
    rewrite <- Heq in *.
    destruct (rows_for w id); cbn [List.length] in *; lia.
  - rewrite update_doentes_sheet_rows by assumption.
    destruct (String.eqb_spec id k) as [Heq|_]; [|assumption].
    rewrite <- Heq in *.
    destruct (rows_for w id); cbn [List.length] in *; lia.
Qed.

Lemma latest_In calls id r :
  In (id, r) calls -> exists r', latest calls id = Some r'.
Proof.
  intros Hin. unfold latest.
  destruct (find (fun c => String.eqb (fst c) id) (rev calls)) as [c|] eqn:E.
  - exists (snd c). reflexivity.
  - apply find_none with (x := (id, r)) in E.
    + cbn in E. rewrite String.eqb_refl in E. discriminate E.
    + apply -> in_rev. assumption.
Qed.

(** C3. Start from a sheet that holds only its header and make any
    sequence of calls, each with a non-empty identifier and a row whose
    first cell is that identifier.  Then the sheet holds, for every
    identifier used, exactly one row filed under it, and that row is the
    one of the most recent call for the identifier; every row of the
    sheet is the header or such a row.  The last call leaves the rows of
    the other identifiers in their order; it replaces the row in place
    (delete, then insert at the same index) when the identifier is in
    column A, and appends when it is not. *)
Theorem upsert_one_row_per_identifier calls :
  Forall keyed calls ->
  let ws := upsert_all [HEADERS_DOENTES] calls in
  (forall id r, In (id, r) calls -> exists r', latest calls id = Some r')
  /\ (forall id r, latest calls id = Some r -> rows_for ws id = [r])
  /\ (forall x,
        In x ws ->
        x = HEADERS_DOENTES \/ exists id, latest calls id = Some x)
  /\ (forall prev id r,
        calls = prev ++ [(id, r)] ->
        let before := upsert_all [HEADERS_DOENTES] prev in
        filter (fun x => negb (has_key id x)) ws
        = filter (fun x => negb (has_key id x)) before
        /\ (In id (keys before) ->
            exists i,
              list_index id (col_values_1 before) = Some i
              /\ ws = insert_row (delete_rows before (i + 1)) r (i + 1)
              /\ ws = firstn i before ++ r :: skipn (S i) before
              /\ List.length ws = List.length before)
        /\ (~ In id (keys before) -> ws = before ++ [r])).
Proof.
  intros Hk ws.
  assert (Hrows := upsert_all_rows calls Hk). fold ws in Hrows.
  split; [intros id r; apply latest_In|].
  split; [intros id r H; rewrite Hrows, H; reflexivity|].
  split.
  - intros x Hx.
    assert (Hin : In x (rows_for ws (key_cell x)))
      by (apply rows_for_In; auto).
    rewrite Hrows in Hin.
    destruct (latest calls (key_cell x)) as [r|] eqn:E.
    + destruct Hin as [<-|[]]. right. exists (key_cell r). assumption.
    + destruct (String.eqb "N_Processo" (key_cell x)); [|destruct Hin].
      destruct Hin as [<-|[]]. left. reflexivity.
  - intros prev id r Hcalls before. subst calls.
    apply Forall_app in Hk. destruct Hk as [_ Hc].
    inversion Hc as [|? ? [Hid Hr] _]; subst. cbn [fst snd] in Hid, Hr.
    assert (Hkey : has_key id r = true)
      by (unfold has_key; apply String.eqb_eq; assumption).
    assert (Hws : ws = update_doentes_sheet before id r)
      by apply upsert_all_snoc.
    pose proof (list_index_keys id r before) as Hidx.
    pose proof (update_doentes_sheet_replace_first before id r Hid) as Hupd.
    rewrite <- Hws in Hupd.
    assert (Hcol : list_index id (col_values_1 before)
                   = list_index id (keys before))
      by (apply list_index_drop_trailing_empty; assumption).
    destruct (list_index id (keys before)) as [i|].
    + destruct Hidx as (Hrep & Hi & Hn & _). rewrite Hrep in Hupd.
      split; [|split].
      * rewrite Hupd.
        apply (replace_first_others id r before); assumption.
      * intros _. exists i. split; [assumption|].
        split; [rewrite replace_at_delete_insert by assumption; assumption|].
        split; [assumption|].
        rewrite Hupd, length_app. cbn [List.length].
        rewrite length_firstn, length_skipn. lia.
      * intros Hnot. exfalso. apply Hnot.
        apply nth_error_In with (n := i). assumption.
    + destruct Hidx as (Hrep & Hnot). rewrite Hrep in Hupd.
      split; [|split].
      * rewrite Hupd, filter_app. cbn [filter]. rewrite Hkey. cbn [negb].
        apply app_nil_r.
      * intros Hin. contradiction.
      * intros _. assumption.
Qed.

(** C9. The scan of column A includes the header cell.  On a sheet whose
    first row is the header, a call with the identifier "N_Processo"
    finds it at position 0: row 1 is deleted and the new row inserted in
    its place, so the header is gone and nothing is appended. *)
Theorem upsert_header_title_replaces_header (rest : worksheet) (r : row) :
  let ws := HEADERS_DOENTES :: rest in
  key_cell HEADERS_DOENTES = "N_Processo"
  /\ list_index "N_Processo" (col_values_1 ws) = Some 0
  /\ update_doentes_sheet ws "N_Processo" r = insert_row (delete_rows ws 1) r 1
  /\ update_doentes_sheet ws "N_Processo" r = r :: rest
  /\ update_doentes_sheet ws "N_Processo" r <> append_row ws r
  /\ List.length (update_doentes_sheet ws "N_Processo" r) = List.length ws.
Proof.
  intros ws.
  assert (Hidx : list_index "N_Processo" (col_values_1 ws) = Some 0).
  { unfold ws, col_values_1. cbn [map key_cell hd HEADERS_DOENTES].
    cbn [drop_trailing_empty].
    destruct (drop_trailing_empty (map key_cell rest)); reflexivity. }
  assert (Hupd : update_doentes_sheet ws "N_Processo" r = r :: rest).
  { unfold update_doentes_sheet. rewrite Hidx. reflexivity. }
  split; [reflexivity|]. split; [assumption|].
  split; [unfold update_doentes_sheet; rewrite Hidx; reflexivity|].
  split; [assumption|].
  split.
  - rewrite Hupd. intros H. apply (f_equal (@List.length row)) in H.
    unfold append_row, ws in H. rewrite length_app in H. cbn in H. lia.
  - rewrite Hupd. reflexivity.
Qed.

(** C10. When two or more rows are filed under the identifier, the call
    replaces the first of them only; every other row, the later ones
    filed under the identifier included, stays where it is.  With a row
    that carries the identifier in its first cell, the sheet still holds
    two or more rows for it; in general such a call gives a sheet with
    one row per identifier exactly when the sheet had one row per
    identifier before. *)
Theorem upsert_replaces_first_duplicate_only ws id r i j :
  id <> "" ->
  i < j ->
  nth_error (keys ws) i = Some id ->
  nth_error (keys ws) j = Some id ->
  (exists i0,
      i0 <= i
      /\ list_index id (col_values_1 ws) = Some i0
      /\ (forall k, k < i0 -> nth_error (keys ws) k <> Some id)
      /\ update_doentes_sheet ws id r = firstn i0 ws ++ r :: skipn (S i0) ws
      /\ nth_error (update_doentes_sheet ws id r) i0 = Some r
      /\ (forall k,
            k <> i0 ->
            nth_error (update_doentes_sheet ws id r) k = nth_error ws k))
  /\ nth_error (update_doentes_sheet ws id r) j = nth_error ws j
  /\ (key_cell r = id ->
      2 <= List.length (rows_for (update_doentes_sheet ws id r) id)
      /\ ~ one_row_per_identifier (update_doentes_sheet ws id r))
  /\ (forall w,
        key_cell r = id ->
        one_row_per_identifier (update_doentes_sheet w id r)
        <-> one_row_per_identifier w).
Proof.
  intros Hid Hij Hi Hj.
  pose proof (list_index_keys id r ws) as Hidx.
  pose proof (update_doentes_sheet_replace_first ws id r Hid) as Hupd.
  assert (Hcol : list_index id (col_values_1 ws) = list_index id (keys ws))
    by (apply list_index_drop_trailing_empty; assumption).
  destruct (list_index id (keys ws)) as [i0|].
  2:{ destruct Hidx as (_ & Hnot). exfalso. apply Hnot.
      apply nth_error_In with (n := i). assumption. }
  destruct Hidx as (Hrep & Hlen & Hn & Hfirst). rewrite Hrep in Hupd.
  assert (Hle : i0 <= i).
  { destruct (le_lt_dec i0 i) as [H|H]; [assumption|].
    exfalso. apply (Hfirst i H). assumption. }
  assert (Hnth : forall k,
             nth_error (update_doentes_sheet ws id r) k
             = if Nat.eqb k i0 then Some r else nth_error ws k).
  { intros k. rewrite Hupd. apply nth_error_replace. assumption. }
  split; [|split; [|split]].
  - exists i0. repeat (split; [assumption|]). split.
    + rewrite Hnth, Nat.eqb_refl. reflexivity.
    + intros k Hk. rewrite Hnth.
      destruct (Nat.eqb_spec k i0); [contradiction|reflexivity].
  - rewrite Hnth. destruct (Nat.eqb_spec j i0); [lia|reflexivity].
  - intros Hr.
    assert (Htwo : 2 <= List.length (rows_for (update_doentes_sheet ws id r) id)).
    { rewrite update_doentes_sheet_rows by assumption.
      rewrite String.eqb_refl.
      pose proof (rows_for_two ws id i j Hij Hi Hj) as H2.
      destruct (rows_for ws id); cbn [List.length] in *; lia. }
    split; [assumption|].
    intros H. specialize (H id Hid). lia.
  - intros w Hr. apply one_row_per_identifier_update; assumption.
Qed.

(** ** Worksheets of a spreadsheet *)

Lemma find_worksheet_absent_count ss name :
  find_worksheet ss name = None -> count_titled ss name = 0.
Proof.
  unfold count_titled.
  induction ss as [|[title ws] ss IH]; cbn [find_worksheet filter fst];
    [reflexivity|].
  destruct (String.eqb title name); [discriminate|assumption].
Qed.

Lemma find_worksheet_present_count ss name ws :
  find_worksheet ss name = Some ws -> 1 <= count_titled ss name.
Proof.
  unfold count_titled.
  induction ss as [|[title x] ss IH]; cbn [find_worksheet filter fst];
    [discriminate|].
  destruct (String.eqb title name); cbn [List.length]; [lia|assumption].
Qed.

Lemma update_worksheet_new ss name f :
  find_worksheet ss name = None ->
  update_worksheet (ss ++ [(name, [])]) name f = ss ++ [(name, f [])].
Proof.
  induction ss as [|[title x] ss IH];
    cbn [find_worksheet update_worksheet app].
  - rewrite String.eqb_refl. reflexivity.
  - destruct (String.eqb title name); [discriminate|].
    intros H. rewrite IH by assumption. reflexivity.
Qed.

Lemma find_worksheet_new ss name ws :
  find_worksheet ss name = None ->
  find_worksheet (ss ++ [(name, ws)]) name = Some ws.
Proof.
  induction ss as [|[title x] ss IH]; cbn [find_worksheet app].
  - rewrite String.eqb_refl. reflexivity.
  - destruct (String.eqb title name); [discriminate|assumption].
Qed.

Lemma find_worksheet_other ss name other ws :
  other <> name ->
  find_worksheet (ss ++ [(name, ws)]) other = find_worksheet ss other.
Proof.
  intros Hne. induction ss as [|[title x] ss IH]; cbn [find_worksheet app].
  - destruct (String.eqb_spec name other); [congruence|reflexivity].
  - rewrite IH. reflexivity.
Qed.

Lemma get_or_create_sheet_absent ss name headers :
  find_worksheet ss name = None ->
  get_or_create_sheet ss name headers
  = (ss ++ [(name, [headers])], [headers]).
Proof.
  intros H. unfold get_or_create_sheet, add_worksheet. rewrite H.
  rewrite update_worksheet_new by assumption.
  rewrite find_worksheet_new by assumption. reflexivity.
Qed.

(** C7. [get_or_create_sheet] is idempotent.  A second call with the
    same name, whatever header it is given, returns the worksheet of the
    first call and leaves the spreadsheet as the first call left it: no
    second worksheet of that name, the header row unchanged.  When the
    name is absent the first call adds one worksheet whose only row is
    the given header; when it is present the call changes nothing. *)
Theorem get_or_create_sheet_idempotent ss name headers headers' :
  let first := get_or_create_sheet ss name headers in
  get_or_create_sheet (fst first) name headers' = first
  /\ find_worksheet (fst first) name = Some (snd first)
  /\ count_titled (fst first) name = Nat.max 1 (count_titled ss name)
  /\ (find_worksheet ss name = None ->
      first = (ss ++ [(name, [headers])], [headers]))
  /\ (forall ws, find_worksheet ss name = Some ws -> first = (ss, ws))
  /\ (forall other,
        other <> name ->
        find_worksheet (fst first) other = find_worksheet ss other).
Proof.
  intros first. unfold first.
  destruct (find_worksheet ss name) as [ws|] eqn:Hf.
  - assert (Hfirst : get_or_create_sheet ss name headers = (ss, ws))
      by (unfold get_or_create_sheet; rewrite Hf; reflexivity).
    rewrite Hfirst. cbn [fst snd].
    split; [unfold get_or_create_sheet; rewrite Hf; reflexivity|].
    split; [assumption|].
    split; [pose proof (find_worksheet_present_count _ _ _ Hf); lia|].
    split; [discriminate|].
    split; [intros ws' H; congruence|reflexivity].
  - rewrite (get_or_create_sheet_absent ss name headers Hf). cbn [fst snd].
    assert (Hnew : find_worksheet (ss ++ [(name, [headers])]) name
                   = Some [headers])
      by (apply find_worksheet_new; assumption).
    split; [unfold get_or_create_sheet; rewrite Hnew; reflexivity|].
    split; [assumption|].
    split.
    { unfold count_titled. rewrite filter_app, length_app.
      fold (count_titled ss name).
      rewrite (find_worksheet_absent_count ss name Hf).
      cbn [filter fst]. rewrite String.eqb_refl. reflexivity. }
    split; [reflexivity|].
    split; [discriminate|].
    intros other Hne. apply find_worksheet_other; assumption.
Qed.

(** ** The extraction step *)

Section ExtractionProofs.

Variable decode_compound : string -> result value.


(** A reply that is a JSON document inside a code fence is decoded and
    stored for review. *)
Lemma fenced_reply_is_stored st n :
  extract_with_gemini decode_compound (Ok (Some (fenced "null"))) = Ok VNone
  /\ processar decode_compound st n (Ok (Some (fenced "true")))
     = (mksession true (Some (VBool true)) (Some n), ExtracaoConcluida)
  /\ pending_state
       (fst (processar decode_compound st n (Ok (Some (fenced "true")))))
     = PendingReview.
Proof. repeat split. Qed.

End ExtractionProofs.

(** * Instances *)

(** The scenario of the specification: identifier 123456, sexo M,
    frailty 4, ejection-fraction category FEp, losartan 50mg as RASi. *)
Lemma end_to_end_scenario :
  build_doentes_row sample_repr sample_today "123456" sample_record
  = Ok sample_doentes_row.
Proof. reflexivity. Qed.

Lemma rows_match_headers_witness :
  canonical_record sample_record = true
  /\ exists rd rv,
       build_doentes_row sample_repr sample_today "123456" sample_record
       = Ok rd
       /\ build_visitas_row sample_repr "123456" sample_record = Ok rv
       /\ List.length rd = List.length HEADERS_DOENTES
       /\ List.length rv = List.length HEADERS_VISITAS.
Proof.
  assert (H : canonical_record sample_record = true) by reflexivity.
  split; [exact H|].
  exact (proj1 (rows_match_headers sample_repr sample_today "123456"
                  sample_record H)).
Defined.

Lemma medication_cells_fixed_order_witness :
  dict_lookup sample_top "doente" = Some (VDict sample_doente)
  /\ build_doentes_row sample_repr sample_today "123456" (VDict sample_top)
     = Ok sample_doentes_row
  /\ List.length sample_doentes_row = List.length HEADERS_DOENTES.
Proof.
  assert (H1 : dict_lookup sample_top "doente" = Some (VDict sample_doente))
    by reflexivity.
  assert (H2 : build_doentes_row sample_repr sample_today "123456"
                 (VDict sample_top) = Ok sample_doentes_row)
    by reflexivity.
  split; [exact H1|]. split; [exact H2|].
  exact (proj1 (proj2 (medication_cells_fixed_order sample_repr sample_today
                         "123456" sample_top sample_doente
                         sample_doentes_row H1 H2))).
Defined.

Lemma upsert_one_row_per_identifier_witness :
  Forall keyed sample_calls
  /\ rows_for (upsert_all [HEADERS_DOENTES] sample_calls) "123456"
     = [["123456"; "M"; "FEp"]].
Proof.
  assert (H : Forall keyed sample_calls).
  { repeat constructor; cbn; discriminate. }
  split; [exact H|].
  apply (proj1 (proj2 (upsert_one_row_per_identifier sample_calls H))).
  reflexivity.
Defined.

Lemma age_is_calendar_aware_and_fails_soft_witness :
  dict_lookup sample_top "doente" = Some (VDict sample_doente)
  /\ canonical_doente sample_doente = true
  /\ calculate_age (mkdate 2024 3 9) (VStr "1960-03-10") = Some 63%Z.
Proof.
  assert (H1 : dict_lookup sample_top "doente" = Some (VDict sample_doente))
    by reflexivity.
  assert (H2 : canonical_doente sample_doente = true) by reflexivity.
  split; [exact H1|]. split; [exact H2|].
  exact (proj1 (age_is_calendar_aware_and_fails_soft sample_repr sample_today
                  "123456" sample_top sample_doente H1 H2)).
Defined.


Lemma projectors_total_on_canonical_witness :
  canonical_record sample_record = true
  /\ exists d v,
       dict_lookup sample_top "doente" = Some (VDict d)
       /\ dict_lookup sample_top "visita" = Some (VDict v)
       /\ build_doentes_row sample_repr sample_today "123456" sample_record
          = Ok (map (project_column sample_repr sample_today "123456" d)
                  DOENTES_COLUMNS)
       /\ build_visitas_row sample_repr "123456" sample_record
          = Ok (map (project_column sample_repr sample_today "123456" v)
                  VISITAS_COLUMNS).
Proof.
  assert (H : canonical_record sample_record = true) by reflexivity.
  split; [exact H|].
  destruct (proj1 (projectors_total_on_canonical sample_repr sample_today
                     "123456" sample_record H))
    as (t & d & v & He & Hd & Hv & Hrd & Hrv & _).
  injection He as <-.
  exists d, v. split; [exact Hd|]. split; [exact Hv|].
  split; [exact Hrd|exact Hrv].
Defined.

Lemma upsert_replaces_first_duplicate_only_witness :
  "123456" <> ""
  /\ 1 < 3
  /\ nth_error (keys sample_sheet) 1 = Some "123456"
  /\ nth_error (keys sample_sheet) 3 = Some "123456"
  /\ nth_error (update_doentes_sheet sample_sheet "123456" ["123456"; "z"]) 3
     = nth_error sample_sheet 3.
Proof.
  assert (H0 : "123456" <> "") by discriminate.
  assert (H1 : 1 < 3) by lia.
  assert (H2 : nth_error (keys sample_sheet) 1 = Some "123456") by reflexivity.
  assert (H3 : nth_error (keys sample_sheet) 3 = Some "123456") by reflexivity.
  split; [exact H0|]. split; [exact H1|]. split; [exact H2|].
  split; [exact H3|].
  exact (proj1 (proj2 (upsert_replaces_first_duplicate_only sample_sheet
                         "123456" ["123456"; "z"] 1 3 H0 H1 H2 H3))).
Defined.

(** A section that holds [null] stops the builder, where a medication
    class that holds [null] gives three empty cells. *)
Lemma null_section_and_null_class :
  build_doentes_row sample_repr sample_today "123456"
    (VDict [("doente", VDict [("frcv", VNone)])])
  = Raise AttributeError
  /\ build_doentes_row sample_repr sample_today "123456"
       (VDict [("doente", VDict [("medicacao", VDict [("rasi", VNone)])])])
     = Ok (["123456"] ++ repeat "" 69 ++ ["2024-03-09"]).
Proof. split; reflexivity. Qed.

(** Three calls on a sheet that holds its header: the second call for
    123456 takes the place of the first, before the row of 654321. *)
Lemma upsert_all_sample :
  upsert_all [HEADERS_DOENTES] sample_calls
  = [HEADERS_DOENTES; ["123456"; "M"; "FEp"]; ["654321"; "F"]].
Proof. reflexivity. Qed.

(** C8 as stated fails: a reply without the key [doente], or without the
    key [visita], takes the builder to the missing-key error; and a
    section that holds [null] stops the builder with another error,
    where the absent section gives the row of empty cells. *)
Lemma projectors_not_total :
  build_doentes_row sample_repr sample_today "123456"
    (VDict [("visita", VDict [])])
  = Raise KeyError
  /\ build_visitas_row sample_repr "123456" (VDict [("doente", VDict [])])
     = Raise KeyError
  /\ build_doentes_row sample_repr sample_today "123456"
       (VDict [("doente", VDict [("frcv", VNone)]); ("visita", VDict [])])
     = Raise AttributeError
  /\ build_doentes_row sample_repr sample_today "123456"
       (VDict [("doente", VDict []); ("visita", VDict [])])
     = Ok (["123456"] ++ repeat "" 69 ++ ["2024-03-09"])
  /\ ~ (forall e,
          exists rd rv,
            build_doentes_row sample_repr sample_today "123456" e = Ok rd
            /\ build_visitas_row sample_repr "123456" e = Ok rv).
Proof.
  split; [reflexivity|]. split; [reflexivity|].
  split; [reflexivity|]. split; [reflexivity|].
  intros H. destruct (H (VDict [])) as (rd & rv & H1 & _). discriminate H1.
Qed.


(** * Further properties *)

(** ** Ages and dates *)

(** X1. For a date of birth that parses, the age is negative exactly
    when the date of birth is after today. *)
Theorem age_negative_iff_birth_after_today now s dob :
  strptime_ymd s = Ok dob ->
  exists age,
    calculate_age now s = Some age
    /\ ((age < 0)%Z <-> date_before now dob).
Proof.
  intros H. unfold calculate_age. rewrite H. eexists. split; [reflexivity|].
  unfold date_before.
  pose proof (md_lt_spec (month now) (day now) (month dob) (day dob)) as Hmd.
  destruct (md_lt (month now) (day now) (month dob) (day dob)); cbn [Z.b2z].
  - assert (Hlt := proj1 Hmd eq_refl). lia.
  - assert (Hn : ~ ((month now < month dob)%Z
                    \/ (month now = month dob /\ (day now < day dob)%Z)))
      by (intros Hc; apply Hmd in Hc; discriminate Hc).
    lia.
Qed.

(** X2. The age never decreases as today advances. *)
Theorem age_monotone_in_today t1 t2 s a1 a2 :
  ~ date_before t2 t1 ->
  calculate_age t1 s = Some a1 ->
  calculate_age t2 s = Some a2 ->
  (a1 <= a2)%Z.
Proof.
  unfold calculate_age, date_before. intros Hle H1 H2.
  destruct (strptime_ymd s) as [dob|]; [|discriminate H1].
  injection H1 as <-. injection H2 as <-.
  pose proof (md_lt_spec (month t1) (day t1) (month dob) (day dob)) as M1.
  pose proof (md_lt_spec (month t2) (day t2) (month dob) (day dob)) as M2.
  destruct (md_lt (month t1) (day t1) (month dob) (day dob));
    destruct (md_lt (month t2) (day t2) (month dob) (day dob));
    cbn [Z.b2z]; lia.
Qed.

Lemma parse_Y_app s y rest :
  parse_Y s = Some (y, EmptyString) ->
  parse_Y (s ++ rest)%string = Some (y, rest).
Proof.
  destruct s as [|a [|b [|c [|d s4]]]]; try discriminate.
  cbn [parse_Y String.append].
  destruct (digit_of a), (digit_of b), (digit_of c), (digit_of d);
    try discriminate.
  intros H. injection H as <- ->. reflexivity.
Qed.

Lemma years_print_and_parse :
  forallb
    (fun n =>
       match parse_Y (zfill 4 (str_of_int (Z.of_nat n))) with
       | Some (y, EmptyString) => Z.eqb y (Z.of_nat n)
       | _ => false
       end)
    (seq 0 (100 * 100))
  = true.
Proof. vm_compute. reflexivity. Qed.

Lemma parse_Y_zfill y rest :
  (0 <= y <= 9999)%Z ->
  parse_Y (zfill 4 (str_of_int y) ++ rest)%string = Some (y, rest).
Proof.
  intros Hy. apply parse_Y_app.
  pose proof years_print_and_parse as H. rewrite forallb_forall in H.
  specialize (H (Z.to_nat y)).
  rewrite Z2Nat.id in H by lia.
  assert (Hin : In (Z.to_nat y) (seq 0 (100 * 100))) by (apply in_seq; lia).
  specialize (H Hin).
  destruct (parse_Y (zfill 4 (str_of_int y))) as [[y' [|? ?]]|];
    try discriminate H.
  apply Z.eqb_eq in H. subst y'. reflexivity.
Qed.

Lemma parse_m_dash_zfill m rest :
  (1 <= m <= 12)%Z ->
  parse_m_dash (zfill 2 (str_of_int m) ++ String "-" rest)%string
  = Some (m, rest).
Proof.
  intros Hm.
  assert (H : In m [1; 2; 3; 4; 5; 6; 7; 8; 9; 10; 11; 12]%Z)
    by (cbn [In]; lia).
  cbn [In] in H.
  repeat (destruct H as [<-|H]; [reflexivity|]). destruct H.
Qed.

Lemma parse_d_zfill d :
  (1 <= d <= 31)%Z ->
  parse_d (zfill 2 (str_of_int d)) = Some (d, EmptyString).
Proof.
  intros Hd.
  assert (H : In d (map Z.of_nat (seq 1 31))).
  { apply in_map_iff. exists (Z.to_nat d). split; [lia|].
    apply in_seq. lia. }
  cbn [seq map In] in H.
  repeat (destruct H as [<-|H]; [reflexivity|]). destruct H.
Qed.

Lemma days_in_month_le y m : (days_in_month y m <= 31)%Z.
Proof.
  unfold days_in_month.
  destruct (m =? 2)%Z; [destruct (is_leap y); lia|].
  destruct ((m =? 4) || (m =? 6) || (m =? 9) || (m =? 11))%Z; lia.
Qed.

Lemma md_lt_irrefl m d : md_lt m d m d = false.
Proof.
  unfold md_lt. rewrite !Z.ltb_irrefl, andb_false_r. reflexivity.
Qed.

(** X3. The text [isoformat] writes for a calendar date is read back by
    the format of the date of birth as the same date; so the age of a
    patient whose date of birth is the save date is 0. *)
Theorem isoformat_strptime_round_trip t :
  valid_date (year t) (month t) (day t) = true ->
  strptime_ymd (VStr (isoformat t)) = Ok t
  /\ calculate_age t (VStr (isoformat t)) = Some 0%Z.
Proof.
  intros Hv.
  assert (Hparse : strptime_ymd (VStr (isoformat t)) = Ok t).
  { destruct t as [y m d]. cbn [year month day] in *.
    pose proof Hv as Hv'. unfold valid_date in Hv'.
    repeat (apply andb_true_iff in Hv'; destruct Hv' as [Hv' ?]).
    repeat match goal with
           | H : (_ <=? _)%Z = true |- _ => apply Z.leb_le in H
           end.
    pose proof (days_in_month_le y m).
    unfold strptime_ymd, isoformat. cbn [year month day].
    rewrite parse_Y_zfill by lia.
    change ("-" ++ zfill 2 (str_of_int m) ++ "-" ++ zfill 2 (str_of_int d))%string
      with (String "-" (zfill 2 (str_of_int m)
                        ++ String "-" (zfill 2 (str_of_int d))))%string.
    cbv beta iota.
    match goal with
    | |- context [Ascii.eqb ?a ?b] =>
        change (Ascii.eqb a b) with true
    end.
    cbv iota.
    rewrite parse_m_dash_zfill by lia.
    rewrite parse_d_zfill by lia.
    rewrite Hv. reflexivity. }
  split; [assumption|].
  unfold calculate_age. rewrite Hparse, md_lt_irrefl. cbn [Z.b2z].
  f_equal. lia.
Qed.

(** ** Errors of the row builders *)

(** X4. What the builders do with any reply: [TypeError] on a reply
    that is not an object; [KeyError] on an object without the top-level
    key; [AttributeError] when the value under the key, a section, or a
    medication class that is not false, is not an object; the row
    otherwise. *)
Theorem row_builders_outcome container_repr today n e :
  build_doentes_row container_repr today n e
  = match e with
    | VDict t =>
        match dict_lookup t "doente" with
        | None => Raise KeyError
        | Some (VDict d) =>
            if canonical_doente d
            then Ok (map (project_column container_repr today n d)
                       DOENTES_COLUMNS)
            else Raise AttributeError
        | Some _ => Raise AttributeError
        end
    | _ => Raise TypeError
    end
  /\ build_visitas_row container_repr n e
     = match e with
       | VDict t =>
           match dict_lookup t "visita" with
           | None => Raise KeyError
           | Some (VDict v) =>
               if canonical_visita v
               then Ok (map (project_column container_repr today n v)
                          VISITAS_COLUMNS)
               else Raise AttributeError
           | Some _ => Raise AttributeError
           end
       | _ => Raise TypeError
       end.
Proof.
  split.
  - destruct e as [| | | | | |t]; try reflexivity.
    destruct (dict_lookup t "doente") as [x|] eqn:Hd.
    + destruct x as [| | | | | |d];
        try (unfold build_doentes_row; cbn [getitem]; rewrite Hd;
             reflexivity).
      apply build_doentes_row_cases; assumption.
    + unfold build_doentes_row. cbn [getitem]. rewrite Hd. reflexivity.
  - destruct e as [| | | | | |t]; try reflexivity.
    destruct (dict_lookup t "visita") as [x|] eqn:Hv.
    + destruct x as [| | | | | |v];
        try (unfold build_visitas_row; cbn [getitem]; rewrite Hv;
             reflexivity).
      apply build_visitas_row_cases; assumption.
    + unfold build_visitas_row. cbn [getitem]. rewrite Hv. reflexivity.
Qed.

(** ** Code fences *)

Lemma string_app_nil_r s : (s ++ EmptyString)%string = s.
Proof. induction s as [|c s IH]; [reflexivity|]. cbn. rewrite IH. reflexivity. Qed.

Lemma string_app_assoc s t u :
  ((s ++ t) ++ u)%string = (s ++ (t ++ u))%string.
Proof. induction s as [|c s IH]; [reflexivity|]. cbn. rewrite IH. reflexivity. Qed.

Lemma rstrip_app_kept s t :
  rstrip t = t -> t <> EmptyString -> rstrip (s ++ t)%string = (s ++ t)%string.
Proof.
  intros Ht Hne. induction s as [|c s IH]; [assumption|].
  cbn [String.append rstrip]. rewrite IH.
  destruct (s ++ t)%string eqn:E; [|reflexivity].
  destruct s; cbn in E; [contradiction | discriminate E].
Qed.

Lemma lstrip_app s t :
  lstrip (s ++ t)%string
  = if all_space s then lstrip t else (lstrip s ++ t)%string.
Proof.
  induction s as [|c s IH]; [reflexivity|].
  cbn [String.append lstrip all_space].
  destruct (is_space c); [assumption|reflexivity].
Qed.

Lemma lstrip_all_space s : all_space s = true -> lstrip s = EmptyString.
Proof.
  induction s as [|c s IH]; [reflexivity|].
  cbn [all_space lstrip]. destruct (is_space c); [assumption|discriminate].
Qed.

Lemma rstrip_all_space s : all_space s = true -> rstrip s = EmptyString.
Proof.
  induction s as [|c s IH]; [reflexivity|].
  cbn [all_space rstrip]. intros H. apply andb_true_iff in H.
  destruct H as [Hc Hs]. rewrite (IH Hs), Hc. reflexivity.
Qed.

Lemma rstrip_empty_all_space s : rstrip s = EmptyString -> all_space s = true.
Proof.
  induction s as [|c s IH]; [reflexivity|].
  cbn [all_space rstrip]. destruct (rstrip s) eqn:E; [|discriminate].
  destruct (is_space c); [intros _; apply IH; reflexivity|discriminate].
Qed.

Lemma lstrip_rstrip_comm s : lstrip (rstrip s) = rstrip (lstrip s).
Proof.
  induction s as [|c s IH]; [reflexivity|].
  cbn [rstrip lstrip]. destruct (is_space c) eqn:Hc.
  - rewrite <- IH. destruct (rstrip s); [reflexivity|].
    cbn [lstrip]. rewrite Hc. reflexivity.
  - cbn [rstrip]. destruct (rstrip s); rewrite ?Hc; cbn [lstrip];
      rewrite Hc; reflexivity.
Qed.

Lemma no_backtick_lstrip s : no_backtick s = true -> no_backtick (lstrip s) = true.
Proof.
  induction s as [|c s IH]; [reflexivity|].
  cbn [lstrip]. destruct (is_space c); [|trivial].
  cbn [no_backtick]. intros H. apply andb_true_iff in H. apply IH, H.
Qed.

Lemma no_backtick_rstrip s : no_backtick s = true -> no_backtick (rstrip s) = true.
Proof.
  induction s as [|c s IH]; [reflexivity|].
  cbn [no_backtick rstrip]. intros H. apply andb_true_iff in H.
  destruct H as [Hc Hs]. specialize (IH Hs).
  destruct (rstrip s); [destruct (is_space c)|]; cbn [no_backtick];
    rewrite ?Hc; try reflexivity. exact IH.
Qed.

(** Text without a backtick is not a fence, with or without white space
    before it. *)
Lemma no_backtick_not_fence s tail :
  no_backtick s = true -> all_space s = false ->
  String.eqb (lstrip (s ++ tail)%string) FENCE = false
  /\ String.eqb (lstrip (s ++ tail)%string) (FENCE ++ String LF EmptyString)
     = false.
Proof.
  induction s as [|c s IH]; [discriminate|].
  cbn [no_backtick all_space String.append lstrip].
  intros Hb Hs. apply andb_true_iff in Hb. destruct Hb as [Hc Hb].
  destruct (is_space c) eqn:Hsp.
  - apply IH; assumption.
  - unfold FENCE. cbn [String.append String.eqb].
    apply negb_true_iff in Hc. unfold BACKTICK in Hc.
    change (ascii_of_nat 96) with "`"%char in Hc. rewrite Hc. split; reflexivity.
Qed.

Lemma sub_trailing_fence_no_backtick s :
  no_backtick s = true -> sub_trailing_fence s = s.
Proof.
  induction s as [|c s IH]; [reflexivity|].
  intros Hb. cbn [sub_trailing_fence].
  assert (Hl : String.eqb (lstrip (String c s)) FENCE = false
               /\ String.eqb (lstrip (String c s))
                    (FENCE ++ String LF EmptyString) = false).
  { destruct (all_space (String c s)) eqn:Hs.
    - rewrite (lstrip_all_space _ Hs). split; reflexivity.
    - pose proof (no_backtick_not_fence (String c s) EmptyString Hb Hs) as H.
      rewrite string_app_nil_r in H. exact H. }
  destruct Hl as [-> ->].
  cbn [no_backtick] in Hb. apply andb_true_iff in Hb.
  rewrite IH by apply Hb. reflexivity.
Qed.

Lemma sub_trailing_fence_closing s :
  no_backtick s = true ->
  sub_trailing_fence (s ++ String LF FENCE)%string = rstrip s.
Proof.
  induction s as [|c s IH]; [reflexivity|].
  intros Hb.
  destruct (all_space (String c s)) eqn:Hs.
  - rewrite (rstrip_all_space _ Hs).
    assert (Hl : lstrip (String c s ++ String LF FENCE)%string = FENCE).
    { rewrite lstrip_app, Hs. reflexivity. }
    cbn [String.append] in Hl |- *. cbn [sub_trailing_fence]. rewrite Hl.
    reflexivity.
  - pose proof (no_backtick_not_fence (String c s) (String LF FENCE) Hb Hs)
      as [H1 H2].
    cbn [String.append] in H1, H2 |- *. cbn [sub_trailing_fence].
    rewrite H1, H2.
    cbn [no_backtick] in Hb. apply andb_true_iff in Hb.
    rewrite IH by apply Hb. cbn [rstrip].
    destruct (rstrip s) eqn:E; [|reflexivity].
    apply rstrip_empty_all_space in E. cbn [all_space] in Hs. rewrite E in Hs.
    rewrite andb_true_r in Hs. rewrite Hs. reflexivity.
Qed.

Lemma drop_prefix_fence_no_backtick s :
  no_backtick s = true -> drop_prefix FENCE s = None.
Proof.
  destruct s as [|c s]; [reflexivity|].
  cbn [no_backtick]. intros H. apply andb_true_iff in H. destruct H as [Hc _].
  apply negb_true_iff in Hc. unfold BACKTICK in Hc.
  change (ascii_of_nat 96) with "`"%char in Hc.
  unfold drop_prefix, FENCE. cbn [String.prefix].
  destruct (ascii_dec "`" c) as [<-|Hne]; [|reflexivity].
  rewrite Ascii.eqb_refl in Hc. discriminate Hc.
Qed.

Lemma substring_all s : String.substring 0 (String.length s) s = s.
Proof. induction s as [|c s IH]; [reflexivity|]. cbn. rewrite IH. reflexivity. Qed.

Lemma drop_prefix_app p s : drop_prefix p (p ++ s)%string = Some s.
Proof.
  unfold drop_prefix.
  assert (Hp : String.prefix p (p ++ s)%string = true).
  { induction p as [|c p IH]; [destruct s; reflexivity|].
    cbn [String.append String.prefix].
    destruct (ascii_dec c c); [assumption|contradiction]. }
  rewrite Hp. f_equal.
  induction p as [|c p IH].
  - cbn [String.append String.length]. rewrite Nat.sub_0_r.
    apply substring_all.
  - cbn [String.append String.length String.substring Nat.sub].
    apply IH. clear IH.
    cbn [String.append String.prefix] in Hp.
    destruct (ascii_dec c c); [assumption|contradiction].
Qed.

Lemma lstrip_nonspace c s : is_space c = false -> lstrip (String c s) = String c s.
Proof. intros H. cbn [lstrip]. rewrite H. reflexivity. Qed.

Section FenceProofs.

Variable decode_compound : string -> result value.

(** X5. A code fence around the reply, with or without the tag [json],
    does not change what is decoded: when the reply holds no backtick,
    the fenced reply and the bare reply give the same result, the one of
    [json.loads] on the reply stripped of white space. *)
Theorem fence_is_transparent body :
  no_backtick body = true ->
  extract_with_gemini decode_compound (Ok (Some (fenced body)))
  = json_loads decode_compound (strip body)
  /\ extract_with_gemini decode_compound (Ok (Some (fenced_plain body)))
     = json_loads decode_compound (strip body)
  /\ extract_with_gemini decode_compound (Ok (Some body))
     = json_loads decode_compound (strip body).
Proof.
  intros Hb.
  assert (Hclose : sub_trailing_fence (lstrip (body ++ String LF FENCE))
                   = strip body).
  { rewrite lstrip_app. destruct (all_space body) eqn:Hs.
    - unfold strip. rewrite (rstrip_all_space _ Hs). reflexivity.
    - rewrite sub_trailing_fence_closing by (apply no_backtick_lstrip, Hb).
      unfold strip. symmetry. apply lstrip_rstrip_comm. }
  assert (Hkeep : forall s, rstrip (s ++ String LF FENCE)%string
                            = (s ++ String LF FENCE)%string).
  { intros s. apply rstrip_app_kept; [reflexivity|discriminate]. }
  assert (Hlead : lstrip (String LF (body ++ String LF FENCE))
                  = lstrip (body ++ String LF FENCE)) by reflexivity.
  split; [|split].
  - unfold extract_with_gemini. cbn [bind]. f_equal.
    unfold fenced, strip.
    change ("```json" ++ String LF (body ++ String LF "```"))%string
      with (("```json" ++ String LF body) ++ String LF FENCE)%string.
    rewrite Hkeep.
    change (("```json" ++ String LF body) ++ String LF FENCE)%string
      with (String "`" ("``json" ++ String LF (body ++ String LF FENCE)))%string.
    rewrite lstrip_nonspace by reflexivity.
    change (String "`" ("``json" ++ String LF (body ++ String LF FENCE)))%string
      with (FENCE ++ ("json" ++ String LF (body ++ String LF FENCE)))%string.
    unfold sub_leading_fence. rewrite !drop_prefix_app, Hlead.
    exact Hclose.
  - unfold extract_with_gemini. cbn [bind]. f_equal.
    unfold fenced_plain, strip.
    change ("```" ++ String LF (body ++ String LF "```"))%string
      with (("```" ++ String LF body) ++ String LF FENCE)%string.
    rewrite Hkeep.
    change (("```" ++ String LF body) ++ String LF FENCE)%string
      with (String "`" ("``" ++ String LF (body ++ String LF FENCE)))%string.
    rewrite lstrip_nonspace by reflexivity.
    change (String "`" ("``" ++ String LF (body ++ String LF FENCE)))%string
      with (FENCE ++ String LF (body ++ String LF FENCE))%string.
    unfold sub_leading_fence. rewrite drop_prefix_app.
    assert (Hj : drop_prefix "json" (String LF (body ++ String LF FENCE)) = None)
      by reflexivity.
    rewrite Hj, Hlead. exact Hclose.
  - unfold extract_with_gemini. cbn [bind]. f_equal.
    assert (Hs : no_backtick (strip body) = true)
      by (apply no_backtick_lstrip, no_backtick_rstrip, Hb).
    unfold sub_leading_fence.
    rewrite (drop_prefix_fence_no_backtick _ Hs).
    apply sub_trailing_fence_no_backtick; assumption.
Qed.

End FenceProofs.

(** ** More on the upsert *)

Lemma update_doentes_sheet_nil id r :
  id <> "" -> update_doentes_sheet [] id r = [r].
Proof. intros H. rewrite update_doentes_sheet_replace_first by assumption. reflexivity. Qed.

Lemma update_doentes_sheet_cons x ws id r :
  id <> "" ->
  update_doentes_sheet (x :: ws) id r
  = if has_key id x then r :: ws else x :: update_doentes_sheet ws id r.
Proof.
  intros H. rewrite !update_doentes_sheet_replace_first by assumption.
  cbn [replace_first]. destruct (has_key id x); [reflexivity|].
  destruct (replace_first id r ws); reflexivity.
Qed.

Lemma has_key_other a b r : key_cell r = a -> a <> b -> has_key b r = false.
Proof.
  intros Hr Hne. unfold has_key. rewrite Hr. apply String.eqb_neq. assumption.
Qed.

Lemma has_key_self a r : key_cell r = a -> has_key a r = true.
Proof. intros Hr. unfold has_key. rewrite Hr. apply String.eqb_refl. Qed.



(** X7. The last call wins: two calls in a row for one identifier leave
    the sheet as the second call alone does, when the row of the first
    carries the identifier.  A call made twice changes nothing the
    second time. *)
Theorem upsert_last_call_wins ws id r1 r2 :
  id <> "" ->
  key_cell r1 = id ->
  update_doentes_sheet (update_doentes_sheet ws id r1) id r2
  = update_doentes_sheet ws id r2
  /\ update_doentes_sheet (update_doentes_sheet ws id r1) id r1
     = update_doentes_sheet ws id r1.
Proof.
  intros Hid Hr.
  assert (Hk : has_key id r1 = true) by (apply has_key_self; assumption).
  assert (H : forall r,
             update_doentes_sheet (update_doentes_sheet ws id r1) id r
             = update_doentes_sheet ws id r).
  { intros r. induction ws as [|x ws IH].
    - rewrite !update_doentes_sheet_nil by assumption.
      rewrite update_doentes_sheet_cons, Hk by assumption. reflexivity.
    - rewrite !(update_doentes_sheet_cons x) by assumption.
      destruct (has_key id x) eqn:Hx.
      + rewrite update_doentes_sheet_cons, Hk by assumption. reflexivity.
      + rewrite update_doentes_sheet_cons, Hx, IH by assumption.
        reflexivity. }
  split; apply H.
Qed.


(** X9. Calls for two different identifiers, each with a row that
    carries its identifier, can be made in either order: the sheets hold
    the same rows, and are equal when one of the identifiers is already
    in the sheet. *)
Theorem upsert_calls_commute ws a ra b rb :
  a <> "" -> b <> "" -> a <> b ->
  key_cell ra = a -> key_cell rb = b ->
  Permutation
    (update_doentes_sheet (update_doentes_sheet ws a ra) b rb)
    (update_doentes_sheet (update_doentes_sheet ws b rb) a ra)
  /\ (In a (keys ws) \/ In b (keys ws) ->
      update_doentes_sheet (update_doentes_sheet ws a ra) b rb
      = update_doentes_sheet (update_doentes_sheet ws b rb) a ra).
Proof.
  intros Ha Hb Hab Hra Hrb.
  assert (Hba : has_key b ra = false) by (apply (has_key_other a); assumption).
  assert (Hab' : has_key a rb = false)
    by (apply (has_key_other b); [assumption|congruence]).
  induction ws as [|x ws [IHp IHe]].
  - rewrite !update_doentes_sheet_nil by assumption.
    rewrite !update_doentes_sheet_cons, Hba, Hab' by assumption.
    rewrite !update_doentes_sheet_nil by assumption.
    split; [apply perm_swap|]. cbn. tauto.
  - rewrite (update_doentes_sheet_cons x ws a) by assumption.
    rewrite (update_doentes_sheet_cons x ws b) by assumption.
    destruct (has_key a x) eqn:Hax; destruct (has_key b x) eqn:Hbx.
    + unfold has_key in Hax, Hbx. apply String.eqb_eq in Hax, Hbx. congruence.
    + rewrite !update_doentes_sheet_cons, Hba, Hax by assumption.
      split; [apply Permutation_refl|reflexivity].
    + rewrite !update_doentes_sheet_cons, Hab', Hbx by assumption.
      split; [apply Permutation_refl|reflexivity].
    + rewrite !update_doentes_sheet_cons, Hax, Hbx by assumption.
      split; [apply perm_skip; exact IHp|].
      unfold has_key in Hax, Hbx. apply String.eqb_neq in Hax, Hbx.
      cbn [keys map In]. intros [[H|H]|[H|H]]; try contradiction;
        f_equal; apply IHe; [left|right]; exact H.
Qed.

Lemma drop_trailing_empty_snoc l :
  drop_trailing_empty (l ++ [""]) = drop_trailing_empty l.
Proof.
  induction l as [|x l IH]; [reflexivity|].
  cbn [app drop_trailing_empty]. rewrite IH. reflexivity.
Qed.

Lemma drop_trailing_empty_In x l : In x (drop_trailing_empty l) -> In x l.
Proof.
  induction l as [|y l IH]; [trivial|].
  cbn [drop_trailing_empty].
  destruct (drop_trailing_empty l) as [|z t].
  - destruct (String.eqb y ""); [intros []|].
    intros [H|[]]. left. exact H.
  - intros [H|H]; [left; exact H|right; apply IH; exact H].
Qed.

Lemma list_index_absent x l : ~ In x l -> list_index x l = None.
Proof.
  induction l as [|y l IH]; [reflexivity|].
  cbn [In list_index]. intros H.
  destruct (String.eqb_spec y x) as [->|_]; [exfalso; apply H; now left|].
  rewrite IH; [reflexivity|]. intros Hin. apply H. now right.
Qed.

(** X10. An empty identifier is never found.  On a sheet without an
    empty cell in column A, calls with the empty identifier, each with a
    row that holds data and is filed under the empty identifier, append
    every time, so that [n] calls leave [n] rows for it. *)
Theorem empty_identifier_always_appends ws rs :
  ~ In "" (keys ws) ->
  Forall (fun r => key_cell r = "" /\ holds_data r = true) rs ->
  upsert_all ws (map (pair "") rs) = ws ++ rs.
Proof.
  intros Hws Hrs.
  assert (H : forall rs w,
             list_index "" (col_values_1 w) = None ->
             Forall (fun r => key_cell r = "" /\ holds_data r = true) rs ->
             upsert_all w (map (pair "") rs) = w ++ rs).
  { clear. induction rs as [|r rs IH]; intros w Hw Hrs.
    - cbn. rewrite app_nil_r. reflexivity.
    - inversion Hrs as [|? ? [Hr _] Hrs']; subst.
      cbn [map upsert_all fold_left fst snd].
      assert (Hu : update_doentes_sheet w "" r = w ++ [r])
        by (unfold update_doentes_sheet; rewrite Hw; reflexivity).
      rewrite Hu.
      change (fold_left _ (map (pair "") rs) (w ++ [r]))
        with (upsert_all (w ++ [r]) (map (pair "") rs)).
      rewrite IH; [rewrite <- app_assoc; reflexivity| |assumption].
      unfold col_values_1 in *. rewrite map_app. cbn [map]. rewrite Hr.
      rewrite drop_trailing_empty_snoc. exact Hw. }
  apply H; [|assumption].
  apply list_index_absent. intros Hin.
  apply drop_trailing_empty_In in Hin. contradiction.
Qed.

(** ** Text of the uploaded files *)

Lemma nonempty_strip s : nonempty (strip s) = negb (all_space s).
Proof.
  unfold strip. rewrite lstrip_rstrip_comm.
  induction s as [|c s IH]; [reflexivity|].
  cbn [lstrip all_space]. destruct (is_space c) eqn:Hc; [exact IH|].
  cbn [rstrip]. destruct (rstrip s); rewrite ?Hc; reflexivity.
Qed.

Lemma lstrip_idem s : lstrip (lstrip s) = lstrip s.
Proof.
  induction s as [|c s IH]; [reflexivity|].
  cbn [lstrip]. destruct (is_space c) eqn:Hc; [exact IH|].
  cbn [lstrip]. rewrite Hc. reflexivity.
Qed.

Lemma rstrip_idem s : rstrip (rstrip s) = rstrip s.
Proof.
  induction s as [|c s IH]; [reflexivity|].
  cbn [rstrip]. destruct (rstrip s) as [|c' t] eqn:E.
  - destruct (is_space c) eqn:Hc; [reflexivity|].
    cbn [rstrip]. rewrite Hc. reflexivity.
  - cbn [rstrip]. cbn [rstrip] in IH. rewrite IH. reflexivity.
Qed.

Lemma strip_idem s : strip (strip s) = strip s.
Proof.
  unfold strip.
  rewrite <- (lstrip_rstrip_comm (rstrip s)).
  rewrite lstrip_idem, rstrip_idem. reflexivity.
Qed.

Lemma join_empty_iff sep l :
  forallb nonempty l = true -> (join sep l = EmptyString <-> l = []).
Proof.
  intros Hl. split; [|intros ->; reflexivity].
  destruct l as [|x l]; [reflexivity|].
  cbn [forallb] in Hl. apply andb_true_iff in Hl. destruct Hl as [Hx _].
  unfold join. cbn [String.concat].
  destruct x as [|c x]; [discriminate Hx|].
  destruct l; cbn [String.append]; discriminate.
Qed.

Lemma filter_nonempty_strip_nil l :
  filter nonempty (map strip l) = [] <-> forallb all_space l = true.
Proof.
  induction l as [|x l IH]; [cbn; tauto|].
  cbn [map filter forallb]. rewrite nonempty_strip.
  destruct (all_space x); cbn [negb andb]; [exact IH|].
  split; discriminate.
Qed.

Lemma row_text_empty_iff cells :
  row_text cells = EmptyString <-> forallb all_space cells = true.
Proof.
  unfold row_text.
  assert (Hne : forallb nonempty
                  (map strip (filter (fun c => nonempty (strip c)) cells))
                = true).
  { induction cells as [|c cells IH]; [reflexivity|].
    cbn [filter]. destruct (nonempty (strip c)) eqn:E; [|exact IH].
    cbn [map forallb]. rewrite E. exact IH. }
  rewrite (join_empty_iff _ _ Hne). clear Hne.
  induction cells as [|c cells IH]; [cbn; tauto|].
  cbn [filter forallb]. rewrite nonempty_strip.
  destruct (all_space c); cbn [negb andb map]; [exact IH|].
  split; discriminate.
Qed.

Lemma filter_nonempty_rows_nil rows :
  filter nonempty (map row_text rows) = []
  <-> forallb (forallb all_space) rows = true.
Proof.
  induction rows as [|r rows IH]; [cbn; tauto|].
  cbn [map filter forallb].
  pose proof (row_text_empty_iff r) as Hr.
  destruct (forallb all_space r).
  - rewrite (proj2 Hr eq_refl). cbn [nonempty String.eqb negb andb]. exact IH.
  - destruct (row_text r) as [|c t] eqn:E.
    + assert (false = true) by (apply Hr; reflexivity). discriminate.
    + cbn [nonempty String.eqb negb andb]. split; discriminate.
Qed.

Lemma docx_lines_nonempty doc : forallb nonempty (docx_lines doc) = true.
Proof.
  unfold docx_lines. rewrite forallb_app.
  assert (H : forall l, forallb nonempty (filter nonempty l) = true).
  { induction l as [|x l IH]; [reflexivity|].
    cbn [filter]. destruct (nonempty x) eqn:E; [|exact IH].
    cbn [forallb]. rewrite E. exact IH. }
  rewrite !H. reflexivity.
Qed.

(** X11. For a document whose texts are ASCII, the text of the .docx
    is empty exactly when every paragraph and every table cell of the
    document is empty or white space; an unreadable file passes its
    exception on.  (Outside ASCII [str.strip] also removes the white
    space of Unicode, such as a no-break space, which [strip] here
    keeps.) *)
Theorem parse_docx_empty_iff_blank doc :
  ascii_document doc = true ->
  (parse_docx (Ok doc) = Ok EmptyString <-> blank_document doc = true)
  /\ forall x, parse_docx (Raise x) = Raise x.
Proof.
  intros _. split; [|reflexivity].
  unfold parse_docx, blank_document. cbn [bind].
  assert (Hjoin : join NEWLINE (docx_lines doc) = EmptyString
                  <-> docx_lines doc = [])
    by (apply join_empty_iff, docx_lines_nonempty).
  assert (Hlines : docx_lines doc = []
                   <-> forallb all_space (paragraphs doc) = true
                       /\ forallb (forallb all_space)
                            (List.concat (tables doc)) = true).
  { unfold docx_lines.
    rewrite <- filter_nonempty_strip_nil, <- filter_nonempty_rows_nil.
    split; [apply app_eq_nil|]. intros [-> ->]. reflexivity. }
  rewrite andb_true_iff, <- Hlines, <- Hjoin.
  split; [intros H; injection H as H; exact H | intros ->; reflexivity].
Qed.

Lemma pdf_parts_filter pages :
  pdf_parts (filter has_text pages) = pdf_parts pages.
Proof.
  unfold pdf_parts. induction pages as [|p pages IH]; [reflexivity|].
  cbn [filter flat_map]. destruct p as [s|]; cbn [has_text].
  - destruct (nonempty s) eqn:E; cbn [flat_map]; rewrite ?E, IH; reflexivity.
  - exact IH.
Qed.

Lemma pdf_parts_none pages :
  forallb (fun p => negb (has_text p)) pages = true -> pdf_parts pages = [].
Proof.
  unfold pdf_parts. induction pages as [|p pages IH]; [reflexivity|].
  cbn [forallb flat_map]. intros H. apply andb_true_iff in H.
  destruct H as [Hp H]. rewrite (IH H).
  destruct p as [s|]; [|reflexivity]. cbn [has_text] in Hp.
  destruct (nonempty s); [discriminate Hp|reflexivity].
Qed.

(** X12. The text of a PDF has no white space at its ends; pages
    without text add nothing to it, and a PDF with no page of text gives
    the empty text. *)
Theorem parse_pdf_stripped_and_skips_blank_pages pages :
  (exists t, parse_pdf (Ok pages) = Ok t /\ strip t = t)
  /\ parse_pdf (Ok (filter has_text pages)) = parse_pdf (Ok pages)
  /\ (forallb (fun p => negb (has_text p)) pages = true ->
      parse_pdf (Ok pages) = Ok EmptyString).
Proof.
  unfold parse_pdf. cbn [bind]. split; [|split].
  - eexists. split; [reflexivity|]. apply strip_idem.
  - rewrite pdf_parts_filter. reflexivity.
  - intros H. rewrite (pdf_parts_none _ H). reflexivity.
Qed.

(** ** The review *)

Section ReviewProofs.

Variable container_repr : value -> string.

Lemma med_line_cases med key label :
  if class_ok med key
  then exists l, med_line container_repr (VDict med) (key, label) = Ok l
  else med_line container_repr (VDict med) (key, label) = Raise AttributeError.
Proof.
  unfold med_line. rewrite get_dict. cbn [bind].
  unfold class_ok, lookup_default, py_or.
  assert (Hdict : forall m,
             exists l,
               (presente <- get (VDict m) "presente" VNone ;;
                match presente with
                | VBool true =>
                    farmaco <- sv_get container_repr (VDict m) "farmaco" ;;
                    dose <- sv_get container_repr (VDict m) "dose" ;;
                    Ok (strip ("✅ **" ++ label ++ ":** " ++ or_dash farmaco
                               ++ " " ++ dose))%string
                | VBool false => Ok ("❌ **" ++ label ++ "**")%string
                | _ => Ok ("❓ **" ++ label ++ ":** não identificado")%string
                end) = Ok l).
  { intros m. rewrite get_dict. cbn [bind]. rewrite !sv_get_dict. cbn [bind].
    destruct (lookup_default m "presente" VNone) as [|[|]| | | | |];
      eexists; reflexivity. }
  destruct (dict_lookup med key) as [v|]; [|apply Hdict].
  destruct (truthy v) eqn:E.
  - destruct v; cbn [is_dict orb negb]; try reflexivity;
      try discriminate E. apply Hdict.
  - rewrite orb_true_r. apply Hdict.
Qed.

Lemma med_lines_cases med labels :
  if forallb (class_ok med) (map fst labels)
  then exists ls,
         sequence (map (med_line container_repr (VDict med)) labels) = Ok ls
         /\ List.length ls = List.length labels
  else sequence (map (med_line container_repr (VDict med)) labels)
       = Raise AttributeError.
Proof.
  induction labels as [|[key label] labels IH].
  - exists []. split; reflexivity.
  - cbn [map fst forallb sequence].
    pose proof (med_line_cases med key label) as H.
    destruct (class_ok med key); cbn [andb].
    + destruct H as [l ->]. cbn [bind].
      destruct (forallb (class_ok med) (map fst labels)).
      * destruct IH as (ls & -> & Hlen). cbn [bind].
        exists (l :: ls). split; [reflexivity|]. cbn. rewrite Hlen. reflexivity.
      * rewrite IH. reflexivity.
    + rewrite H. reflexivity.
Qed.

Lemma lab_dict label m key unit :
  exists l, lab container_repr label (VDict m) key unit = Ok l.
Proof. unfold lab. rewrite get_dict. cbn [bind]. eexists. reflexivity. Qed.

Lemma lab_not_dict label v key unit :
  is_dict v = false -> lab container_repr label v key unit = Raise AttributeError.
Proof. destruct v; cbn; intros; try discriminate; reflexivity. Qed.

Lemma fstring_dicts ps :
  forallb (fun p => match p with Lit _ => true | Fld obj _ => is_dict obj end)
    ps = true ->
  exists s, fstring container_repr ps = Ok s.
Proof.
  unfold fstring.
  assert (H : forallb (fun p => match p with
                                | Lit _ => true
                                | Fld obj _ => is_dict obj
                                end) ps = true ->
              exists l, sequence (map (piece_text container_repr) ps) = Ok l).
  { induction ps as [|p ps IH]; [exists []; reflexivity|].
    cbn [forallb map sequence]. intros Hp. apply andb_true_iff in Hp.
    destruct Hp as [Hp Hps]. destruct (IH Hps) as [l ->].
    destruct p as [s|obj key]; cbn [piece_text bind].
    - eexists. reflexivity.
    - destruct obj; try discriminate Hp. rewrite sv_get_dict. cbn [bind].
      eexists. reflexivity. }
  intros Hp. destruct (H Hp) as [l ->]. cbn [bind]. eexists. reflexivity.
Qed.

Lemma med_line_not_dict v entry :
  is_dict v = false -> med_line container_repr v entry = Raise AttributeError.
Proof.
  destruct entry as [key label].
  destruct v; cbn; intros; try discriminate; reflexivity.
Qed.

Ltac review_step m k :=
  destruct (section_ok m k) eqn:?;
  [ rewrite (section_default m k) by assumption
  | repeat (progress (cbn [sequence fstring map piece_text bind];
                      rewrite ?sv_get_dict));
    rewrite ?sv_get_not_dict by (apply section_bad; assumption);
    rewrite ?lab_not_dict by (apply section_bad; assumption);
    cbn [bind];
    repeat match goal with
           | |- context [section_ok ?m' ?k'] => destruct (section_ok m' k')
           end;
    try match goal with
        | |- context [forallb ?f ?l] => destruct (forallb f l)
        end;
    reflexivity ].

(** [render_review] on a record with objects under both top-level
    keys. *)
Lemma render_review_cases t d v :
  dict_lookup t "doente" = Some (VDict d) ->
  dict_lookup t "visita" = Some (VDict v) ->
  if reviewable (VDict t)
  then exists shown,
         render_review container_repr (VDict t) = Ok shown
         /\ List.length shown = 39
  else render_review container_repr (VDict t) = Raise AttributeError.
Proof.
  intros Hd Hv. cbn [reviewable]. rewrite Hd, Hv.
  unfold canonical_visita. cbn [forallb].
  unfold render_review. cbn [getitem]. rewrite Hd, Hv. cbn [bind].
  rewrite !get_dict. cbn [bind]. unfold fstring.
  review_step d "ic". review_step d "drc". review_step d "pocus".
  review_step v "sintomas". review_step v "exame_fisico".
  repeat (progress (cbn [sequence fstring map piece_text bind];
                    rewrite ?sv_get_dict)).
  destruct (section_ok d "medicacao") eqn:Hm.
  2:{ cbn [MED_LABELS map sequence].
      rewrite med_line_not_dict by (apply section_bad; assumption).
      cbn [bind].
      destruct (section_ok v "analises"); destruct (forallb _ _);
        reflexivity. }
  rewrite (section_default d "medicacao") by assumption.
  pose proof (med_lines_cases (section d "medicacao") MED_LABELS) as Hmeds.
  change (map fst MED_LABELS) with MED_CLASSES in Hmeds.
  destruct (forallb (class_ok (section d "medicacao")) MED_CLASSES).
  2:{ rewrite Hmeds. cbn [bind].
      destruct (section_ok v "analises"); reflexivity. }
  destruct Hmeds as (meds & -> & Hlen). cbn [bind].
  destruct (section_ok v "analises") eqn:Ha.
  2:{ cbn [sequence].
      rewrite lab_not_dict by (apply section_bad; assumption).
      reflexivity. }
  rewrite (section_default v "analises") by assumption.
  cbn [andb]. unfold lab. rewrite !get_dict. cbn [sequence bind].
  eexists. split; [reflexivity|].
  rewrite !length_app, Hlen. reflexivity.
Qed.

End ReviewProofs.

Lemma render_review_total_cases container_repr e :
  if reviewable e
  then exists shown,
         render_review container_repr e = Ok shown
         /\ List.length shown = 39
  else forall shown, render_review container_repr e <> Ok shown.
Proof.
  destruct e as [| | | | | |t]; try (cbn; discriminate).
  destruct (dict_lookup t "doente") as [x|] eqn:Hd.
  2:{ cbn [reviewable]. rewrite Hd. unfold render_review. cbn [getitem].
      rewrite Hd. discriminate. }
  destruct (dict_lookup t "visita") as [y|] eqn:Hv.
  2:{ cbn [reviewable]. rewrite Hd, Hv.
      unfold render_review. cbn [getitem]. rewrite Hd, Hv.
      destruct x; discriminate. }
  destruct x as [| | | | | |d];
    try (cbn [reviewable]; rewrite Hd; unfold render_review;
         cbn [getitem]; rewrite Hd, Hv; discriminate).
  destruct y as [| | | | | |v];
    try (cbn [reviewable]; rewrite Hd, Hv; unfold render_review;
         cbn [getitem]; rewrite Hd, Hv; cbn [bind]; rewrite !get_dict;
         discriminate).
  pose proof (render_review_cases container_repr t d v Hd Hv) as H.
  destruct (reviewable (VDict t)); [exact H|].
  rewrite H. discriminate.
Qed.

Lemma canonical_record_reviewable e :
  canonical_record e = true -> reviewable e = true.
Proof.
  destruct e as [| | | | | |t]; try discriminate.
  cbn [canonical_record reviewable].
  destruct (dict_lookup t "doente") as [[| | | | | |d]|]; try discriminate.
  destruct (dict_lookup t "visita") as [[| | | | | |v]|]; try discriminate.
  unfold canonical_doente. cbn [forallb].
  intros H.
  repeat match type of H with
         | (_ && _ = true) => apply andb_true_iff in H; destruct H as [? H]
         end.
  repeat match goal with
         | H : (_ && _ = true) |- _ =>
             apply andb_true_iff in H; destruct H
         end.
  repeat match goal with
         | H : section_ok _ _ = true |- _ => rewrite H; clear H
         end.
  repeat match goal with
         | H : _ = true |- _ => rewrite H; clear H
         end.
  reflexivity.
Qed.

Lemma reviewable_visit_row container_repr today n e :
  reviewable e = true ->
  exists t v,
    e = VDict t /\ dict_lookup t "visita" = Some (VDict v)
    /\ build_visitas_row container_repr n e
       = Ok (map (project_column container_repr today n v) VISITAS_COLUMNS).
Proof.
  destruct e as [| | | | | |t]; try discriminate.
  cbn [reviewable].
  destruct (dict_lookup t "doente") as [[| | | | | |d]|]; try discriminate.
  destruct (dict_lookup t "visita") as [[| | | | | |v]|] eqn:Hv;
    try discriminate.
  intros H. apply andb_true_iff in H. destruct H as [H _].
  apply andb_true_iff in H. destruct H as [_ Hcv].
  exists t, v. split; [reflexivity|]. split; [exact Hv|].
  rewrite (build_visitas_row_cases container_repr today n t v Hv), Hcv.
  reflexivity.
Qed.

Lemma render_review_error container_repr e :
  reviewable e = false ->
  render_review container_repr e
  = Raise match e with
          | VDict t =>
              match dict_lookup t "doente", dict_lookup t "visita" with
              | Some _, Some _ => AttributeError
              | _, _ => KeyError
              end
          | _ => TypeError
          end.
Proof.
  destruct e as [| | | | | |t]; try (intros _; reflexivity).
  destruct (dict_lookup t "doente") as [x|] eqn:Hd.
  2:{ intros _. unfold render_review. cbn [getitem]. rewrite Hd.
      reflexivity. }
  destruct (dict_lookup t "visita") as [y|] eqn:Hv.
  2:{ intros _. unfold render_review. cbn [getitem]. rewrite Hd, Hv.
      reflexivity. }
  destruct x as [| | | | | |d];
    try (intros _; unfold render_review; cbn [getitem]; rewrite Hd, Hv;
         reflexivity).
  destruct y as [| | | | | |v];
    try (intros _; unfold render_review; cbn [getitem]; rewrite Hd, Hv;
         cbn [bind]; rewrite !get_dict; reflexivity).
  intros Hr.
  pose proof (render_review_cases container_repr t d v Hd Hv) as H.
  rewrite Hr in H. exact H.
Qed.

(** X13. [render_review] accepts exactly the records with objects under
    both top-level keys whose sections ic, drc, pocus, medicacao,
    analises, sintomas and exame_fisico are absent or objects and whose
    medication classes are absent, objects or false values such as
    [null]; it then writes 39 texts.  On any other reply it raises:
    [TypeError] when the reply is not an object, [KeyError] when the
    object lacks one of the two top-level keys, [AttributeError]
    otherwise.  Every record the two builders accept is accepted by the
    review, and for every record the review accepts the visit row can be
    built; the review does not read the sections frcv and
    comorbilidades, so a record can pass the review and fail in
    [build_doentes_row]. *)
Theorem review_accepts_what_can_be_saved container_repr today n e :
  ((exists shown, render_review container_repr e = Ok shown)
   <-> reviewable e = true)
  /\ (forall shown,
        render_review container_repr e = Ok shown -> List.length shown = 39)
  /\ (reviewable e = false ->
      render_review container_repr e
      = Raise match e with
              | VDict t =>
                  match dict_lookup t "doente", dict_lookup t "visita" with
                  | Some _, Some _ => AttributeError
                  | _, _ => KeyError
                  end
              | _ => TypeError
              end)
  /\ (canonical_record e = true -> reviewable e = true)
  /\ (reviewable e = true ->
      exists rv, build_visitas_row container_repr n e = Ok rv)
  /\ reviewable sample_reviewable_only = true
  /\ build_doentes_row container_repr today n sample_reviewable_only
     = Raise AttributeError.
Proof.
  pose proof (render_review_total_cases container_repr e) as Hcases.
  split; [|split; [|split; [|split; [|split; [|split]]]]].
  - destruct (reviewable e).
    + destruct Hcases as (shown & H & _). split; [reflexivity|].
      intros _. exists shown. exact H.
    + split; [|discriminate]. intros [shown H]. exfalso.
      exact (Hcases shown H).
  - intros shown H. destruct (reviewable e).
    + destruct Hcases as (shown' & H' & Hlen). congruence.
    + exfalso. exact (Hcases shown H).
  - apply render_review_error.
  - apply canonical_record_reviewable.
  - intros H.
    destruct (reviewable_visit_row container_repr today n e H)
      as (t & v & _ & _ & Hb).
    eexists. exact Hb.
  - reflexivity.
  - reflexivity.
Qed.

(** ** Worksheets during a save *)

Lemma find_update_same ss name f :
  find_worksheet (update_worksheet ss name f) name
  = option_map f (find_worksheet ss name).
Proof.
  induction ss as [|[title ws] ss IH]; [reflexivity|].
  cbn [update_worksheet find_worksheet].
  destruct (String.eqb title name) eqn:E; cbn [find_worksheet]; rewrite E;
    [reflexivity|exact IH].
Qed.

Lemma find_update_other ss name other f :
  other <> name ->
  find_worksheet (update_worksheet ss name f) other = find_worksheet ss other.
Proof.
  intros Hne. induction ss as [|[title ws] ss IH]; [reflexivity|].
  cbn [update_worksheet find_worksheet].
  destruct (String.eqb_spec title name) as [->|Ht]; cbn [find_worksheet].
  - destruct (String.eqb_spec name other); [congruence|reflexivity].
  - rewrite IH. reflexivity.
Qed.

Lemma get_or_create_sheet_find ss name headers :
  find_worksheet (fst (get_or_create_sheet ss name headers)) name
  = Some (rows_or_header ss name headers).
Proof.
  unfold rows_or_header.
  destruct (find_worksheet ss name) as [ws|] eqn:Hf.
  - unfold get_or_create_sheet. rewrite Hf. exact Hf.
  - rewrite (get_or_create_sheet_absent ss name headers Hf). cbn [fst].
    apply find_worksheet_new. assumption.
Qed.

Lemma get_or_create_sheet_find_other ss name other headers :
  other <> name ->
  find_worksheet (fst (get_or_create_sheet ss name headers)) other
  = find_worksheet ss other.
Proof.
  intros Hne. destruct (find_worksheet ss name) as [ws|] eqn:Hf.
  - unfold get_or_create_sheet. rewrite Hf. reflexivity.
  - rewrite (get_or_create_sheet_absent ss name headers Hf). cbn [fst].
    apply find_worksheet_other. assumption.
Qed.

Lemma rows_or_header_other ss name other headers h' :
  other <> name ->
  rows_or_header (fst (get_or_create_sheet ss name headers)) other h'
  = rows_or_header ss other h'.
Proof.
  intros Hne. unfold rows_or_header.
  rewrite get_or_create_sheet_find_other by assumption. reflexivity.
Qed.

Lemma provision_find ss :
  find_worksheet (provision ss) SHEET_DOENTES
  = Some (rows_or_header ss SHEET_DOENTES HEADERS_DOENTES)
  /\ find_worksheet (provision ss) SHEET_VISITAS
     = Some (rows_or_header ss SHEET_VISITAS HEADERS_VISITAS)
  /\ find_worksheet (provision ss) SHEET_EVENTOS
     = Some (rows_or_header ss SHEET_EVENTOS HEADERS_EVENTOS)
  /\ (forall other,
        other <> SHEET_DOENTES -> other <> SHEET_VISITAS ->
        other <> SHEET_EVENTOS ->
        find_worksheet (provision ss) other = find_worksheet ss other).
Proof.
  unfold provision.
  assert (Hdv : SHEET_DOENTES <> SHEET_VISITAS) by discriminate.
  assert (Hde : SHEET_DOENTES <> SHEET_EVENTOS) by discriminate.
  assert (Hve : SHEET_VISITAS <> SHEET_EVENTOS) by discriminate.
  split; [|split; [|split]].
  - rewrite !get_or_create_sheet_find_other by assumption.
    apply get_or_create_sheet_find.
  - rewrite get_or_create_sheet_find_other by assumption.
    rewrite get_or_create_sheet_find.
    rewrite rows_or_header_other by congruence. reflexivity.
  - rewrite get_or_create_sheet_find.
    rewrite !rows_or_header_other by congruence. reflexivity.
  - intros other H1 H2 H3.
    rewrite !get_or_create_sheet_find_other by assumption. reflexivity.
Qed.

Lemma one_row_per_identifier_header :
  one_row_per_identifier [HEADERS_DOENTES].
Proof.
  intros k _. unfold rows_for. cbn [filter].
  destruct (has_key k HEADERS_DOENTES); cbn; lia.
Qed.

Lemma one_row_per_identifier_nil : one_row_per_identifier [].
Proof. intros k _. cbn. lia. Qed.

(** ** Runs of [main] *)

Section MainProofs.

Variable container_repr : value -> string.
Variable decode_compound : string -> result value.
Variable generate_content : string -> result (option string).
Variable today : date.
Variable app_password : option string.

Lemma processar_cases st n response :
  processar decode_compound st n response = (st, RespostaNaoJson)
  \/ processar decode_compound st n response = (st, ErroNaExtracao)
  \/ exists e,
       processar decode_compound st n response
       = (mksession true (Some e) (Some n), ExtracaoConcluida).
Proof.
  unfold processar.
  destruct (extract_with_gemini decode_compound response) as [e|x].
  - right. right. exists e. reflexivity.
  - destruct x; auto.
Qed.

(** What a run can do to the state. *)
Lemma main_cases f c a :
  let r := main container_repr decode_compound generate_content today
             app_password f c a in
  authenticated (after r)
  = (authenticated a
     || (is_click c Entrar
         && String.eqb (pwd_input f) (expected_password app_password)))
  /\ (after r = mkapp (authenticated (after r)) (sess a) (sheets a)
      \/ (authenticated a = true /\ c = Processar /\ can_process f = true
          /\ exists e,
               after r
               = mkapp true
                   (mksession true (Some e) (Some (n_processo_input f)))
                   (sheets a))
      \/ (authenticated a = true /\ c = Cancelar
          /\ pending_state (sess a) = PendingReview
          /\ after r
             = mkapp true (mksession false None (n_processo (sess a)))
                 (sheets a))
      \/ (authenticated a = true /\ c = Guardar
          /\ exists e n shown,
               sess a = mksession true (Some e) (Some n)
               /\ render_review container_repr e = Ok shown
               /\ review r = Some (Ok shown)
               /\ after r = fst (guardar container_repr today a n e)
               /\ messages r = snd (guardar container_repr today a n e))).
Proof.
  destruct a as [au [rts ex np] ss].
  unfold main, script, check_password, expected_password.
  cbn [authenticated sess sheets].
  destruct au; cbn [orb].
  - (* authenticated *)
    unfold pagina.
    destruct c; cbn [is_click andb].
    + (* NoClick *)
      unfold revisao. cbn [sess extracted ready_to_save n_processo is_click].
      destruct ex as [e|]; [|cbn; auto].
      destruct rts; [|cbn; auto].
      destruct np as [n|]; [|cbn; auto].
      destruct (render_review container_repr e); cbn; auto.
    + (* Entrar *)
      unfold revisao. cbn [sess extracted ready_to_save n_processo is_click].
      destruct ex as [e|]; [|cbn; auto].
      destruct rts; [|cbn; auto].
      destruct np as [n|]; [|cbn; auto].
      destruct (render_review container_repr e); cbn; auto.
    + (* Processar *)
      destruct (can_process f) eqn:Hcan.
      * destruct (texto_total f) as [[texto warnings]|x]; [|cbn; auto].
        cbn [sess].
        destruct (processar_cases (mksession rts ex np) (n_processo_input f)
                    (generate_content texto)) as [H|[H|[e H]]];
          rewrite H; try (cbn; auto).
        unfold revisao, set_sess.
        cbn [sess extracted ready_to_save n_processo is_click authenticated
             sheets].
        destruct (render_review container_repr e); cbn;
          (split; [reflexivity|]); right; left;
          repeat split; eauto.
      * unfold revisao.
        cbn [sess extracted ready_to_save n_processo is_click].
        destruct ex as [e|]; [|cbn; auto].
        destruct rts; [|cbn; auto].
        destruct np as [n|]; [|cbn; auto].
        destruct (render_review container_repr e); cbn; auto.
    + (* Guardar *)
      unfold revisao. cbn [sess extracted ready_to_save n_processo is_click].
      destruct ex as [e|]; [|cbn; auto].
      destruct rts; [|cbn; auto].
      destruct np as [n|]; [|cbn; auto].
      destruct (render_review container_repr e) as [shown|x] eqn:Hrev;
        [|cbn; auto].
      destruct (guardar container_repr today (mkapp true (mksession true (Some e) (Some n)) ss)
                  n e) as [a' m] eqn:Hg.
      cbn [fst snd after authenticated].
      assert (Hauth : authenticated a' = true).
      { unfold guardar in Hg. cbn [sheets authenticated sess] in Hg.
        repeat match type of Hg with
               | context [let (_, _) := ?x in _] => destruct x
               | context [match ?x with _ => _ end] => destruct x
               end; injection Hg as <- _; reflexivity. }
      split; [exact Hauth|].
      right. right. right. repeat split.
      exists e, n, shown. cbn [review messages].
      repeat split; auto; rewrite Hg; reflexivity.
    + (* Cancelar *)
      unfold revisao. cbn [sess extracted ready_to_save n_processo is_click].
      destruct ex as [e|]; [|cbn; auto].
      destruct rts; [|cbn; auto].
      destruct np as [n|]; [|cbn; auto].
      destruct (render_review container_repr e); [|cbn; auto].
      cbn. split; [reflexivity|]. right. right. left. auto.
  - (* not authenticated *)
    destruct c; cbn [is_click andb]; try (cbn; auto).
    destruct (String.eqb (pwd_input f)
                match app_password with Some p => p | None => "" end);
      [|cbn; auto].
    cbn [after fst]. unfold pagina. cbn [is_click andb].
    unfold revisao. cbn [sess extracted ready_to_save n_processo is_click].
    destruct ex as [e|]; [|cbn; auto].
    destruct rts; [|cbn; auto].
    destruct np as [n|]; [|cbn; auto].
    destruct (render_review container_repr e); cbn; auto.
Qed.

Lemma guardar_cases a n e :
  let ss3 := provision (sheets a) in
  match build_doentes_row container_repr today n e,
        build_visitas_row container_repr n e with
  | Raise _, _ =>
      guardar container_repr today a n e = (set_sheets a ss3, [ErroGuardar])
  | Ok rd, Raise _ =>
      guardar container_repr today a n e
      = (set_sheets a
           (update_worksheet ss3 SHEET_DOENTES
              (fun ws => update_doentes_sheet ws n rd)),
         [ErroGuardar])
  | Ok rd, Ok rv =>
      guardar container_repr today a n e
      = (mkapp (authenticated a)
           (mksession false (extracted (sess a)) (n_processo (sess a)))
           (update_worksheet
              (update_worksheet ss3 SHEET_DOENTES
                 (fun ws => update_doentes_sheet ws n rd))
              SHEET_VISITAS (fun ws => append_row ws rv)),
         [Guardado])
  end.
Proof.
  unfold guardar, provision.
  destruct (get_or_create_sheet (sheets a) SHEET_DOENTES HEADERS_DOENTES)
    as [ss1 w1].
  cbn [fst].
  destruct (get_or_create_sheet ss1 SHEET_VISITAS HEADERS_VISITAS)
    as [ss2 w2].
  cbn [fst].
  destruct (get_or_create_sheet ss2 SHEET_EVENTOS HEADERS_EVENTOS)
    as [ss3 w3].
  cbn [fst].
  destruct (build_doentes_row container_repr today n e); [|reflexivity].
  destruct (build_visitas_row container_repr n e); reflexivity.
Qed.

Lemma is_click_eq c c' : is_click c c' = true <-> c = c'.
Proof. destruct c, c'; cbn; split; intros H; congruence. Qed.

(** X14. Nothing is written without a confirmed review.  A run changes
    the spreadsheet only if the button Guardar was clicked in an
    authenticated session that holds a record pending review, and
    [render_review] accepted the record. *)
Theorem sheets_change_only_on_confirmed_save f c a :
  sheets (after (main container_repr decode_compound generate_content today
                   app_password f c a))
  <> sheets a ->
  c = Guardar
  /\ authenticated a = true
  /\ pending_state (sess a) = PendingReview
  /\ exists shown,
       review (main container_repr decode_compound generate_content today
                 app_password f c a)
       = Some (Ok shown).
Proof.
  intros Hne.
  destruct (main_cases f c a) as (_ & [H|[H|[H|H]]]).
  - rewrite H in Hne. cbn [sheets] in Hne. contradiction.
  - destruct H as (_ & _ & _ & e & H). rewrite H in Hne. contradiction.
  - destruct H as (_ & _ & _ & H). rewrite H in Hne. contradiction.
  - destruct H as (Ha & Hc & e & n & shown & Hs & _ & Hr & _).
    repeat split; try assumption.
    + rewrite Hs. reflexivity.
    + exists shown. exact Hr.
Qed.

(** X15. Where the secrets can be read: before the password is
    accepted a run changes neither the session nor the spreadsheet,
    whatever is clicked.  The session becomes authenticated exactly when
    Entrar is clicked with the expected password, which is the empty
    text when the secrets hold no entry [app_password]. *)
Theorem unauthenticated_run_changes_nothing f c a :
  authenticated a = false ->
  sess (after (main container_repr decode_compound generate_content today
                 app_password f c a))
  = sess a
  /\ sheets (after (main container_repr decode_compound generate_content
                      today app_password f c a))
     = sheets a
  /\ (authenticated
        (after (main container_repr decode_compound generate_content today
                  app_password f c a))
      = true
      <-> c = Entrar
          /\ pwd_input f
             = match app_password with Some p => p | None => "" end).
Proof.
  intros Ha.
  destruct (main_cases f c a) as (Hauth & H).
  rewrite Ha in Hauth. cbn [orb] in Hauth.
  assert (Hst : after (main container_repr decode_compound generate_content
                         today app_password f c a)
                = mkapp (authenticated
                           (after (main container_repr decode_compound
                                     generate_content today app_password
                                     f c a)))
                    (sess a) (sheets a)).
  { destruct H as [H|[H|[H|H]]]; [exact H| | |];
      destruct H as (Ht & _); congruence. }
  split; [rewrite Hst; reflexivity|]. split; [rewrite Hst; reflexivity|].
  rewrite Hauth, andb_true_iff, is_click_eq, String.eqb_eq.
  unfold expected_password. tauto.
Qed.

Lemma canonical_rows n e :
  canonical_record e = true ->
  exists rd rv,
    build_doentes_row container_repr today n e = Ok rd
    /\ build_visitas_row container_repr n e = Ok rv.
Proof.
  destruct e as [| | | | | |t]; try discriminate.
  cbn [canonical_record].
  destruct (dict_lookup t "doente") as [[| | | | | |d]|] eqn:Hd;
    try discriminate.
  destruct (dict_lookup t "visita") as [[| | | | | |v]|] eqn:Hv;
    try discriminate.
  intros H. apply andb_true_iff in H. destruct H as [Hcd Hcv].
  rewrite (build_doentes_row_cases container_repr today n t d Hd), Hcd.
  rewrite (build_visitas_row_cases container_repr today n t v Hv), Hcv.
  eexists. eexists. split; reflexivity.
Qed.

Lemma both_rows_canonical n e rd rv :
  build_doentes_row container_repr today n e = Ok rd ->
  build_visitas_row container_repr n e = Ok rv ->
  canonical_record e = true.
Proof.
  intros H1 H2.
  apply build_doentes_row_Ok_inv in H1.
  destruct H1 as (t & d & -> & Hd & Hcd & _).
  apply (build_visitas_row_Ok_inv container_repr today) in H2.
  destruct H2 as (t' & v & Heq & Hv & Hcv & _).
  injection Heq as <-.
  cbn [canonical_record]. rewrite Hd, Hv, Hcd, Hcv. reflexivity.
Qed.

Lemma main_guardar f a e n :
  authenticated a = true ->
  sess a = mksession true (Some e) (Some n) ->
  main container_repr decode_compound generate_content today app_password
    f Guardar a
  = match render_review container_repr e with
    | Raise x => mkrun a [] (Some (Raise x))
    | Ok shown =>
        mkrun (fst (guardar container_repr today a n e))
          (snd (guardar container_repr today a n e)) (Some (Ok shown))
    end.
Proof.
  destruct a as [au s ss]. cbn [authenticated sess]. intros -> ->.
  unfold main, script, check_password, pagina, revisao.
  cbn [authenticated sess sheets is_click andb extracted ready_to_save
       n_processo].
  destruct (render_review container_repr e); [|reflexivity].
  destruct (guardar container_repr today _ n e). reflexivity.
Qed.

Lemma find_after_save ss n rd rv :
  let ss5 :=
    update_worksheet
      (update_worksheet (provision ss) SHEET_DOENTES
         (fun ws => update_doentes_sheet ws n rd))
      SHEET_VISITAS (fun ws => append_row ws rv) in
  find_worksheet ss5 SHEET_DOENTES
  = Some (update_doentes_sheet
            (rows_or_header ss SHEET_DOENTES HEADERS_DOENTES) n rd)
  /\ find_worksheet ss5 SHEET_VISITAS
     = Some (rows_or_header ss SHEET_VISITAS HEADERS_VISITAS ++ [rv])
  /\ find_worksheet ss5 SHEET_EVENTOS
     = Some (rows_or_header ss SHEET_EVENTOS HEADERS_EVENTOS)
  /\ (forall other,
        other <> SHEET_DOENTES -> other <> SHEET_VISITAS ->
        other <> SHEET_EVENTOS ->
        find_worksheet ss5 other = find_worksheet ss other).
Proof.
  intros ss5. unfold ss5.
  destruct (provision_find ss) as (Hd & Hv & He & Ho).
  assert (Hdv : SHEET_DOENTES <> SHEET_VISITAS) by discriminate.
  assert (Hde : SHEET_EVENTOS <> SHEET_DOENTES) by discriminate.
  assert (Hve : SHEET_EVENTOS <> SHEET_VISITAS) by discriminate.
  split; [|split; [|split]].
  - rewrite find_update_other by assumption.
    rewrite find_update_same, Hd. reflexivity.
  - rewrite find_update_same.
    rewrite find_update_other by congruence. rewrite Hv. reflexivity.
  - rewrite !find_update_other by assumption. exact He.
  - intros other H1 H2 H3. rewrite !find_update_other by assumption.
    apply Ho; assumption.
Qed.

(** X16. A save is all or nothing as far as the record goes.  When the
    record is canonical both rows are built, the patient row is upserted
    in Doentes and the visit row appended to Visitas_Análises, and the
    session leaves the review with the record still stored.  When it is
    not, no row is written: the spreadsheet is unchanged or has only
    gained the provisioned worksheets, the session stays as it was and
    no success is reported. *)
Theorem save_is_all_or_nothing f a e n :
  authenticated a = true ->
  sess a = mksession true (Some e) (Some n) ->
  let r := main container_repr decode_compound generate_content today
             app_password f Guardar a in
  (canonical_record e = true
   /\ exists rd rv,
        build_doentes_row container_repr today n e = Ok rd
        /\ build_visitas_row container_repr n e = Ok rv
        /\ sheets (after r)
           = update_worksheet
               (update_worksheet (provision (sheets a)) SHEET_DOENTES
                  (fun ws => update_doentes_sheet ws n rd))
               SHEET_VISITAS (fun ws => append_row ws rv)
        /\ messages r = [Guardado]
        /\ sess (after r) = mksession false (Some e) (Some n))
  \/ (canonical_record e = false
      /\ sess (after r) = sess a
      /\ (sheets (after r) = sheets a
          \/ sheets (after r) = provision (sheets a))
      /\ ~ In Guardado (messages r)).
Proof.
  intros Ha Hs r. unfold r. rewrite (main_guardar f a e n Ha Hs).
  pose proof (render_review_total_cases container_repr e) as Hrev.
  destruct (canonical_record e) eqn:Hc.
  - left. split; [reflexivity|].
    rewrite (canonical_record_reviewable e Hc) in Hrev.
    destruct Hrev as (shown & -> & _).
    destruct (canonical_rows n e Hc) as (rd & rv & Hd & Hv).
    exists rd, rv. split; [exact Hd|]. split; [exact Hv|].
    pose proof (guardar_cases a n e) as Hg. cbv zeta in Hg.
    rewrite Hd, Hv in Hg. rewrite Hg. cbn [fst snd after messages sheets sess].
    rewrite Hs. cbn [extracted n_processo]. repeat split.
  - right. split; [reflexivity|].
    destruct (render_review container_repr e) as [shown|x] eqn:Hr.
    + pose proof (guardar_cases a n e) as Hg. cbv zeta in Hg.
      destruct (build_doentes_row container_repr today n e) as [rd|y] eqn:Hd.
      * exfalso.
        assert (Hrv : reviewable e = true).
        { destruct (reviewable e); [reflexivity|].
          exfalso. exact (Hrev shown eq_refl). }
        destruct (reviewable_visit_row container_repr today n e Hrv)
          as (t & v & _ & _ & Hv).
        assert (Hcan : canonical_record e = true)
          by (apply (both_rows_canonical n e rd _ Hd Hv)).
        congruence.
      * rewrite Hg. cbn [fst snd after messages sheets sess set_sheets].
        split; [reflexivity|]. split; [right; reflexivity|].
        intros [H|[]]; discriminate H.
    + cbn [after messages]. split; [reflexivity|].
      split; [left; reflexivity|]. intros [].
Qed.

(** X17. What a save of a canonical record leaves in the spreadsheet:
    Doentes holds its former rows (the header alone when the worksheet
    was missing) after the upsert of the patient row under the
    identifier stored with the record, whatever the form now holds;
    Visitas_Análises holds its former rows and the visit row after them;
    Eventos holds its former rows or its header and nothing more; every
    other worksheet is as it was. *)
Theorem save_writes_three_worksheets f a e n :
  authenticated a = true ->
  sess a = mksession true (Some e) (Some n) ->
  canonical_record e = true ->
  let ss' := sheets (after (main container_repr decode_compound
                              generate_content today app_password
                              f Guardar a)) in
  exists rd rv,
    build_doentes_row container_repr today n e = Ok rd
    /\ build_visitas_row container_repr n e = Ok rv
    /\ find_worksheet ss' SHEET_DOENTES
       = Some (update_doentes_sheet
                 (rows_or_header (sheets a) SHEET_DOENTES HEADERS_DOENTES)
                 n rd)
    /\ find_worksheet ss' SHEET_VISITAS
       = Some (rows_or_header (sheets a) SHEET_VISITAS HEADERS_VISITAS
               ++ [rv])
    /\ find_worksheet ss' SHEET_EVENTOS
       = Some (rows_or_header (sheets a) SHEET_EVENTOS HEADERS_EVENTOS)
    /\ (forall other,
          other <> SHEET_DOENTES -> other <> SHEET_VISITAS ->
          other <> SHEET_EVENTOS ->
          find_worksheet ss' other = find_worksheet (sheets a) other).
Proof.
  intros Ha Hs Hc ss'. unfold ss'. rewrite (main_guardar f a e n Ha Hs).
  pose proof (render_review_total_cases container_repr e) as Hrev.
  rewrite (canonical_record_reviewable e Hc) in Hrev.
  destruct Hrev as (shown & -> & _).
  destruct (canonical_rows n e Hc) as (rd & rv & Hd & Hv).
  exists rd, rv. split; [exact Hd|]. split; [exact Hv|].
  pose proof (guardar_cases a n e) as Hg. cbv zeta in Hg.
  rewrite Hd, Hv in Hg. rewrite Hg. cbn [fst after sheets].
  apply find_after_save.
Qed.

Lemma guardar_state a n e :
  authenticated (fst (guardar container_repr today a n e)) = authenticated a
  /\ (sess (fst (guardar container_repr today a n e)) = sess a
      \/ sess (fst (guardar container_repr today a n e))
         = mksession false (extracted (sess a)) (n_processo (sess a))).
Proof.
  pose proof (guardar_cases a n e) as Hg. cbv zeta in Hg.
  destruct (build_doentes_row container_repr today n e);
    [destruct (build_visitas_row container_repr n e)|];
    rewrite Hg; cbn; auto.
Qed.

Lemma can_process_identifier f :
  can_process f = true -> n_processo_input f <> "".
Proof.
  unfold can_process, nonempty. intros H. apply andb_true_iff in H.
  destruct H as [H _]. apply negb_true_iff, String.eqb_neq in H. exact H.
Qed.

Lemma main_all_snoc steps f c a :
  main_all container_repr decode_compound generate_content today app_password
    (steps ++ [(f, c)]) a
  = after (main container_repr decode_compound generate_content today
             app_password f c
             (main_all container_repr decode_compound generate_content today
                app_password steps a)).
Proof. unfold main_all. rewrite fold_left_app. reflexivity. Qed.

Lemma main_step_identifier f c a :
  stored_identifier_ok (sess a) ->
  stored_identifier_ok
    (sess (after (main container_repr decode_compound generate_content today
                    app_password f c a))).
Proof.
  intros Hid. destruct (main_cases f c a) as (_ & H). cbv zeta in H.
  destruct H as [H|[H|[H|H]]].
  - rewrite H. exact Hid.
  - destruct H as (_ & _ & Hcan & e & ->). cbn [sess].
    right. exists (n_processo_input f). split; [reflexivity|].
    apply can_process_identifier. exact Hcan.
  - destruct H as (_ & _ & _ & ->). left. reflexivity.
  - destruct H as (_ & _ & e & n & shown & _ & _ & _ & -> & _).
    destruct (guardar_state a n e) as (_ & [->| ->]); [exact Hid|].
    destruct Hid as [Hid|Hid]; [left; exact Hid|right; exact Hid].
Qed.

(** What a run can do to the spreadsheet. *)
Lemma main_step_sheets f c a :
  let ss' := sheets (after (main container_repr decode_compound
                              generate_content today app_password f c a)) in
  ss' = sheets a
  \/ (c = Guardar
      /\ exists e n,
           sess a = mksession true (Some e) (Some n)
           /\ (ss' = provision (sheets a)
               \/ exists rd,
                    build_doentes_row container_repr today n e = Ok rd
                    /\ (ss' = update_worksheet (provision (sheets a))
                                SHEET_DOENTES
                                (fun ws => update_doentes_sheet ws n rd)
                        \/ exists rv,
                             ss' = update_worksheet
                                     (update_worksheet (provision (sheets a))
                                        SHEET_DOENTES
                                        (fun ws =>
                                           update_doentes_sheet ws n rd))
                                     SHEET_VISITAS
                                     (fun ws => append_row ws rv)))).
Proof.
  cbv zeta. destruct (main_cases f c a) as (_ & H). cbv zeta in H.
  destruct H as [H|[H|[H|H]]].
  - left. rewrite H. reflexivity.
  - destruct H as (_ & _ & _ & e & ->). left. reflexivity.
  - destruct H as (_ & _ & _ & ->). left. reflexivity.
  - destruct H as (_ & Hc & e & n & shown & Hs & _ & _ & -> & _).
    right. split; [exact Hc|]. exists e, n. split; [exact Hs|].
    pose proof (guardar_cases a n e) as Hg. cbv zeta in Hg.
    destruct (build_doentes_row container_repr today n e) as [rd|x].
    + right. exists rd. split; [reflexivity|].
      destruct (build_visitas_row container_repr n e) as [rv|y];
        rewrite Hg; cbn [fst sheets set_sheets].
      * right. exists rv. reflexivity.
      * left. reflexivity.
    + left. rewrite Hg. reflexivity.
Qed.

Lemma rows_of_find ss title ws :
  find_worksheet ss title = Some ws -> rows_of ss title = ws.
Proof. unfold rows_of. intros ->. reflexivity. Qed.

Lemma rows_or_header_find ss title headers ws :
  find_worksheet ss title = Some ws -> rows_or_header ss title headers = ws.
Proof. unfold rows_or_header. intros ->. reflexivity. Qed.

Lemma one_row_rows_or_header ss :
  one_row_per_identifier (rows_of ss SHEET_DOENTES) ->
  one_row_per_identifier (rows_or_header ss SHEET_DOENTES HEADERS_DOENTES).
Proof.
  unfold rows_of, rows_or_header.
  destruct (find_worksheet ss SHEET_DOENTES); intros H;
    [exact H|apply one_row_per_identifier_header].
Qed.

Lemma main_step_one_row f c a :
  stored_identifier_ok (sess a) ->
  one_row_per_identifier (rows_of (sheets a) SHEET_DOENTES) ->
  one_row_per_identifier
    (rows_of (sheets (after (main container_repr decode_compound
                               generate_content today app_password f c a)))
       SHEET_DOENTES).
Proof.
  intros Hid Hone. pose proof (main_step_sheets f c a) as H. cbv zeta in H.
  apply one_row_rows_or_header in Hone.
  destruct H as [->|(_ & e & n & Hs & H)].
  - unfold rows_of, rows_or_header in *.
    destruct (find_worksheet (sheets a) SHEET_DOENTES);
      [exact Hone|apply one_row_per_identifier_nil].
  - assert (Hn : n <> "").
    { destruct Hid as [Hid|(n' & Hn' & Hne)]; rewrite Hs in *;
        cbn [extracted n_processo] in *; congruence. }
    destruct (provision_find (sheets a)) as (Hpd & _).
    destruct H as [->|(rd & Hd & H)].
    + rewrite (rows_of_find _ _ _ Hpd). exact Hone.
    + apply build_doentes_row_keyed in Hd.
      destruct H as [->|(rv & ->)].
      * unfold rows_of. rewrite find_update_same, Hpd. cbn [option_map].
        apply one_row_per_identifier_update; assumption.
      * destruct (find_after_save (sheets a) n rd rv) as (Hfd & _).
        cbv zeta in Hfd. rewrite (rows_of_find _ _ _ Hfd).
        apply one_row_per_identifier_update; assumption.
Qed.

(** X18. In every state a session reaches from its start, a stored
    record has an identifier that is not empty; and as long as the
    password has not been accepted the session holds no record and the
    spreadsheet is the one the session started with. *)
Theorem stored_identifier_never_empty steps ss :
  let a := main_all container_repr decode_compound generate_content today
             app_password steps (initial_state ss) in
  stored_identifier_ok (sess a)
  /\ (authenticated a = false ->
      sess a = mksession false None None /\ sheets a = ss).
Proof.
  induction steps as [|[f c] steps IH] using rev_ind.
  - cbn. split; [left; reflexivity|auto].
  - rewrite main_all_snoc.
    set (a0 := main_all container_repr decode_compound generate_content today
                 app_password steps (initial_state ss)) in *.
    cbv zeta in IH. destruct IH as [Hid Hun]. cbv zeta.
    split; [apply main_step_identifier; exact Hid|].
    destruct (main_cases f c a0) as (Hauth & H).
    cbv zeta in Hauth, H. intros Hf.
    rewrite Hf in Hauth. symmetry in Hauth.
    apply orb_false_iff in Hauth. destruct Hauth as [Ha0 _].
    destruct H as [H|[H|[H|H]]].
    + rewrite H. cbn [sess sheets]. exact (Hun Ha0).
    + destruct H as (Ha1 & _). congruence.
    + destruct H as (Ha1 & _). congruence.
    + destruct H as (Ha1 & _). congruence.
Qed.

(** X19. Across the runs of a session, the worksheet Doentes never
    comes to hold two rows of one identifier: when no identifier that
    is not empty has two rows at the start (or the worksheet does not
    exist yet), none has after any sequence of runs, whatever is
    uploaded, clicked or replied by the model. *)
Theorem session_keeps_one_row_per_identifier steps ss :
  one_row_per_identifier (rows_of ss SHEET_DOENTES) ->
  one_row_per_identifier
    (rows_of
       (sheets (main_all container_repr decode_compound generate_content
                  today app_password steps (initial_state ss)))
       SHEET_DOENTES).
Proof.
  intros Hone.
  cut (stored_identifier_ok
         (sess (main_all container_repr decode_compound generate_content
                  today app_password steps (initial_state ss)))
       /\ one_row_per_identifier
            (rows_of
               (sheets (main_all container_repr decode_compound
                          generate_content today app_password steps
                          (initial_state ss)))
               SHEET_DOENTES)).
  { intros [_ H]. exact H. }
  induction steps as [|[f c] steps IH] using rev_ind.
  - cbn [main_all fold_left initial_state sess sheets].
    split; [left; reflexivity|exact Hone].
  - rewrite main_all_snoc. destruct IH as [Hid H].
    split; [apply main_step_identifier; exact Hid|].
    apply main_step_one_row; assumption.
Qed.

(** X20. Across any runs from any state, Visitas_Análises only grows at
    its end, by at most one row for each click on the save button;
    Eventos keeps the rows it had, or its header alone when it did not
    exist; and a worksheet of another title than the three is never
    touched.  (A missing worksheet counts as holding its header, which
    is what the save makes of it.) *)
Theorem visits_only_grow_and_events_are_never_written steps a :
  let ss' := sheets (main_all container_repr decode_compound generate_content
                       today app_password steps a) in
  (exists added,
     rows_or_header ss' SHEET_VISITAS HEADERS_VISITAS
     = (rows_or_header (sheets a) SHEET_VISITAS HEADERS_VISITAS ++ added)%list
     /\ List.length added
        <= List.length
             (filter (fun step => is_click (snd step) Guardar) steps))
  /\ rows_or_header ss' SHEET_EVENTOS HEADERS_EVENTOS
     = rows_or_header (sheets a) SHEET_EVENTOS HEADERS_EVENTOS
  /\ (forall other,
        other <> SHEET_DOENTES -> other <> SHEET_VISITAS ->
        other <> SHEET_EVENTOS ->
        find_worksheet ss' other = find_worksheet (sheets a) other).
Proof.
  cbv zeta. induction steps as [|[f c] steps IH] using rev_ind.
  - cbn [main_all fold_left]. split; [|split; [reflexivity|reflexivity]].
    exists []. rewrite app_nil_r. split; [reflexivity|cbn; lia].
  - rewrite main_all_snoc.
    set (a0 := main_all container_repr decode_compound generate_content today
                 app_password steps a) in *.
    destruct IH as ((added & Hv & Hlen) & He & Ho).
    rewrite filter_app, length_app. cbn [filter snd].
    pose proof (main_step_sheets f c a0) as H. cbv zeta in H.
    assert (Hdv : SHEET_DOENTES <> SHEET_VISITAS) by discriminate.
    assert (Hde : SHEET_DOENTES <> SHEET_EVENTOS) by discriminate.
    assert (Hve : SHEET_VISITAS <> SHEET_EVENTOS) by discriminate.
    destruct (provision_find (sheets a0)) as (_ & Hpv & Hpe & Hpo).
    destruct H as [->|(-> & e & n & _ & H)].
    + split; [|split; [exact He|exact Ho]].
      exists added. split; [exact Hv|lia].
    + cbn [is_click length].
      destruct H as [->|(rd & _ & [->|(rv & ->)])].
      * split; [|split].
        -- exists added. rewrite (rows_or_header_find _ _ _ _ Hpv).
           split; [exact Hv|lia].
        -- rewrite (rows_or_header_find _ _ _ _ Hpe). exact He.
        -- intros other H1 H2 H3. rewrite Hpo by assumption.
           apply Ho; assumption.
      * split; [|split].
        -- exists added. unfold rows_or_header at 1.
           rewrite find_update_other, Hpv by congruence.
           split; [exact Hv|lia].
        -- unfold rows_or_header at 1.
           rewrite find_update_other, Hpe by congruence. exact He.
        -- intros other H1 H2 H3.
           rewrite find_update_other, Hpo by assumption.
           apply Ho; assumption.
      * destruct (find_after_save (sheets a0) n rd rv)
          as (_ & Hfv & Hfe & Hfo). cbv zeta in Hfv, Hfe, Hfo.
        split; [|split].
        -- exists (added ++ [rv]).
           rewrite (rows_or_header_find _ _ _ _ Hfv), Hv, app_assoc.
           split; [reflexivity|]. rewrite length_app.
           apply Nat.add_le_mono; [exact Hlen|apply Nat.le_refl].
        -- rewrite (rows_or_header_find _ _ _ _ Hfe). exact He.
        -- intros other H1 H2 H3. rewrite Hfo by assumption.
           apply Ho; assumption.
Qed.

End MainProofs.

(** * Instances of the further properties *)

(** The sample session leaves the header and the row of 123456 in
    Doentes, the header and one row in Visitas_Análises, and the header
    in Eventos. *)
Lemma sample_session :
  let a := main_all sample_repr sample_reply_decoder sample_model sample_today
             (Some "pw") sample_steps (initial_state []) in
  authenticated a = true
  /\ sess a = mksession false (Some sample_record) (Some "123456")
  /\ find_worksheet (sheets a) SHEET_DOENTES
     = Some [HEADERS_DOENTES; sample_doentes_row]
  /\ option_map (@List.length row) (find_worksheet (sheets a) SHEET_VISITAS)
     = Some 2
  /\ find_worksheet (sheets a) SHEET_EVENTOS = Some [HEADERS_EVENTOS].
Proof. vm_compute. repeat split. Qed.

Lemma age_negative_iff_birth_after_today_witness :
  strptime_ymd (VStr "2030-01-01") = Ok (mkdate 2030 1 1)
  /\ exists age,
       calculate_age sample_today (VStr "2030-01-01") = Some age
       /\ ((age < 0)%Z <-> date_before sample_today (mkdate 2030 1 1)).
Proof.
  assert (H : strptime_ymd (VStr "2030-01-01") = Ok (mkdate 2030 1 1))
    by reflexivity.
  split; [exact H|].
  exact (age_negative_iff_birth_after_today sample_today (VStr "2030-01-01")
           (mkdate 2030 1 1) H).
Defined.

Lemma age_monotone_in_today_witness :
  ~ date_before (mkdate 2024 3 10) (mkdate 2024 3 9)
  /\ calculate_age (mkdate 2024 3 9) (VStr "1960-03-10") = Some 63%Z
  /\ calculate_age (mkdate 2024 3 10) (VStr "1960-03-10") = Some 64%Z
  /\ (63 <= 64)%Z.
Proof.
  assert (H0 : ~ date_before (mkdate 2024 3 10) (mkdate 2024 3 9)).
  { unfold date_before. cbn. lia. }
  assert (H1 : calculate_age (mkdate 2024 3 9) (VStr "1960-03-10")
               = Some 63%Z) by reflexivity.
  assert (H2 : calculate_age (mkdate 2024 3 10) (VStr "1960-03-10")
               = Some 64%Z) by reflexivity.
  split; [exact H0|]. split; [exact H1|]. split; [exact H2|].
  exact (age_monotone_in_today (mkdate 2024 3 9) (mkdate 2024 3 10)
           (VStr "1960-03-10") 63%Z 64%Z H0 H1 H2).
Defined.

Lemma isoformat_strptime_round_trip_witness :
  valid_date (year sample_today) (month sample_today) (day sample_today)
  = true
  /\ strptime_ymd (VStr (isoformat sample_today)) = Ok sample_today
  /\ calculate_age sample_today (VStr (isoformat sample_today)) = Some 0%Z.
Proof.
  assert (H : valid_date (year sample_today) (month sample_today)
                (day sample_today) = true) by reflexivity.
  split; [exact H|].
  exact (isoformat_strptime_round_trip sample_today H).
Defined.

Lemma fence_is_transparent_witness :
  no_backtick "null" = true
  /\ extract_with_gemini sample_decoder (Ok (Some (fenced "null")))
     = json_loads sample_decoder (strip "null").
Proof.
  assert (H : no_backtick "null" = true) by reflexivity.
  split; [exact H|].
  exact (proj1 (fence_is_transparent sample_decoder "null" H)).
Defined.


Lemma upsert_last_call_wins_witness :
  "123456" <> ""
  /\ key_cell ["123456"; "y"] = "123456"
  /\ update_doentes_sheet
       (update_doentes_sheet sample_sheet "123456" ["123456"; "y"])
       "123456" ["123456"; "z"]
     = update_doentes_sheet sample_sheet "123456" ["123456"; "z"].
Proof.
  assert (H0 : "123456" <> "") by discriminate.
  assert (H1 : key_cell ["123456"; "y"] = "123456") by reflexivity.
  split; [exact H0|]. split; [exact H1|].
  exact (proj1 (upsert_last_call_wins sample_sheet "123456" ["123456"; "y"]
                  ["123456"; "z"] H0 H1)).
Defined.


Lemma upsert_calls_commute_witness :
  "123456" <> "" /\ "777" <> "" /\ "123456" <> "777"
  /\ key_cell ["123456"; "z"] = "123456"
  /\ key_cell ["777"; "w"] = "777"
  /\ Permutation
       (update_doentes_sheet
          (update_doentes_sheet sample_sheet "123456" ["123456"; "z"])
          "777" ["777"; "w"])
       (update_doentes_sheet
          (update_doentes_sheet sample_sheet "777" ["777"; "w"])
          "123456" ["123456"; "z"]).
Proof.
  assert (H0 : "123456" <> "") by discriminate.
  assert (H1 : "777" <> "") by discriminate.
  assert (H2 : "123456" <> "777") by discriminate.
  assert (H3 : key_cell ["123456"; "z"] = "123456") by reflexivity.
  assert (H4 : key_cell ["777"; "w"] = "777") by reflexivity.
  split; [exact H0|]. split; [exact H1|]. split; [exact H2|].
  split; [exact H3|]. split; [exact H4|].
  exact (proj1 (upsert_calls_commute sample_sheet "123456" ["123456"; "z"]
                  "777" ["777"; "w"] H0 H1 H2 H3 H4)).
Defined.

Lemma empty_identifier_always_appends_witness :
  ~ In "" (keys sample_sheet)
  /\ Forall (fun r => key_cell r = "" /\ holds_data r = true)
       [[""; "x"]; [""; "y"]]
  /\ upsert_all sample_sheet (map (pair "") [[""; "x"]; [""; "y"]])
     = (sample_sheet ++ [[""; "x"]; [""; "y"]])%list.
Proof.
  assert (H0 : ~ In "" (keys sample_sheet)).
  { intros H. vm_compute in H. intuition discriminate. }
  assert (H1 : Forall (fun r => key_cell r = "" /\ holds_data r = true)
                 [[""; "x"]; [""; "y"]]).
  { repeat constructor. }
  split; [exact H0|]. split; [exact H1|].
  exact (empty_identifier_always_appends sample_sheet
           [[""; "x"]; [""; "y"]] H0 H1).
Defined.

Lemma parse_docx_empty_iff_blank_witness :
  ascii_document sample_blank_document = true
  /\ blank_document sample_blank_document = true
  /\ parse_docx (Ok sample_blank_document) = Ok EmptyString.
Proof.
  assert (H0 : ascii_document sample_blank_document = true) by reflexivity.
  assert (H1 : blank_document sample_blank_document = true) by reflexivity.
  split; [exact H0|]. split; [exact H1|].
  exact (proj2 (proj1 (parse_docx_empty_iff_blank sample_blank_document H0))
           H1).
Defined.

Lemma sheets_change_only_on_confirmed_save_witness :
  sheets (after (main sample_repr sample_decoder sample_generate sample_today
                   None sample_form Guardar sample_pending))
  <> sheets sample_pending
  /\ Guardar = Guardar
  /\ authenticated sample_pending = true
  /\ pending_state (sess sample_pending) = PendingReview
  /\ exists shown,
       review (main sample_repr sample_decoder sample_generate sample_today
                 None sample_form Guardar sample_pending)
       = Some (Ok shown).
Proof.
  assert (H : sheets (after (main sample_repr sample_decoder sample_generate
                               sample_today None sample_form Guardar
                               sample_pending))
              <> sheets sample_pending).
  { intros E. vm_compute in E. discriminate E. }
  split; [exact H|].
  exact (sheets_change_only_on_confirmed_save sample_repr sample_decoder
           sample_generate sample_today None sample_form Guardar
           sample_pending H).
Defined.

Lemma unauthenticated_run_changes_nothing_witness :
  authenticated (initial_state []) = false
  /\ sess (after (main sample_repr sample_decoder sample_generate sample_today
                    (Some "pw") (mkform "pw" "" None None) Entrar
                    (initial_state [])))
     = sess (initial_state [])
  /\ sheets (after (main sample_repr sample_decoder sample_generate
                      sample_today (Some "pw") (mkform "pw" "" None None)
                      Entrar (initial_state [])))
     = sheets (initial_state [])
  /\ authenticated
       (after (main sample_repr sample_decoder sample_generate sample_today
                 (Some "pw") (mkform "pw" "" None None) Entrar
                 (initial_state [])))
     = true.
Proof.
  assert (H : authenticated (initial_state []) = false) by reflexivity.
  split; [exact H|].
  pose proof (unauthenticated_run_changes_nothing sample_repr sample_decoder
                sample_generate sample_today (Some "pw")
                (mkform "pw" "" None None) Entrar (initial_state []) H)
    as (H1 & H2 & H3).
  split; [exact H1|]. split; [exact H2|].
  apply (proj2 H3). split; reflexivity.
Defined.

(** With another text than the password, or with no click on Entrar,
    the session stays out. *)
Lemma wrong_password_stays_out :
  authenticated
    (after (main sample_repr sample_decoder sample_generate sample_today
              (Some "pw") (mkform "" "" None None) Entrar
              (initial_state [])))
  = false
  /\ authenticated
       (after (main sample_repr sample_decoder sample_generate sample_today
                 (Some "pw") (mkform "pw" "" None None) Processar
                 (initial_state [])))
     = false.
Proof. split; reflexivity. Qed.

Lemma save_is_all_or_nothing_witness :
  authenticated sample_pending = true
  /\ sess sample_pending
     = mksession true (Some sample_record) (Some "123456")
  /\ (messages (main sample_repr sample_decoder sample_generate sample_today
                  None sample_form Guardar sample_pending)
      = [Guardado]
      \/ ~ In Guardado
             (messages (main sample_repr sample_decoder sample_generate
                          sample_today None sample_form Guardar
                          sample_pending))).
Proof.
  assert (H0 : authenticated sample_pending = true) by reflexivity.
  assert (H1 : sess sample_pending
               = mksession true (Some sample_record) (Some "123456"))
    by reflexivity.
  split; [exact H0|]. split; [exact H1|].
  destruct (save_is_all_or_nothing sample_repr sample_decoder sample_generate
              sample_today None sample_form sample_pending sample_record
              "123456" H0 H1)
    as [(_ & rd & rv & _ & _ & _ & Hm & _)|(_ & _ & _ & Hm)].
  - left. exact Hm.
  - right. exact Hm.
Defined.

Lemma save_writes_three_worksheets_witness :
  authenticated sample_pending = true
  /\ sess sample_pending
     = mksession true (Some sample_record) (Some "123456")
  /\ canonical_record sample_record = true
  /\ exists rd rv,
       build_doentes_row sample_repr sample_today "123456" sample_record
       = Ok rd
       /\ build_visitas_row sample_repr "123456" sample_record = Ok rv
       /\ find_worksheet
            (sheets (after (main sample_repr sample_decoder sample_generate
                              sample_today None sample_form Guardar
                              sample_pending)))
            SHEET_DOENTES
          = Some (update_doentes_sheet
                    (rows_or_header (sheets sample_pending) SHEET_DOENTES
                       HEADERS_DOENTES)
                    "123456" rd).
Proof.
  assert (H0 : authenticated sample_pending = true) by reflexivity.
  assert (H1 : sess sample_pending
               = mksession true (Some sample_record) (Some "123456"))
    by reflexivity.
  assert (H2 : canonical_record sample_record = true) by reflexivity.
  split; [exact H0|]. split; [exact H1|]. split; [exact H2|].
  destruct (save_writes_three_worksheets sample_repr sample_decoder
              sample_generate sample_today None sample_form sample_pending
              sample_record "123456" H0 H1 H2)
    as (rd & rv & Hd & Hv & Hfd & _).
  exists rd, rv. split; [exact Hd|]. split; [exact Hv|exact Hfd].
Defined.

Lemma session_keeps_one_row_per_identifier_witness :
  one_row_per_identifier (rows_of [] SHEET_DOENTES)
  /\ one_row_per_identifier
       (rows_of
          (sheets (main_all sample_repr sample_reply_decoder sample_model
                     sample_today (Some "pw") sample_steps
                     (initial_state [])))
          SHEET_DOENTES).
Proof.
  assert (H : one_row_per_identifier (rows_of [] SHEET_DOENTES)).
  { intros k _. cbn. lia. }
  split; [exact H|].
  exact (session_keeps_one_row_per_identifier sample_repr sample_reply_decoder
           sample_model sample_today (Some "pw") sample_steps [] H).
Defined.
